(** * Embassy staff: Navigator, Orchestrator and Concierge agents

    A shallow embedding of the agents of the AI Embassy Staff prototype
    (src/agents, src/models, src/services) and the properties of its
    relevance scoring, BOM derivation, worker coordination and intake
    conversation.

    Conventions of the embedding.
    - Python [str] values are [string]s of ASCII text; [lower], [upper],
      [strip], [split], [title] and the regular expression [\b\w+\b] act
      on that domain as CPython does.
    - Python [float] scores are IEEE 754 binary64 values ([spec_float] at
      precision 53 and maximal exponent 1024), added and multiplied with
      rounding to nearest even and compared as the code compares them; a
      decimal literal is the double nearest to it.  A float budget is only
      tested for being non-zero and is kept as a rational.
    - [Optional[T]] is [option T]; Python truthiness of an optional string
      is [truthy] (present and not empty).
    - [uuid4()] identifiers are supplied by the caller as an argument.
    - [datetime] fields, activity logs and logger calls are left out, and so
      are the fields of [TechHubProject] and [ChatSession] that no modelled
      function reads: no decision depends on them.
    - The JSON directory of the storage service is a finite map per
      collection, keyed by the file name (the item id). *)

From Stdlib Require Import String Ascii List Bool Arith ZArith Lia QArith Permutation SpecFloat.
From stdpp Require Import gmap strings pretty.

(** ** Python string operations on ASCII text *)

Module PyStr.

Definition is_upper (c : ascii) : bool :=
  Nat.leb 65 (nat_of_ascii c) && Nat.leb (nat_of_ascii c) 90.

Definition is_lower (c : ascii) : bool :=
  Nat.leb 97 (nat_of_ascii c) && Nat.leb (nat_of_ascii c) 122.

Definition is_digit (c : ascii) : bool :=
  Nat.leb 48 (nat_of_ascii c) && Nat.leb (nat_of_ascii c) 57.

(** [str.isspace] on ASCII: TAB, LF, VT, FF, CR, FS, GS, RS, US, SPACE. *)
Definition is_space (c : ascii) : bool :=
  (Nat.leb 9 (nat_of_ascii c) && Nat.leb (nat_of_ascii c) 13)
  || (Nat.leb 28 (nat_of_ascii c) && Nat.leb (nat_of_ascii c) 32).

(** The class [\w] on ASCII. *)
Definition is_word (c : ascii) : bool :=
  is_upper c || is_lower c || is_digit c || Nat.eqb (nat_of_ascii c) 95.

Definition lower_char (c : ascii) : ascii :=
  if is_upper c then ascii_of_nat (nat_of_ascii c + 32) else c.

Definition upper_char (c : ascii) : ascii :=
  if is_lower c then ascii_of_nat (nat_of_ascii c - 32) else c.

Fixpoint lower (s : string) : string :=
  match s with
  | EmptyString => EmptyString
  | String c s' => String (lower_char c) (lower s')
  end.

Fixpoint upper (s : string) : string :=
  match s with
  | EmptyString => EmptyString
  | String c s' => String (upper_char c) (upper s')
  end.

(** [str.title]: a cased letter is upper-cased when it follows an uncased
    character and lower-cased otherwise. *)
Fixpoint title_go (prev_cased : bool) (s : string) : string :=
  match s with
  | EmptyString => EmptyString
  | String c s' =>
      let cased := is_upper c || is_lower c in
      String (if cased then (if prev_cased then lower_char c else upper_char c) else c)
             (title_go cased s')
  end.

Definition title (s : string) : string := title_go false s.

Fixpoint lstrip (s : string) : string :=
  match s with
  | EmptyString => EmptyString
  | String c s' => if is_space c then lstrip s' else s
  end.

Definition rstrip (s : string) : string := String.rev (lstrip (String.rev s)).

Definition strip (s : string) : string := rstrip (lstrip s).

(** [sub in s]. *)
Fixpoint contains (sub s : string) : bool :=
  String.prefix sub s
  || match s with
     | EmptyString => false
     | String _ s' => contains sub s'
     end.

Definition flush (cur : string) : list string :=
  match cur with
  | EmptyString => []
  | _ => [String.rev cur]
  end.

(** The maximal runs of characters satisfying [p], left to right; [cur]
    holds the run being read, reversed. *)
Fixpoint tokens_go (p : ascii -> bool) (cur : string) (s : string) : list string :=
  match s with
  | EmptyString => flush cur
  | String c s' =>
      if p c then tokens_go p (String c cur) s'
      else flush cur ++ tokens_go p EmptyString s'
  end.

Definition tokens (p : ascii -> bool) (s : string) : list string :=
  tokens_go p EmptyString s.

(** [s.split()] with no separator. *)
Definition split (s : string) : list string :=
  tokens (fun c => negb (is_space c)) s.

(** [re.findall(r'\b\w+\b', s)]. *)
Definition findall_words (s : string) : list string := tokens is_word s.

(** [s.split(sep)] for a one-character separator: empty fields are kept. *)
Fixpoint split_on_go (sep : ascii) (cur : string) (s : string) : list string :=
  match s with
  | EmptyString => [String.rev cur]
  | String c s' =>
      if Ascii.eqb c sep then String.rev cur :: split_on_go sep EmptyString s'
      else split_on_go sep (String c cur) s'
  end.

Definition split_on (sep : ascii) (s : string) : list string :=
  split_on_go sep EmptyString s.

(** [x in l] for a list of strings. *)
Definition mem (x : string) (l : list string) : bool :=
  existsb (String.eqb x) l.

(** Truthiness of a string and of an optional string. *)
Definition nonempty (s : string) : bool :=
  match s with EmptyString => false | _ => true end.

Definition truthy (o : option string) : bool :=
  match o with Some s => nonempty s | None => false end.

End PyStr.

Example lower_mixed : PyStr.lower "Need this ASAP" = "need this asap".
Proof. reflexivity. Qed.

Example split_runs : PyStr.split "  azure   demo for chat " = ["azure"; "demo"; "for"; "chat"].
Proof. reflexivity. Qed.

Example findall_words_punct :
  PyStr.findall_words "New Project: web-api, v2!" = ["New"; "Project"; "web"; "api"; "v2"].
Proof. reflexivity. Qed.

Example split_on_dots : PyStr.split_on "."%char "a.b..c" = ["a"; "b"; ""; "c"].
Proof. reflexivity. Qed.

Example title_word : PyStr.title "finance" = "Finance".
Proof. reflexivity. Qed.

Example strip_both : PyStr.strip "  hello world  " = "hello world".
Proof. reflexivity. Qed.

Example contains_mid : PyStr.contains "asap" "need this asap" = true.
Proof. reflexivity. Qed.

(** ** Python floats *)

Module PyFloat.

Definition prec : Z := 53.
Definition emax : Z := 1024.

Definition t : Type := spec_float.

(** [float(n)] for an integer, rounded to the nearest double, ties to
    even. Python raises OverflowError from 2^1024 on, where this gives an
    infinity; the integers converted here are lengths of lists and sets. *)
Definition of_Z (n : Z) : t := binary_normalize prec emax n 0 false.

Definition of_nat (n : nat) : t := of_Z (Z.of_nat n).

(** The decimal literal [n / d] for a power of ten [d]: the double nearest
    to the quotient. *)
Definition dec (n d : Z) : t := SFdiv prec emax (of_Z n) (of_Z d).

Definition add (x y : t) : t := SFadd prec emax x y.
Definition mul (x y : t) : t := SFmul prec emax x y.

Definition ltb (x y : t) : bool := SFltb x y.
Definition leb (x y : t) : bool := SFleb x y.
Definition eqb (x y : t) : bool := SFeqb x y.

(** [min(a, b)] and [max(a, b)] of two arguments: the first one is kept
    unless the second is strictly smaller, respectively greater. *)
Definition min (a b : t) : t := if ltb b a then b else a.
Definition max (a b : t) : t := if ltb a b then b else a.

Definition f0_0 : t := S754_zero false.
Definition f1_0 : t := of_Z 1.
Definition f0_02 : t := dec 2 100.
Definition f0_05 : t := dec 5 100.
Definition f0_15 : t := dec 15 100.
Definition f0_2 : t := dec 2 10.
Definition f0_25 : t := dec 25 100.
Definition f0_3 : t := dec 3 10.
Definition f0_7 : t := dec 7 10.

(** The place of a float in the order of comparison: sign class, then
    exponent, then mantissa; a NaN has none. *)
Definition rank (x : t) : option (Z * Z * Z) :=
  match x with
  | S754_nan => None
  | S754_infinity true => Some (-2, 0, 0)%Z
  | S754_finite true m e => Some (-1, - e, Zneg m)%Z
  | S754_zero _ => Some (0, 0, 0)%Z
  | S754_finite false m e => Some (1, e, Zpos m)%Z
  | S754_infinity false => Some (2, 0, 0)%Z
  end.

(** The lexicographic order of ranks. *)
Definition lt3 (a b : Z * Z * Z) : Prop :=
  (fst (fst a) < fst (fst b)
   \/ (fst (fst a) = fst (fst b)
       /\ (snd (fst a) < snd (fst b)
           \/ (snd (fst a) = snd (fst b) /\ snd a < snd b))))%Z.

End PyFloat.

Example literal_0_02 : PyFloat.f0_02 = S754_finite false 5764607523034235 (-58).
Proof. reflexivity. Qed.

Example literal_0_05 : PyFloat.f0_05 = S754_finite false 7205759403792794 (-57).
Proof. reflexivity. Qed.

Example literal_0_25 : PyFloat.f0_25 = S754_finite false 4503599627370496 (-54).
Proof. reflexivity. Qed.

Example literal_0_3 : PyFloat.f0_3 = S754_finite false 5404319552844595 (-54).
Proof. reflexivity. Qed.

Example literal_0_7 : PyFloat.f0_7 = S754_finite false 6305039478318694 (-53).
Proof. reflexivity. Qed.

Example literal_1_0 : PyFloat.f1_0 = S754_finite false 4503599627370496 (-52).
Proof. reflexivity. Qed.

(** [0.02 + 0.15 + 0.05] and [0.02 + 0.2] differ: the first is the double
    just below 0.22. *)
Example sums_differ :
  PyFloat.ltb (PyFloat.add (PyFloat.add PyFloat.f0_02 PyFloat.f0_15) PyFloat.f0_05)
              (PyFloat.add PyFloat.f0_02 PyFloat.f0_2) = true.
Proof. reflexivity. Qed.

(** ** Data model (src/models/embassy_models.py) *)

(** A value interpolated in an f-string. *)
Inductive arg :=
| AStr (s : string)
| ANat (n : nat).

(** The text of a response: a literal, an f-string (its template and the
    interpolated values), or one of the long multi-line literals of the
    source, named after the variable that holds it. *)
Inductive message :=
| Text (s : string)
| Fmt (template : string) (args : list arg)
| Canned (name : string) (args : list arg).

Module ProjectConstraints.
(** [budget: Optional[Union[str, float]]]. *)
Inductive budget_t :=
| BudgetText (s : string)
| BudgetAmount (q : Q).

Record t := {
  budget : option budget_t;
  timeline : option string;
  known_dependencies : list string;
  compliance_requirements : list string
}.

Definition default : t :=
  {| budget := None; timeline := None;
     known_dependencies := []; compliance_requirements := [] |}.

(** Truthiness of the budget: a non-empty text or a non-zero amount. *)
Definition budget_truthy (b : option budget_t) : bool :=
  match b with
  | None => false
  | Some (BudgetText s) => PyStr.nonempty s
  | Some (BudgetAmount q) => negb (Qeq_bool q 0)
  end.
End ProjectConstraints.

Module UseCase.
Record t := {
  use_case_id : string;
  title : string;
  description : string;
  industry_vertical : option string;
  client_name : option string;
  client_context : option string;
  internal_contacts : list string;
  cloud_preference : option string;
  project_constraints : ProjectConstraints.t;
  engagement_stage : option string;
  success_criteria : list string;
  resource_type_preference : list string;
  status : string;
  created_by : string
}.
End UseCase.

Module RecommendedResource.
Record t := {
  resource_id : string;
  title : string;
  type : string;
  relevance_score : PyFloat.t;
  description : string;
  link : string
}.
End RecommendedResource.

Module BOMItem.
Record t := {
  item : string;
  category : string;
  source : string;
  required : bool
}.
End BOMItem.

Module ResourceMatch.
Record t := {
  match_id : string;
  use_case_id : string;
  matched_by : string;
  recommended_resources : list RecommendedResource.t;
  generated_bom : list BOMItem.t;
  notes : option message;
  status : string
}.
End ResourceMatch.

Module ChatSession.
Record t := {
  session_id : string;
  user_id : string;
  current_use_case_id : option string;
  current_project_id : option string;
  status : string
}.
End ChatSession.

Module TechHubProject.
Record t := {
  project_id : string;
  use_case_id : string;
  title : string;
  current_phase : string;
  created_by : string;
  collaborators : list string
}.
End TechHubProject.

(** ** Catalog (src/agents/embassy_base_agent.py, MockResourceCatalog) *)

Module Resource.
(** A catalog entry: the dictionaries of [MockResourceCatalog.resources]. *)
Record t := {
  resource_id : string;
  title : string;
  type : string;
  description : string;
  tags : list string;
  industry : list string;
  link : string
}.

Fixpoint strings_eqb (a b : list string) : bool :=
  match a, b with
  | [], [] => true
  | x :: a', y :: b' => String.eqb x y && strings_eqb a' b'
  | _, _ => false
  end.

(** Dictionary equality, as used by [match not in all_matches]. *)
Definition eqb (a b : t) : bool :=
  String.eqb (resource_id a) (resource_id b)
  && String.eqb (title a) (title b)
  && String.eqb (type a) (type b)
  && String.eqb (description a) (description b)
  && strings_eqb (tags a) (tags b)
  && strings_eqb (industry a) (industry b)
  && String.eqb (link a) (link b).

Definition mem (r : t) (l : list t) : bool := existsb (eqb r) l.
End Resource.

Module MockResourceCatalog.

Definition demo_001 : Resource.t :=
  {| Resource.resource_id := "demo-001";
     Resource.title := "Azure OpenAI Chat Demo";
     Resource.type := "Demo";
     Resource.description := "Interactive chat demo showcasing Azure OpenAI integration";
     Resource.tags := ["ai"; "chat"; "azure"; "openai"];
     Resource.industry := ["general"];
     Resource.link := "https://techhub.internal/demos/azure-openai-chat" |}.

Definition solution_001 : Resource.t :=
  {| Resource.resource_id := "solution-001";
     Resource.title := "Document Intelligence Pipeline";
     Resource.type := "Solution";
     Resource.description := "Complete solution for document processing with AI extraction";
     Resource.tags := ["ai"; "document"; "processing"; "pipeline"];
     Resource.industry := ["finance"; "legal"; "healthcare"];
     Resource.link := "https://techhub.internal/solutions/doc-intelligence" |}.

Definition component_001 : Resource.t :=
  {| Resource.resource_id := "component-001";
     Resource.title := "Azure Functions Auth Handler";
     Resource.type := "Component";
     Resource.description := "Reusable authentication component for Azure Functions";
     Resource.tags := ["auth"; "azure"; "functions"; "security"];
     Resource.industry := ["general"];
     Resource.link := "https://techhub.internal/components/auth-handler" |}.

Definition demo_002 : Resource.t :=
  {| Resource.resource_id := "demo-002";
     Resource.title := "Power BI Embedded Dashboard";
     Resource.type := "Demo";
     Resource.description := "Embedded analytics dashboard with Power BI";
     Resource.tags := ["powerbi"; "analytics"; "dashboard"; "embedded"];
     Resource.industry := ["retail"; "manufacturing"; "finance"];
     Resource.link := "https://techhub.internal/demos/powerbi-embedded" |}.

Definition solution_002 : Resource.t :=
  {| Resource.resource_id := "solution-002";
     Resource.title := "IoT Device Management Platform";
     Resource.type := "Solution";
     Resource.description := "Complete IoT device lifecycle management solution";
     Resource.tags := ["iot"; "device"; "management"; "azure"];
     Resource.industry := ["manufacturing"; "agriculture"; "utilities"];
     Resource.link := "https://techhub.internal/solutions/iot-platform" |}.

Definition resources : list Resource.t :=
  [demo_001; solution_001; component_001; demo_002; solution_002].

(** [search_resources(query, resource_type, industry, tags)] over the
    entries [rs]: the supplied filters are applied one after the other,
    a falsy argument imposes no constraint. *)
Definition search_resources (rs : list Resource.t) (query : string)
    (resource_type industry : option string) (tags : option (list string))
    : list Resource.t :=
  let results := rs in
  let results :=
    match resource_type with
    | Some ty =>
        if PyStr.nonempty ty
        then List.filter (fun r => String.eqb (PyStr.lower (Resource.type r)) (PyStr.lower ty)) results
        else results
    | None => results
    end in
  let results :=
    match industry with
    | Some ind =>
        if PyStr.nonempty ind
        then List.filter (fun r => PyStr.mem (PyStr.lower ind) (map PyStr.lower (Resource.industry r))) results
        else results
    | None => results
    end in
  let results :=
    match tags with
    | Some (t0 :: ts) =>
        List.filter (fun r =>
          existsb (fun tag => PyStr.mem (PyStr.lower tag) (map PyStr.lower (Resource.tags r)))
                  (t0 :: ts)) results
    | _ => results
    end in
  if PyStr.nonempty query then
    let query_lower := PyStr.lower query in
    List.filter (fun r =>
      PyStr.contains query_lower (PyStr.lower (Resource.title r))
      || PyStr.contains query_lower (PyStr.lower (Resource.description r))
      || existsb (fun tag => PyStr.contains query_lower (PyStr.lower tag)) (Resource.tags r))
      results
  else results.

(** [get_resource_by_id]. *)
Definition get_resource_by_id (rs : list Resource.t) (rid : string) : option Resource.t :=
  List.find (fun r => String.eqb (Resource.resource_id r) rid) rs.

End MockResourceCatalog.

Example search_iot :
  MockResourceCatalog.search_resources MockResourceCatalog.resources "iot" None None None
  = [MockResourceCatalog.solution_002].
Proof. reflexivity. Qed.

Example search_demo_type :
  MockResourceCatalog.search_resources MockResourceCatalog.resources "" (Some "demo") None None
  = [MockResourceCatalog.demo_001; MockResourceCatalog.demo_002].
Proof. reflexivity. Qed.

(** ** Stable sorting

    [list.sort(key=...)] and [sorted(key=...)] are stable, also with
    [reverse=True]: a stable sort has one possible result, which
    insertion from the right computes.  [before x y] says that [x], found
    to the left of [y] in the input, stays to its left. *)

Section StableSort.
Context {A : Type} (before : A -> A -> bool).

Fixpoint insert_sorted (x : A) (l : list A) : list A :=
  match l with
  | [] => [x]
  | y :: l' => if before x y then x :: y :: l' else y :: insert_sorted x l'
  end.

Fixpoint stable_sort (l : list A) : list A :=
  match l with
  | [] => []
  | x :: l' => insert_sorted x (stable_sort l')
  end.

(** Every element is [before] its right neighbour. *)
Fixpoint ordered (l : list A) : Prop :=
  match l with
  | [] => True
  | x :: l' =>
      match l' with
      | [] => True
      | y :: _ => before x y = true
      end /\ ordered l'
  end.
End StableSort.

(** ** Storage service (src/services/embassy_storage.py) *)

Module Storage.
Record t := {
  use_cases : gmap string UseCase.t;
  projects : gmap string TechHubProject.t;
  resource_matches : gmap string ResourceMatch.t;
  chat_sessions : gmap string ChatSession.t
}.

Definition empty : t :=
  {| use_cases := ∅; projects := ∅; resource_matches := ∅; chat_sessions := ∅ |}.

(** [a or b] on identifier fields. *)
Definition or_id (a b : string) : string := if PyStr.nonempty a then a else b.

(** [create_item('use_cases', use_case)]: the file is named after the
    first truthy id field; [None] stands for the [ValueError] raised when
    there is none. *)
Definition create_use_case (st : t) (uc : UseCase.t) : option t :=
  let item_id := UseCase.use_case_id uc in
  if PyStr.nonempty item_id
  then Some {| use_cases := <[item_id := uc]> (use_cases st);
               projects := projects st;
               resource_matches := resource_matches st;
               chat_sessions := chat_sessions st |}
  else None.

(** [create_item('resource_matches', m)]: [use_case_id] comes first in
    the chain of id fields, [match_id] after it. *)
Definition create_resource_match (st : t) (m : ResourceMatch.t) : option t :=
  let item_id := or_id (ResourceMatch.use_case_id m) (ResourceMatch.match_id m) in
  if PyStr.nonempty item_id
  then Some {| use_cases := use_cases st;
               projects := projects st;
               resource_matches := <[item_id := m]> (resource_matches st);
               chat_sessions := chat_sessions st |}
  else None.

Definition create_chat_session (st : t) (s : ChatSession.t) : option t :=
  let item_id := ChatSession.session_id s in
  if PyStr.nonempty item_id
  then Some {| use_cases := use_cases st;
               projects := projects st;
               resource_matches := resource_matches st;
               chat_sessions := <[item_id := s]> (chat_sessions st) |}
  else None.

(** [get_item('use_cases', item_id, UseCase)]. *)
Definition get_use_case (st : t) (item_id : string) : option UseCase.t :=
  use_cases st !! item_id.

(** [get_user_projects(user_id)]; the directory listing has no order of
    its own, the map's key order stands for it. *)
Definition get_user_projects (st : t) (user_id : string) : list TechHubProject.t :=
  List.filter (fun p => String.eqb (TechHubProject.created_by p) user_id
                        || PyStr.mem user_id (TechHubProject.collaborators p))
              (map snd (map_to_list (projects st))).
End Storage.

(** ** Agent responses (AgentResponse, BaseAgent.create_response) *)

Module AgentResponse.
Record t (D : Type) := {
  agent_name : string;
  success : bool;
  message_of : message;
  data : option D;
  next_action : option string
}.
Arguments agent_name {D} _.
Arguments success {D} _.
Arguments message_of {D} _.
Arguments data {D} _.
Arguments next_action {D} _.
End AgentResponse.

(** [BaseAgent.create_response]. *)
Definition create_response {D : Type} (name : string) (success : bool) (msg : message)
    (data : option D) (next_action : option string) : AgentResponse.t D :=
  {| AgentResponse.agent_name := name;
     AgentResponse.success := success;
     AgentResponse.message_of := msg;
     AgentResponse.data := data;
     AgentResponse.next_action := next_action |}.

(** ** Navigator agent (src/agents/embassy_navigator_agent.py) *)

Module Navigator.

Definition name : string := "NavigatorAgent".

Definition keyword_mapping : list (string * list string) :=
  [ ("ai", ["artificial intelligence"; "machine learning"; "ml"; "openai"; "cognitive"]);
    ("chat", ["chatbot"; "conversation"; "dialogue"; "messaging"]);
    ("document", ["doc"; "pdf"; "file"; "paper"; "text"]);
    ("analytics", ["analysis"; "reporting"; "insights"; "metrics"; "dashboard"]);
    ("iot", ["internet of things"; "sensors"; "devices"; "telemetry"]);
    ("auth", ["authentication"; "authorization"; "security"; "login"]);
    ("cloud", ["azure"; "aws"; "gcp"; "infrastructure"]) ].

Definition tech_keywords : list string :=
  ["api"; "database"; "web"; "mobile"; "integration"; "platform";
   "service"; "application"; "system"; "solution"; "framework"].

Record SearchTerms := {
  keywords : list string;
  resource_types : list string;
  industry : option string;
  cloud : option string
}.

(** [_extract_search_terms]. *)
Definition extract_search_terms (use_case : UseCase.t) : SearchTerms :=
  let description_lower := PyStr.lower (UseCase.description use_case) in
  let mapped :=
    map fst
      (List.filter
         (fun entry : string * list string =>
            PyStr.contains (fst entry) description_lower
            || existsb (fun v => PyStr.contains v description_lower) (snd entry))
         keyword_mapping) in
  let words :=
    PyStr.findall_words
      (UseCase.title use_case +:+ " " +:+ UseCase.description use_case) in
  let kws :=
    fold_left
      (fun acc word =>
         if PyStr.mem (PyStr.lower word) tech_keywords
            && negb (PyStr.mem (PyStr.lower word) acc)
         then acc ++ [PyStr.lower word] else acc)
      words mapped in
  {| keywords := kws;
     resource_types := UseCase.resource_type_preference use_case;
     industry := UseCase.industry_vertical use_case;
     cloud := UseCase.cloud_preference use_case |}.

(** The inner loop of [_search_catalog]: append the matches that are not
    yet in [all_matches]. *)
Definition add_matches (all_matches matches : list Resource.t) : list Resource.t :=
  fold_left
    (fun acc m => if Resource.mem m acc then acc else acc ++ [m])
    matches all_matches.

(** [_search_catalog] over the catalog entries [catalog]: one search per
    keyword, then one per preferred type, then one for the industry. *)
Definition search_catalog (catalog : list Resource.t) (search_terms : SearchTerms)
    : list Resource.t :=
  let all_matches :=
    fold_left
      (fun acc keyword =>
         add_matches acc
           (MockResourceCatalog.search_resources catalog keyword None None None))
      (keywords search_terms) [] in
  let all_matches :=
    fold_left
      (fun acc res_type =>
         add_matches acc
           (MockResourceCatalog.search_resources catalog "" (Some res_type) None None))
      (resource_types search_terms) all_matches in
  if PyStr.truthy (industry search_terms)
  then add_matches all_matches
         (MockResourceCatalog.search_resources catalog "" None (industry search_terms) None)
  else all_matches.

(** An entry of [scored_resources]: [{'resource': ..., 'score': ...}]. *)
Record Scored := {
  resource : Resource.t;
  score : PyFloat.t
}.

(** [len(set(a.split()) & set(b.split()))]. *)
Definition word_overlap (a b : string) : nat :=
  size ((list_to_set (PyStr.split a) : gset string) ∩ list_to_set (PyStr.split b)).

(** The sum of the five contributions, before clamping. *)
Definition raw_score (r : Resource.t) (use_case : UseCase.t) : PyFloat.t :=
  let score := PyFloat.f0_0 in
  let score :=
    if existsb (fun word => PyStr.contains word (PyStr.lower (Resource.title r)))
               (PyStr.split (PyStr.lower (UseCase.title use_case)))
    then PyFloat.add score PyFloat.f0_3 else score in
  let overlap :=
    word_overlap (PyStr.lower (UseCase.description use_case))
                 (PyStr.lower (Resource.description r)) in
  let score :=
    PyFloat.add score
      (PyFloat.min PyFloat.f0_3 (PyFloat.mul (PyFloat.of_nat overlap) PyFloat.f0_02)) in
  let score :=
    if PyStr.mem (Resource.type r) (UseCase.resource_type_preference use_case)
    then PyFloat.add score PyFloat.f0_2 else score in
  let score :=
    match UseCase.industry_vertical use_case with
    | Some ind =>
        if PyStr.nonempty ind
           && PyStr.mem (PyStr.lower ind) (map PyStr.lower (Resource.industry r))
        then PyFloat.add score PyFloat.f0_15 else score
    | None => score
    end in
  let use_case_tags := keywords (extract_search_terms use_case) in
  let tag_matches :=
    length (List.filter (fun tag => PyStr.mem tag use_case_tags) (Resource.tags r)) in
  PyFloat.add score
    (PyFloat.min PyFloat.f0_25 (PyFloat.mul (PyFloat.of_nat tag_matches) PyFloat.f0_05)).

(** The body of the loop of [_score_resources], with the final
    [min(1.0, max(0.0, score))]. *)
Definition score_resource (r : Resource.t) (use_case : UseCase.t) : Scored :=
  {| resource := r;
     score := PyFloat.min PyFloat.f1_0 (PyFloat.max PyFloat.f0_0 (raw_score r use_case)) |}.

(** [key=lambda x: x['score'], reverse=True]: the sort compares keys with
    [<] and is stable, so an entry stays ahead of an entry to its right
    unless its score is strictly smaller. *)
Definition by_score_desc (x y : Scored) : bool := negb (PyFloat.ltb (score x) (score y)).

(** [_score_resources]. *)
Definition score_resources (resources : list Resource.t) (use_case : UseCase.t)
    : list Scored :=
  stable_sort by_score_desc (map (fun r => score_resource r use_case) resources).

Definition bom (item category source : string) (required : bool) : BOMItem.t :=
  {| BOMItem.item := item; BOMItem.category := category;
     BOMItem.source := source; BOMItem.required := required |}.

(** [_get_cloud_requirements]. *)
Definition get_cloud_requirements (cloud_preference : string) : list BOMItem.t :=
  if String.eqb (PyStr.lower cloud_preference) "azure" then
    [ bom "Azure Subscription" "Infrastructure" "Azure" true;
      bom "Azure DevOps" "Tools" "Azure" true;
      bom "Azure Monitor" "Operations" "Azure" false ]
  else if String.eqb (PyStr.lower cloud_preference) "aws" then
    [ bom "AWS Account" "Infrastructure" "AWS" true;
      bom "CodePipeline" "Tools" "AWS" true;
      bom "CloudWatch" "Operations" "AWS" false ]
  else if String.eqb (PyStr.lower cloud_preference) "gcp" then
    [ bom "GCP Project" "Infrastructure" "GCP" true;
      bom "Cloud Build" "Tools" "GCP" true;
      bom "Cloud Monitoring" "Operations" "GCP" false ]
  else [].

(** One turn of the loop of [_get_compliance_requirements]. *)
Definition compliance_item (req : string) : list BOMItem.t :=
  let req_lower := PyStr.lower req in
  if PyStr.contains "gdpr" req_lower then
    [bom "GDPR Compliance Framework" "Compliance" "Regulatory" true]
  else if PyStr.contains "hipaa" req_lower then
    [bom "HIPAA Compliance Tools" "Compliance" "Regulatory" true]
  else if PyStr.contains "soc2" req_lower then
    [bom "SOC2 Audit Preparation" "Compliance" "Regulatory" true]
  else if PyStr.contains "pci" req_lower then
    [bom "PCI-DSS Compliance Suite" "Compliance" "Regulatory" true]
  else [].

(** [_get_compliance_requirements]. *)
Definition get_compliance_requirements (requirements : list string) : list BOMItem.t :=
  flat_map compliance_item requirements.

Definition project_management : BOMItem.t :=
  bom "Project Management" "Process" "Standard Practice" true.

Definition technical_documentation : BOMItem.t :=
  bom "Technical Documentation" "Deliverable" "Standard Practice" true.

Definition rapid_deployment : BOMItem.t :=
  bom "Rapid Deployment Framework" "Process" "Best Practice" true.

(** The BOM line of a scored resource; required when [score > 0.7]. *)
Definition resource_item (item : Scored) : BOMItem.t :=
  bom (Resource.title (resource item))
      ("TechHub " +:+ Resource.type (resource item))
      "TechHub Catalog"
      (PyFloat.ltb PyFloat.f0_7 (score item)).

(** The guard of the timeline rule:
    [timeline and 'urgent' in timeline.lower()]. *)
Definition timeline_is_urgent (timeline : option string) : bool :=
  match timeline with
  | Some t => PyStr.nonempty t && PyStr.contains "urgent" (PyStr.lower t)
  | None => false
  end.

(** [_generate_bom_items]. *)
Definition generate_bom_items (scored_resources : list Scored) (use_case : UseCase.t)
    : list BOMItem.t :=
  let bom_items := map resource_item (firstn 5 scored_resources) in
  let bom_items :=
    match UseCase.cloud_preference use_case with
    | Some c => if PyStr.nonempty c then bom_items ++ get_cloud_requirements c else bom_items
    | None => bom_items
    end in
  let reqs :=
    ProjectConstraints.compliance_requirements (UseCase.project_constraints use_case) in
  let bom_items :=
    match reqs with
    | [] => bom_items
    | _ => bom_items ++ get_compliance_requirements reqs
    end in
  let bom_items := bom_items ++ [project_management; technical_documentation] in
  if timeline_is_urgent (ProjectConstraints.timeline (UseCase.project_constraints use_case))
  then bom_items ++ [rapid_deployment]
  else bom_items.

Definition recommended (r : Scored) : RecommendedResource.t :=
  {| RecommendedResource.resource_id := Resource.resource_id (resource r);
     RecommendedResource.title := Resource.title (resource r);
     RecommendedResource.type := Resource.type (resource r);
     RecommendedResource.relevance_score := score r;
     RecommendedResource.description := Resource.description (resource r);
     RecommendedResource.link := Resource.link (resource r) |}.

(** The payload of a successful response. *)
Inductive payload :=
| Matched (m : ResourceMatch.t)
| Bom (use_case_id : string) (generated_bom : list BOMItem.t).

Definition response := AgentResponse.t payload.

(** The [ResourceMatch] built by [_search_resources], with its BOM. *)
Definition build_resource_match (catalog : list Resource.t) (match_id use_case_id : string)
    (use_case : UseCase.t) : ResourceMatch.t :=
  let search_terms := extract_search_terms use_case in
  let matching_resources := search_catalog catalog search_terms in
  let scored_resources := score_resources matching_resources use_case in
  {| ResourceMatch.match_id := match_id;
     ResourceMatch.use_case_id := use_case_id;
     ResourceMatch.matched_by := name;
     ResourceMatch.recommended_resources := map recommended (firstn 10 scored_resources);
     ResourceMatch.generated_bom := generate_bom_items scored_resources use_case;
     ResourceMatch.notes :=
       Some (Fmt "Found {} potential matches, returning top {}"
               [ANat (length matching_resources);
                ANat (Nat.min 10 (length scored_resources))]);
     ResourceMatch.status := "active" |}.

(** [_search_resources]; [match_id] is the [uuid4()] of the new match. *)
Definition search_resources (catalog : list Resource.t) (st : Storage.t)
    (match_id : string) (use_case_id : option string) : Storage.t * response :=
  match use_case_id with
  | Some uid =>
      if PyStr.nonempty uid then
        match Storage.get_use_case st uid with
        | Some use_case =>
            let resource_match := build_resource_match catalog match_id uid use_case in
            match Storage.create_resource_match st resource_match with
            | Some st' =>
                (st', create_response name true
                        (Fmt "Successfully matched {} resources"
                           [ANat (length (ResourceMatch.recommended_resources resource_match))])
                        (Some (Matched resource_match)) (Some "present_matches"))
            | None =>
                (st, create_response name false
                       (Fmt "Failed to store resource match: {}" [AStr "Item must have an ID field"])
                       None (Some "error"))
            end
        | None =>
            (st, create_response name false (Fmt "Use case {} not found" [AStr uid])
                   None (Some "error"))
        end
      else (st, create_response name false
                  (Text "No use case ID provided for resource search") None (Some "error"))
  | None => (st, create_response name false
                   (Text "No use case ID provided for resource search") None (Some "error"))
  end.

(** [_generate_bom]: the standalone BOM, from an empty candidate list. *)
Definition generate_bom (st : Storage.t) (use_case_id : option string) : response :=
  match use_case_id with
  | Some uid =>
      if PyStr.nonempty uid then
        match Storage.get_use_case st uid with
        | Some use_case =>
            let bom_items := generate_bom_items [] use_case in
            create_response name true
              (Fmt "Generated BOM with {} items" [ANat (length bom_items)])
              (Some (Bom uid bom_items)) (Some "bom_complete")
        | None =>
            create_response name false (Fmt "Use case {} not found" [AStr uid])
              None (Some "error")
        end
      else create_response name false
             (Text "No use case ID provided for BOM generation") None (Some "error")
  | None => create_response name false
              (Text "No use case ID provided for BOM generation") None (Some "error")
  end.

(** [process]: dispatch on the action label, [search_resources] when the
    context has none. *)
Definition process (catalog : list Resource.t) (st : Storage.t) (match_id : string)
    (action use_case_id : option string) : Storage.t * response :=
  let action := default "search_resources" action in
  if String.eqb action "search_resources" then
    search_resources catalog st match_id use_case_id
  else if String.eqb action "generate_bom" then
    (st, generate_bom st use_case_id)
  else
    (st, create_response name false (Fmt "Unknown navigation action: {}" [AStr action])
           None (Some "error")).

End Navigator.

(** The result of awaiting a call that may raise. *)
Inductive outcome (R : Type) :=
| Returned (r : R)
| Raised (err : string).
Arguments Returned {R} r.
Arguments Raised {R} err.

(** ** Orchestrator agent (src/agents/embassy_orchestrator_agent.py) *)

Module Orchestrator.

Definition name : string := "OrchestratorAgent".

Record Analysis := {
  intent_type : string;
  complexity_level : string;
  required_agents : list string;
  priority : string;
  estimated_effort : string;
  special_requirements : list string
}.

Definition complexity_indicators : list (string * list string) :=
  [ ("high", ["enterprise"; "scale"; "production"; "mission-critical"; "compliance"]);
    ("medium", ["integration"; "custom"; "solution"; "multiple"]);
    ("low", ["demo"; "proof"; "prototype"; "simple"]) ].

(** The first level, in the order of the table, one of whose indicators
    occurs in the description; ['medium'] when there is none. *)
Definition complexity_of (description_lower : string) : string :=
  match List.find
          (fun entry : string * list string =>
             existsb (fun indicator => PyStr.contains indicator description_lower) (snd entry))
          complexity_indicators with
  | Some entry => fst entry
  | None => "medium"
  end.

(** The priority read from the timeline. *)
Definition priority_of (timeline : option string) : string :=
  match timeline with
  | Some t =>
      if PyStr.nonempty t then
        let timeline_lower := PyStr.lower t in
        if existsb (fun urgent => PyStr.contains urgent timeline_lower)
                   ["urgent"; "asap"; "immediate"]
        then "high"
        else if existsb (fun quick => PyStr.contains quick timeline_lower) ["week"; "days"]
        then "medium"
        else "normal"
      else "normal"
  | None => "normal"
  end.

(** [agents.append(agent); analysis['special_requirements'].append(req)]
    under the condition [cond]. *)
Definition add_when (cond : bool) (agent req : string)
    (acc : list string * list string) : list string * list string :=
  if cond then (fst acc ++ [agent], snd acc ++ [req]) else acc.

(** [_perform_intent_analysis]. *)
Definition perform_intent_analysis (use_case : UseCase.t) : Analysis :=
  let description_lower := PyStr.lower (UseCase.description use_case) in
  let complexity := complexity_of description_lower in
  let constraints := UseCase.project_constraints use_case in
  let prio := priority_of (ProjectConstraints.timeline constraints) in
  let acc : list string * list string := (["NavigatorAgent"; "ArchivistAgent"], []) in
  let acc :=
    add_when
      (match ProjectConstraints.compliance_requirements constraints with
       | [] => false
       | _ => true
       end)
      "ComplianceAgent" "compliance_review" acc in
  let acc :=
    add_when (ProjectConstraints.budget_truthy (ProjectConstraints.budget constraints))
      "CostAgent" "cost_analysis" acc in
  let acc :=
    add_when
      (PyStr.contains "infrastructure" description_lower
       || PyStr.contains "deployment" description_lower)
      "InfraAgent" "infrastructure_planning" acc in
  let acc :=
    add_when (String.eqb complexity "high") "ResearchAgent" "precedent_research" acc in
  let agents := fst acc in
  let effort :=
    if String.eqb complexity "high" then "high"
    else if Nat.ltb 3 (length agents) then "medium"
    else "low" in
  {| intent_type := "resource_discovery";
     complexity_level := complexity;
     required_agents := agents;
     priority := prio;
     estimated_effort := effort;
     special_requirements := snd acc |}.

Definition priorities : list (string * nat) :=
  [ ("NavigatorAgent", 1); ("ResearchAgent", 2); ("ArchivistAgent", 9);
    ("ComplianceAgent", 3); ("CostAgent", 4); ("InfraAgent", 5) ].

(** [priorities.get(x, 5)]. *)
Definition priority_get (x : string) : nat :=
  match List.find (fun entry : string * nat => String.eqb (fst entry) x) priorities with
  | Some entry => snd entry
  | None => 5
  end.

(** [_determine_agent_execution_order]: [sorted] by priority. *)
Definition determine_agent_execution_order (required_agents : list string) : list string :=
  stable_sort (fun x y => Nat.leb (priority_get x) (priority_get y)) required_agents.

(** A value of the context dictionary. *)
Inductive value :=
| VNone
| VBool (b : bool)
| VNat (n : nat)
| VStr (s : string)
| VStrs (l : list string).

Definition context := gmap string value.

Definition response := AgentResponse.t context.

(** [context.update(data)]: the keys of [data] win. *)
Definition update (ctx data : context) : context := data ∪ ctx.

(** An entry of [coordination_results]. *)
Record Entry := {
  agent : string;
  entry_success : bool;
  entry_message : message;
  entry_data : option context
}.

Definition critical (agent_name : string) : bool :=
  PyStr.mem agent_name ["NavigatorAgent"; "ArchivistAgent"].

Section Coordination.
(** The two implemented workers: [NavigatorAgent().process] and
    [ArchivistAgent().process], acting on the world (the files of the
    storage service) and returning a response or raising. *)
Context {World : Type}.
Variable navigator : context -> World -> World * outcome response.
Variable archivist : context -> World -> World * outcome response.

(** [_execute_agent]: a name outside [agent_classes] gets the
    not-implemented response. *)
Definition execute_agent (agent_name : string) (ctx : context) (w : World)
    : World * outcome response :=
  if negb (PyStr.mem agent_name ["NavigatorAgent"; "ArchivistAgent"]) then
    (w, Returned (create_response name false
                    (Fmt "Agent {} not implemented yet" [AStr agent_name])
                    None (Some "error")))
  else if String.eqb agent_name "NavigatorAgent" then navigator ctx w
  else if String.eqb agent_name "ArchivistAgent" then archivist ctx w
  else
    (w, Returned (create_response name true
                    (Fmt "Agent {} executed (placeholder)" [AStr agent_name])
                    (Some {[ "agent_name" := VStr agent_name; "placeholder" := VBool true ]})
                    None)).

(** The loop of [_coordinate_agents] over the agents still to run.
    A returned response is recorded, and a failed critical agent breaks
    the loop; an exception is recorded and the loop goes on. *)
Fixpoint run_agents (agent_order : list string) (ctx : context) (w : World)
    (coordination_results : list Entry) : World * context * list Entry :=
  match agent_order with
  | [] => (w, ctx, coordination_results)
  | agent_name :: rest =>
      match execute_agent agent_name ctx w with
      | (w', Returned result) =>
          let coordination_results :=
            coordination_results ++
              [{| agent := agent_name;
                  entry_success := AgentResponse.success result;
                  entry_message := AgentResponse.message_of result;
                  entry_data := AgentResponse.data result |}] in
          if negb (AgentResponse.success result) && critical agent_name
          then (w', ctx, coordination_results)
          else
            let ctx :=
              match AgentResponse.data result with
              | Some d => update ctx d
              | None => ctx
              end in
            run_agents rest ctx w' coordination_results
      | (w', Raised e) =>
          run_agents rest ctx w'
            (coordination_results ++
               [{| agent := agent_name;
                   entry_success := false;
                   entry_message := Fmt "Execution failed: {}" [AStr e];
                   entry_data := None |}])
      end
  end.

(** The data of the response of [_coordinate_agents]. *)
Record CoordinationData := {
  coordination_results : list Entry;
  successful_agents : nat;
  total_agents : nat
}.

(** [_coordinate_agents]; [required_agents] is
    [context.get('required_agents', [])]. *)
Definition coordinate_agents (required_agents : list string) (ctx : context) (w : World)
    : World * context * AgentResponse.t CoordinationData :=
  match required_agents with
  | [] =>
      (w, ctx,
       create_response name false (Text "No agents specified for coordination")
         None (Some "error"))
  | _ =>
      let agent_order := determine_agent_execution_order required_agents in
      let '(w', ctx', results) := run_agents agent_order ctx w [] in
      let successful := List.filter entry_success results in
      let overall_success :=
        Nat.leb (length required_agents / 2) (length successful) in
      (w', ctx',
       create_response name overall_success
         (Fmt "Agent coordination completed. {}/{} agents succeeded."
            [ANat (length successful); ANat (length required_agents)])
         (Some {| coordination_results := results;
                  successful_agents := length successful;
                  total_agents := length required_agents |})
         (Some "coordination_complete"))
  end.
End Coordination.

End Orchestrator.

Example order_of_all :
  Orchestrator.determine_agent_execution_order
    ["NavigatorAgent"; "ArchivistAgent"; "ComplianceAgent"; "CostAgent"; "InfraAgent"; "ResearchAgent"]
  = ["NavigatorAgent"; "ResearchAgent"; "ComplianceAgent"; "CostAgent"; "InfraAgent"; "ArchivistAgent"].
Proof. reflexivity. Qed.

Example order_unknown_keeps_place :
  Orchestrator.determine_agent_execution_order ["ArchivistAgent"; "Other"; "InfraAgent"; "NavigatorAgent"]
  = ["NavigatorAgent"; "Other"; "InfraAgent"; "ArchivistAgent"].
Proof. reflexivity. Qed.

(** ** Concierge agent (src/agents/embassy_concierge_agent.py) *)

Module Concierge.

Definition name : string := "ConciergeAgent".

Definition intake_fields : list (string * string) :=
  [ ("title", "Project title or brief name");
    ("description", "Business or technical use-case description");
    ("industry_vertical", "Industry vertical (e.g., Finance, Healthcare, Retail)");
    ("client_name", "Specific client name");
    ("client_context", "Client use-case context and background");
    ("internal_contacts", "Internal NTT contacts involved (comma-separated)");
    ("cloud_preference", "Client cloud choice (Azure, AWS, GCP, Multi-cloud)");
    ("budget", "Budget constraints or estimates");
    ("timeline", "Expected delivery timeline or deadlines");
    ("known_dependencies", "Known dependencies or blockers (comma-separated)");
    ("compliance_requirements", "Compliance or security requirements (comma-separated)");
    ("engagement_stage", "Stage of engagement (Discovery, Design, Build, Pilot, Production)");
    ("success_criteria", "Primary success criteria and goals (comma-separated)");
    ("resource_type_preference",
     "Desired TechHub resource types: Demo, Solution, Component (comma-separated)") ].

(** The keys of the context dictionary that the agent reads; [None] is an
    absent key. *)
Record Context := {
  action : option string;
  user_input : option string;
  user_id : option string;
  session_id : option string;
  use_case_id : option string;
  user_name : option string
}.

(** The dictionary built by [_extract_use_case_data]; its
    [internal_contacts] and [success_criteria] are always empty and its
    [project_constraints] holds at most a timeline. *)
Record Extracted := {
  ex_title : string;
  ex_description : string;
  ex_created_by : string;
  ex_industry_vertical : option string;
  ex_cloud_preference : option string;
  ex_resource_type_preference : list string;
  ex_timeline : option string
}.

(** The data of a response. *)
Inductive payload :=
| SessionStarted (session_id : string) (awaiting_input : string) (valid_options : list string)
| ValidOptions (valid_options : list string)
| FormReady (form_fields : list (string * string)) (intake_mode : string) (options : list string)
| GuidedMode (current_field : string) (field_index : nat)
| ComprehensiveMode
| ExtractedForReview (use_case_id : string) (extracted_data : Extracted)
| ReadyForOrchestration (use_case_id : string)
| NoExistingProjects
| ProjectList (projects : list TechHubProject.t).

Definition response := AgentResponse.t payload.

(** [_handle_greeting]; [fresh] is the [uuid4()] of a new session. *)
Definition handle_greeting (st : Storage.t) (fresh : string) (context : Context)
    : Storage.t * outcome response :=
  let user_name := default "there" (user_name context) in
  let user_id := default "anonymous" (user_id context) in
  let greeting sid :=
    create_response name true (Canned "greeting_message" [AStr user_name])
      (Some (SessionStarted sid "project_choice" ["NEW"; "EXISTING"]))
      (Some "project_choice") in
  if PyStr.truthy (session_id context) then
    (st, Returned (greeting (default "" (session_id context))))
  else
    let session :=
      {| ChatSession.session_id := fresh;
         ChatSession.user_id := user_id;
         ChatSession.current_use_case_id := None;
         ChatSession.current_project_id := None;
         ChatSession.status := "active" |} in
    match Storage.create_chat_session st session with
    | Some st' => (st', Returned (greeting fresh))
    | None => (st, Raised "Item must have an ID field")
    end.

(** [_present_intake_form]. *)
Definition present_intake_form : response :=
  create_response name true (Canned "form_message" [])
    (Some (FormReady intake_fields "ready" ["guided"; "comprehensive"; "upload"]))
    (Some "intake_form").

(** [_handle_existing_project_selection]. *)
Definition handle_existing_project_selection (st : Storage.t) (context : Context)
    : response :=
  let user_id := default "anonymous" (user_id context) in
  match Storage.get_user_projects st user_id with
  | [] =>
      create_response name true (Canned "no_projects_message" [])
        (Some NoExistingProjects) (Some "handle_no_projects")
  | projects =>
      create_response name true
        (Canned "project_list_message" [ANat (length (firstn 10 projects))])
        (Some (ProjectList projects)) (Some "select_existing_project")
  end.

(** [_handle_project_choice]. *)
Definition handle_project_choice (st : Storage.t) (context : Context) : response :=
  let choice := PyStr.strip (PyStr.upper (default "" (user_input context))) in
  if String.eqb choice "NEW" then present_intake_form
  else if String.eqb choice "EXISTING" then handle_existing_project_selection st context
  else
    create_response name false
      (Text "I didn't understand that choice. Please respond with 'NEW' for a new project or 'EXISTING' for an existing project.")
      (Some (ValidOptions ["NEW"; "EXISTING"])) (Some "project_choice").

(** [_start_guided_intake]: the first key of [intake_fields]. *)
Definition start_guided_intake : response :=
  let first_field := default "" (head (map fst intake_fields)) in
  create_response name true
    (Canned "guided_message" [ANat (length intake_fields); AStr first_field])
    (Some (GuidedMode first_field 0)) (Some "guided_intake_field").

(** [_start_comprehensive_intake]. *)
Definition start_comprehensive_intake : response :=
  create_response name true (Canned "comprehensive_message" [])
    (Some ComprehensiveMode) (Some "process_comprehensive").

(** The first element of [candidates] satisfying [p]: a loop with
    [break]. *)
Definition first_match (p : string -> bool) (candidates : list string) : option string :=
  List.find p candidates.

(** [_extract_use_case_data]. *)
Definition extract_use_case_data (description user_id : string) : Extracted :=
  let description_lower := PyStr.lower description in
  let industry :=
    option_map PyStr.title
      (first_match (fun industry => PyStr.contains industry description_lower)
         ["finance"; "healthcare"; "retail"; "manufacturing"; "education"; "government"]) in
  let cloud_pref :=
    if PyStr.contains "azure" description_lower then Some "Azure"
    else if PyStr.contains "aws" description_lower then Some "AWS"
    else if PyStr.contains "gcp" description_lower
            || PyStr.contains "google cloud" description_lower then Some "GCP"
    else None in
  let types :=
    (if PyStr.contains "demo" description_lower then ["Demo"] else [])
    ++ (if PyStr.contains "solution" description_lower then ["Solution"] else [])
    ++ (if PyStr.contains "component" description_lower then ["Component"] else []) in
  let timeline :=
    option_map (fun keyword => "Contains timeline reference: " +:+ keyword)
      (first_match (fun keyword => PyStr.contains keyword description_lower)
         ["urgent"; "asap"; "month"; "week"; "quarter"; "deadline"]) in
  let first_sentence := PyStr.strip (default "" (head (PyStr.split_on "."%char description))) in
  let title :=
    if Nat.ltb (String.length first_sentence) 100 then first_sentence else "New Project" in
  {| ex_title := title;
     ex_description := description;
     ex_created_by := user_id;
     ex_industry_vertical := industry;
     ex_cloud_preference := cloud_pref;
     ex_resource_type_preference := types;
     ex_timeline := timeline |}.

(** The [UseCase] built from the keys of [extracted_data]; [fresh] is the
    [uuid4()] of the record. *)
Definition use_case_of (fresh : string) (e : Extracted) : UseCase.t :=
  {| UseCase.use_case_id := fresh;
     UseCase.title := ex_title e;
     UseCase.description := ex_description e;
     UseCase.industry_vertical := ex_industry_vertical e;
     UseCase.client_name := None;
     UseCase.client_context := None;
     UseCase.internal_contacts := [];
     UseCase.cloud_preference := ex_cloud_preference e;
     UseCase.project_constraints :=
       {| ProjectConstraints.budget := None;
          ProjectConstraints.timeline := ex_timeline e;
          ProjectConstraints.known_dependencies := [];
          ProjectConstraints.compliance_requirements := [] |};
     UseCase.engagement_stage := None;
     UseCase.success_criteria := [];
     UseCase.resource_type_preference := ex_resource_type_preference e;
     UseCase.status := "new";
     UseCase.created_by := ex_created_by e |}.

(** [_process_comprehensive_input]. *)
Definition process_comprehensive_input (st : Storage.t) (fresh : string) (context : Context)
    : Storage.t * response :=
  let description := default "" (user_input context) in
  let user_id := default "anonymous" (user_id context) in
  if Nat.ltb (String.length (PyStr.strip description)) 20 then
    (st, create_response name false
           (Text "That description seems quite brief. Could you provide more details about your project? The more information you share, the better I can help match you with relevant resources.")
           None (Some "process_comprehensive"))
  else
    let extracted_data := extract_use_case_data description user_id in
    let use_case := use_case_of fresh extracted_data in
    match Storage.create_use_case st use_case with
    | Some st' =>
        (st', create_response name true
                (Canned "extraction_review_message" [AStr (ex_title extracted_data)])
                (Some (ExtractedForReview (UseCase.use_case_id use_case) extracted_data))
                (Some "confirm_extraction"))
    | None =>
        (st, create_response name false
               (Text "I had trouble processing your description. Could you try providing the information in a different format?")
               None (Some "intake_form"))
    end.

(** [_handle_intake_form]; the class has no [_start_upload_intake], so
    the third option raises [AttributeError]. *)
Definition handle_intake_form (st : Storage.t) (fresh : string) (context : Context)
    : Storage.t * outcome response :=
  let user_input := PyStr.lower (PyStr.strip (default "" (user_input context))) in
  if PyStr.mem user_input ["1"; "guided"; "guide"; "one by one"] then
    (st, Returned start_guided_intake)
  else if PyStr.mem user_input ["2"; "comprehensive"; "description"; "describe"] then
    (st, Returned start_comprehensive_intake)
  else if PyStr.mem user_input ["3"; "upload"; "paste"; "existing"] then
    (st, Raised "'ConciergeAgent' object has no attribute '_start_upload_intake'")
  else
    let '(st', r) := process_comprehensive_input st fresh context in
    (st', Returned r).

(** [_handle_intake_submission]. *)
Definition handle_intake_submission (context : Context) : response :=
  if PyStr.truthy (use_case_id context) then
    create_response name true (Canned "success_message" [])
      (Some (ReadyForOrchestration (default "" (use_case_id context))))
      (Some "orchestrate")
  else
    create_response name false
      (Text "I couldn't find the use case information. Let's start over.")
      None (Some "greet").

(** [process]: dispatch on the action label, ['greet'] when the context
    has none.  The class has no [_handle_existing_project]: that label
    raises [AttributeError]. *)
Definition process (st : Storage.t) (fresh : string) (context : Context)
    : Storage.t * outcome response :=
  let action := default "greet" (action context) in
  if String.eqb action "greet" then handle_greeting st fresh context
  else if String.eqb action "project_choice" then
    (st, Returned (handle_project_choice st context))
  else if String.eqb action "intake_form" then handle_intake_form st fresh context
  else if String.eqb action "submit_intake" then
    (st, Returned (handle_intake_submission context))
  else if String.eqb action "existing_project" then
    (st, Raised "'ConciergeAgent' object has no attribute '_handle_existing_project'")
  else
    (st, Returned (create_response name false (Fmt "Unknown action: {}" [AStr action])
                     None (Some "greet"))).


End Concierge.

(** ** Statements about the agents and the inputs they are tried on *)

Module Statements.

(** The position of a resource in the catalog. *)
Fixpoint catalog_index (catalog : list Resource.t) (r : Resource.t) : nat :=
  match catalog with
  | [] => 0
  | x :: catalog' => if Resource.eqb x r then 0 else S (catalog_index catalog' r)
  end.

(** Equal scores are ranked in catalog order. *)
Definition ties_in_catalog_order (catalog : list Resource.t)
    (ranked : list Navigator.Scored) : Prop :=
  forall (i j : nat) (a b : Navigator.Scored),
    i < j -> ranked !! i = Some a -> ranked !! j = Some b ->
    PyFloat.eqb (Navigator.score a) (Navigator.score b) = true ->
    catalog_index catalog (Navigator.resource a)
    < catalog_index catalog (Navigator.resource b).

(** The candidates of a use case, as [_search_resources] computes them. *)
Definition candidates (catalog : list Resource.t) (use_case : UseCase.t)
    : list Resource.t :=
  Navigator.search_catalog catalog (Navigator.extract_search_terms use_case).

(** The number of a requirement list's entries that select a row of the
    compliance table. *)
Definition matches_regime (req : string) : bool :=
  let req_lower := PyStr.lower req in
  PyStr.contains "gdpr" req_lower || PyStr.contains "hipaa" req_lower
  || PyStr.contains "soc2" req_lower || PyStr.contains "pci" req_lower.

Definition is_compliance (b : BOMItem.t) : bool :=
  String.eqb (BOMItem.category b) "Compliance".


(** The number of successful entries recorded in a coordination
    response. *)
Definition recorded_successes
    (r : AgentResponse.t Orchestrator.CoordinationData) : nat :=
  match AgentResponse.data r with
  | Some d => length (List.filter Orchestrator.entry_success (Orchestrator.coordination_results d))
  | None => 0
  end.

(** The at-least-half rule for a run over [required_agents]. *)
Definition success_iff_half (required_agents : list string)
    (r : AgentResponse.t Orchestrator.CoordinationData) : Prop :=
  AgentResponse.success r = true
  <-> length required_agents / 2 <= recorded_successes r.


(** A use case with the given intake fields and nothing else. *)
Definition use_case (title description : string) (industry cloud timeline : option string)
    (compliance types : list string) : UseCase.t :=
  {| UseCase.use_case_id := "uc-1";
     UseCase.title := title;
     UseCase.description := description;
     UseCase.industry_vertical := industry;
     UseCase.client_name := None;
     UseCase.client_context := None;
     UseCase.internal_contacts := [];
     UseCase.cloud_preference := cloud;
     UseCase.project_constraints :=
       {| ProjectConstraints.budget := None;
          ProjectConstraints.timeline := timeline;
          ProjectConstraints.known_dependencies := [];
          ProjectConstraints.compliance_requirements := compliance |};
     UseCase.engagement_stage := None;
     UseCase.success_criteria := [];
     UseCase.resource_type_preference := types;
     UseCase.status := "new";
     UseCase.created_by := "anonymous" |}.

(** A platform request that prefers demos and solutions: the keyword pass
    for "platform" finds the last catalog entry, the type passes find the
    two demos and the other solution, and each of the four earns the type
    contribution and nothing else. *)
Definition uc_platform : UseCase.t :=
  use_case "New Project" "platform" None None None [] ["Demo"; "Solution"].

(** A request whose two best candidates differ in the last bit of their
    scores: demo-001 earns [0.02 + 0.15 + 0.05], solution-001 earns
    [0.02 + 0.2]. *)
Definition uc_chat : UseCase.t :=
  use_case "New Project" "chat with" (Some "general") None None [] ["Solution"].

(** A request for which demo-001 earns [0.3 + 0.2 + 0.15 + 0.05], the
    double just above 0.7. *)
Definition uc_maintain : UseCase.t :=
  use_case "Azure" "maintain" (Some "general") None None [] ["Demo"].

Definition uc_asap : UseCase.t :=
  use_case "Chat assistant" "azure demo for chat" None (Some "Azure")
    (Some "need this ASAP") [] ["Demo"].

Definition uc_compliance : UseCase.t :=
  use_case "Chat assistant" "azure demo for chat" None (Some "Azure")
    (Some "urgent, two weeks") ["GDPR"; "SOC2"] ["Demo"].

Definition store_with (uc : UseCase.t) : Storage.t :=
  {| Storage.use_cases := {[ UseCase.use_case_id uc := uc ]};
     Storage.projects := ∅;
     Storage.resource_matches := ∅;
     Storage.chat_sessions := ∅ |}.

Definition context_with (action user_input : option string) : Concierge.Context :=
  {| Concierge.action := action;
     Concierge.user_input := user_input;
     Concierge.user_id := Some "user-1";
     Concierge.session_id := Some "session-1";
     Concierge.use_case_id := None;
     Concierge.user_name := None |}.


Definition succeeding (agent_name : string)
    : Orchestrator.context -> unit -> unit * outcome Orchestrator.response :=
  fun _ w => (w, Returned (create_response agent_name true (Text "done") None (Some "done"))).

Definition failing (agent_name : string)
    : Orchestrator.context -> unit -> unit * outcome Orchestrator.response :=
  fun _ w => (w, Returned (create_response agent_name false (Text "failed") None (Some "error"))).

End Statements.

(** ** The rest of the storage service *)

Module StorageOps.

(** [update_item] on the files of one collection: nothing is written when
    there is no file of that id; the flag is the returned bool. *)
Definition update_item {A : Type} (files : gmap string A) (item_id : string) (item : A)
    : gmap string A * bool :=
  match files !! item_id with
  | Some _ => (<[item_id := item]> files, true)
  | None => (files, false)
  end.

(** [delete_item] on the files of one collection. *)
Definition delete_item {A : Type} (files : gmap string A) (item_id : string)
    : gmap string A * bool :=
  match files !! item_id with
  | Some _ => (delete item_id files, true)
  | None => (files, false)
  end.

(** [query_items] with a filter; the order is that of the directory
    listing, for which the map's key order stands. *)
Definition query_items {A : Type} (files : gmap string A) (filter_func : A -> bool)
    : list A :=
  List.filter filter_func (map snd (map_to_list files)).

(** [create_item('projects', project)]: a project carries a
    [use_case_id], which comes first in the chain of id fields. *)
Definition create_project (st : Storage.t) (p : TechHubProject.t) : option Storage.t :=
  let item_id := Storage.or_id (TechHubProject.use_case_id p) (TechHubProject.project_id p) in
  if PyStr.nonempty item_id
  then Some {| Storage.use_cases := Storage.use_cases st;
               Storage.projects := <[item_id := p]> (Storage.projects st);
               Storage.resource_matches := Storage.resource_matches st;
               Storage.chat_sessions := Storage.chat_sessions st |}
  else None.

(** [get_item('projects', item_id, TechHubProject)]. *)
Definition get_project (st : Storage.t) (item_id : string) : option TechHubProject.t :=
  Storage.projects st !! item_id.

(** [get_project_matches]. *)
Definition get_project_matches (st : Storage.t) (project_id : string)
    : list ResourceMatch.t :=
  match get_project st project_id with
  | Some project =>
      query_items (Storage.resource_matches st)
        (fun m => String.eqb (ResourceMatch.use_case_id m)
                             (TechHubProject.use_case_id project))
  | None => []
  end.

End StorageOps.

(** ** Shared agent context (src/agents/embassy_base_agent.py, AgentContext) *)

Module AgentContext.

Section Values.
Context {V : Type}.

Record t := {
  session_data : gmap string V;
  project_memory : gmap string (gmap string V)
}.

Definition init : t := {| session_data := ∅; project_memory := ∅ |}.

(** [get_session_value]. *)
Definition get_session_value (c : t) (key : string) (default_value : V) : V :=
  default default_value (session_data c !! key).

(** [set_session_value]. *)
Definition set_session_value (c : t) (key : string) (v : V) : t :=
  {| session_data := <[key := v]> (session_data c);
     project_memory := project_memory c |}.

(** [get_project_memory]: an empty dictionary for an unknown project. *)
Definition get_project_memory (c : t) (project_id : string) : gmap string V :=
  default ∅ (project_memory c !! project_id).

(** [update_project_memory]: the entry is created when missing, then
    [dict.update] lets the keys of [updates] win. *)
Definition update_project_memory (c : t) (project_id : string) (updates : gmap string V) : t :=
  let memory :=
    match project_memory c !! project_id with
    | Some _ => project_memory c
    | None => <[project_id := ∅]> (project_memory c)
    end in
  {| session_data := session_data c;
     project_memory :=
       <[project_id := updates ∪ default ∅ (memory !! project_id)]> memory |}.
End Values.
Arguments t : clear implicits.

End AgentContext.

(** ** Rendering of response texts *)

Module Render.

Definition show (a : arg) : string :=
  match a with
  | AStr s => s
  | ANat n => pretty n
  end.

(** An f-string: each [{}] of the template takes the next value. *)
Fixpoint fill (template : string) (args : list arg) : string :=
  match template with
  | EmptyString => EmptyString
  | String c rest =>
      match rest with
      | String c' rest' =>
          if Ascii.eqb c "{" && Ascii.eqb c' "}" then
            match args with
            | a :: args' => show a +:+ fill rest' args'
            | [] => String c (String c' (fill rest' []))
            end
          else String c (fill rest args)
      | EmptyString => String c EmptyString
      end
  end.

(** [str(message)] as it is interpolated in another message. *)
Definition render (m : message) : string :=
  match m with
  | Text s => s
  | Fmt template args => fill template args
  | Canned name _ => name
  end.

End Render.

(** ** Orchestrator: analysis, spawning, project creation, full workflow *)

Module Workflow.

Definition name : string := Orchestrator.name.

(** The data of the responses of the orchestrator's steps. *)
Inductive payload :=
| Analyzed (use_case_id : string) (analysis : Orchestrator.Analysis)
| Spawned (navigator_response : Navigator.response)
| ProjectCreated (project_id : string) (project : TechHubProject.t)
| WorkflowComplete (use_case_id : string) (project_id : option string)
    (resource_matches : list RecommendedResource.t) (generated_bom : list BOMItem.t).

Definition response := AgentResponse.t payload.

(** [_analyze_intent]. *)
Definition analyze_intent (st : Storage.t) (use_case_id : option string) : response :=
  match use_case_id with
  | Some uid =>
      if PyStr.nonempty uid then
        match Storage.get_use_case st uid with
        | Some use_case =>
            let analysis := Orchestrator.perform_intent_analysis use_case in
            create_response name true
              (Fmt "Intent analysis complete. Identified: {}"
                 [AStr (Orchestrator.intent_type analysis)])
              (Some (Analyzed uid analysis)) (Some "spawn_agents")
        | None =>
            create_response name false (Fmt "Use case {} not found" [AStr uid])
              None (Some "error")
        end
      else create_response name false (Text "No use case provided for analysis")
             None (Some "error")
  | None => create_response name false (Text "No use case provided for analysis")
              None (Some "error")
  end.

(** [_spawn_navigator]: a [NavigatorAgent] is run with the action
    'search_resources'; [match_id] is the [uuid4()] of its match. *)
Definition spawn_navigator (catalog : list Resource.t) (st : Storage.t) (match_id : string)
    (use_case_id : option string) : Storage.t * response :=
  let '(st', navigator_response) :=
    Navigator.process catalog st match_id (Some "search_resources") use_case_id in
  if AgentResponse.success navigator_response then
    (st', create_response name true (Text "Navigator Agent completed resource matching")
            (Some (Spawned navigator_response)) (Some "process_navigation_results"))
  else
    (st', create_response name false
            (Fmt "Navigator Agent failed: {}"
               [AStr (Render.render (AgentResponse.message_of navigator_response))])
            None (Some "error")).

(** [_create_project]; [project_id] is the [uuid4()] of the project. *)
Definition create_project (st : Storage.t) (project_id : string)
    (use_case_id : option string) (resource_matches : list RecommendedResource.t)
    : Storage.t * response :=
  match use_case_id with
  | Some uid =>
      if PyStr.nonempty uid then
        match Storage.get_use_case st uid with
        | Some use_case =>
            let project :=
              {| TechHubProject.project_id := project_id;
                 TechHubProject.use_case_id := uid;
                 TechHubProject.title := UseCase.title use_case;
                 TechHubProject.current_phase := "resource_matching";
                 TechHubProject.created_by := UseCase.created_by use_case;
                 TechHubProject.collaborators := [] |} in
            match StorageOps.create_project st project with
            | Some st' =>
                (st', create_response name true
                        (Fmt "Successfully created TechHub project: {}"
                           [AStr (TechHubProject.title project)])
                        (Some (ProjectCreated (TechHubProject.project_id project) project))
                        (Some "project_created"))
            | None =>
                (st, create_response name false
                       (Fmt "Failed to create project: {}" [AStr "Item must have an ID field"])
                       None (Some "error"))
            end
        | None =>
            (st, create_response name false (Fmt "Use case {} not found" [AStr uid])
                   None (Some "error"))
        end
      else (st, create_response name false
                  (Text "No use case ID provided for project creation") None (Some "error"))
  | None => (st, create_response name false
                   (Text "No use case ID provided for project creation") None (Some "error"))
  end.

(** [navigator_result.data.get('navigator_response', {}).get('data', {})],
    read for its matches and for its BOM. *)
Definition navigator_match (r : response) : option ResourceMatch.t :=
  match AgentResponse.data r with
  | Some (Spawned navigator_response) =>
      match AgentResponse.data navigator_response with
      | Some (Navigator.Matched m) => Some m
      | _ => None
      end
  | _ => None
  end.

Definition resource_matches_of (r : response) : list RecommendedResource.t :=
  match navigator_match r with
  | Some m => ResourceMatch.recommended_resources m
  | None => []
  end.

Definition generated_bom_of (r : response) : list BOMItem.t :=
  match navigator_match r with
  | Some m => ResourceMatch.generated_bom m
  | None => []
  end.

(** [project_result.data.get('project_id') if project_result.success
    else None]. *)
Definition project_id_of (r : response) : option string :=
  if AgentResponse.success r then
    match AgentResponse.data r with
    | Some (ProjectCreated pid _) => Some pid
    | _ => None
    end
  else None.

(** [orchestrate_full_workflow]: [process] is called with the literal
    labels 'analyze_intent', 'spawn_navigator' and 'create_project', which
    it dispatches to the three steps.  The archival step that follows
    writes the workflow log, a file outside the four collections, and its
    response is dropped. *)
Definition orchestrate_full_workflow (catalog : list Resource.t) (st : Storage.t)
    (match_id project_id use_case_id : string) : Storage.t * response :=
  let analysis_result := analyze_intent st (Some use_case_id) in
  if negb (AgentResponse.success analysis_result) then (st, analysis_result)
  else
    let '(st1, navigator_result) := spawn_navigator catalog st match_id (Some use_case_id) in
    if negb (AgentResponse.success navigator_result) then (st1, navigator_result)
    else
      let '(st2, project_result) :=
        create_project st1 project_id (Some use_case_id)
          (resource_matches_of navigator_result) in
      (st2, create_response name true (Text "Complete workflow orchestration successful")
              (Some (WorkflowComplete use_case_id (project_id_of project_result)
                       (resource_matches_of navigator_result)
                       (generated_bom_of navigator_result)))
              (Some "present_results")).

End Workflow.

(** ** Further statements *)

Module Statements2.

(** One conjunctive test for the filters of a catalog search: a falsy
    argument imposes no constraint. *)
Definition satisfies (query : string) (resource_type industry : option string)
    (tags : option (list string)) (r : Resource.t) : bool :=
  (if PyStr.truthy resource_type
   then String.eqb (PyStr.lower (Resource.type r)) (PyStr.lower (default "" resource_type))
   else true)
  && (if PyStr.truthy industry
      then PyStr.mem (PyStr.lower (default "" industry)) (map PyStr.lower (Resource.industry r))
      else true)
  && (match tags with
      | Some (t0 :: ts) =>
          existsb (fun tag => PyStr.mem (PyStr.lower tag) (map PyStr.lower (Resource.tags r)))
                  (t0 :: ts)
      | _ => true
      end)
  && (if PyStr.nonempty query
      then PyStr.contains (PyStr.lower query) (PyStr.lower (Resource.title r))
           || PyStr.contains (PyStr.lower query) (PyStr.lower (Resource.description r))
           || existsb (fun tag => PyStr.contains (PyStr.lower query) (PyStr.lower tag))
                      (Resource.tags r)
      else true).

(** The vocabulary of search keywords. *)
Definition keyword_vocabulary : list string :=
  map fst Navigator.keyword_mapping ++ Navigator.tech_keywords.

(** The entry recorded for an agent outside [agent_classes]. *)
Definition not_implemented (agent_name : string) : Orchestrator.Entry :=
  {| Orchestrator.agent := agent_name;
     Orchestrator.entry_success := false;
     Orchestrator.entry_message := Fmt "Agent {} not implemented yet" [AStr agent_name];
     Orchestrator.entry_data := None |}.

Definition industries : list string :=
  ["finance"; "healthcare"; "retail"; "manufacturing"; "education"; "government"].


Definition new_project (project_id uid : string) (use_case : UseCase.t) : TechHubProject.t :=
  {| TechHubProject.project_id := project_id;
     TechHubProject.use_case_id := uid;
     TechHubProject.title := UseCase.title use_case;
     TechHubProject.current_phase := "resource_matching";
     TechHubProject.created_by := UseCase.created_by use_case;
     TechHubProject.collaborators := [] |}.

Definition inserted_project (st : Storage.t) (uid : string) (p : TechHubProject.t) : Storage.t :=
  {| Storage.use_cases := Storage.use_cases st;
     Storage.projects := <[uid := p]> (Storage.projects st);
     Storage.resource_matches := Storage.resource_matches st;
     Storage.chat_sessions := Storage.chat_sessions st |}.

(** The five caps of [_score_resources], added in the order of the code:
    the double 1.2000000000000002. *)
Definition caps_sum : PyFloat.t :=
  PyFloat.add
    (PyFloat.add
       (PyFloat.add
          (PyFloat.add (PyFloat.add PyFloat.f0_0 PyFloat.f0_3) PyFloat.f0_3)
          PyFloat.f0_2)
       PyFloat.f0_15)
    PyFloat.f0_25.

End Statements2.

(** * Properties *)

(** ** Stable sorting *)

Section StableSortFacts.
Context {A : Type} (before : A -> A -> bool).

Lemma insert_sorted_perm (x : A) (l : list A) :
  Permutation (insert_sorted before x l) (x :: l).
Proof.
  induction l as [|y l IH]; simpl.
  - reflexivity.
  - destruct (before x y).
    + reflexivity.
    + rewrite IH. apply perm_swap.
Qed.

Lemma stable_sort_perm (l : list A) : Permutation (stable_sort before l) l.
Proof.
  induction l as [|x l IH]; simpl.
  - reflexivity.
  - rewrite insert_sorted_perm. now constructor.
Qed.

Lemma stable_sort_length (l : list A) : length (stable_sort before l) = length l.
Proof. apply Permutation_length, stable_sort_perm. Qed.

Lemma stable_sort_In (x : A) (l : list A) : In x (stable_sort before l) <-> In x l.
Proof.
  split; apply Permutation_in; [|symmetry]; apply stable_sort_perm.
Qed.

(** Inserting [x] puts it ahead of the members of its own class. *)
Lemma filter_insert_sorted (p : A -> bool) (x : A) (l : list A) :
  (forall y, p x = true -> p y = true -> before x y = true) ->
  List.filter p (insert_sorted before x l) = List.filter p (x :: l).
Proof.
  intros Hclass. induction l as [|y l IH]; simpl.
  - reflexivity.
  - destruct (before x y) eqn:Hxy; simpl.
    + reflexivity.
    + rewrite IH. simpl.
      destruct (p x) eqn:Hpx, (p y) eqn:Hpy; try reflexivity.
      rewrite (Hclass y eq_refl Hpy) in Hxy. discriminate.
Qed.

(** Stability: the members of a class of elements that are pairwise
    [before] each other come out in their input order. *)
Lemma stable_sort_filter (p : A -> bool) (l : list A) :
  (forall x y, p x = true -> p y = true -> before x y = true) ->
  List.filter p (stable_sort before l) = List.filter p l.
Proof.
  intros Hclass. induction l as [|x l IH]; simpl.
  - reflexivity.
  - rewrite filter_insert_sorted by (intros y; apply Hclass).
    simpl. now rewrite IH.
Qed.

Hypothesis before_total : forall x y, before x y = false -> before y x = true.

Lemma insert_sorted_ordered (x : A) (l : list A) :
  ordered before l -> ordered before (insert_sorted before x l).
Proof.
  induction l as [|y l IH]; simpl; intros Hl.
  - auto.
  - destruct (before x y) eqn:Hxy.
    + simpl. auto.
    + destruct Hl as [Hhead Htail]. specialize (IH Htail).
      simpl. split; [|exact IH].
      destruct l as [|z l]; simpl.
      * now apply before_total.
      * destruct (before x z); [now apply before_total | exact Hhead].
Qed.

Lemma stable_sort_ordered (l : list A) : ordered before (stable_sort before l).
Proof.
  induction l as [|x l IH]; simpl.
  - exact I.
  - now apply insert_sorted_ordered.
Qed.
End StableSortFacts.

(** ** The order of floats *)

Section FloatOrder.
Import PyFloat.

(** Comparison of floats is the lexicographic comparison of their ranks;
    it is undefined exactly when one of them is a NaN. *)
Lemma compare_rank (x y : t) :
  match SFcompare x y with
  | Some c =>
      exists a b, rank x = Some a /\ rank y = Some b
                  /\ match c with
                     | Lt => lt3 a b
                     | Eq => a = b
                     | Gt => lt3 b a
                     end
  | None => rank x = None \/ rank y = None
  end.
Proof.
  destruct x as [sx|sx| |sx mx ex], y as [sy|sy| |sy my ey];
    try destruct sx; try destruct sy; cbn [SFcompare rank];
    try (left; reflexivity); try (right; reflexivity);
    try (eexists _, _; split; [reflexivity|]; split; [reflexivity|];
         unfold lt3; cbn [fst snd]; first [reflexivity | lia]).
  - eexists _, _. split; [reflexivity|]. split; [reflexivity|].
    change (Pos.compare_cont Eq mx my) with (Pos.compare mx my).
    destruct (Z.compare_spec ex ey) as [->|Hlt|Hgt].
    + destruct (Pos.compare_spec mx my) as [->|Hm|Hm]; cbn [CompOpp];
        unfold lt3; cbn [fst snd]; first [reflexivity | lia].
    + unfold lt3; cbn [fst snd]. lia.
    + unfold lt3; cbn [fst snd]. lia.
  - eexists _, _. split; [reflexivity|]. split; [reflexivity|].
    change (Pos.compare_cont Eq mx my) with (Pos.compare mx my).
    destruct (Z.compare_spec ex ey) as [->|Hlt|Hgt].
    + destruct (Pos.compare_spec mx my) as [->|Hm|Hm];
        unfold lt3; cbn [fst snd]; first [reflexivity | lia].
    + unfold lt3; cbn [fst snd]. lia.
    + unfold lt3; cbn [fst snd]. lia.
Qed.

Ltac float_order :=
  unfold ltb, leb, eqb, SFltb, SFleb, SFeqb in *;
  repeat match goal with
         | |- context [SFcompare ?x ?y] =>
             pose proof (compare_rank x y); destruct (SFcompare x y) as [[]|]
         | H : context [SFcompare ?x ?y] |- _ =>
             pose proof (compare_rank x y); destruct (SFcompare x y) as [[]|]
         end;
  try discriminate; try reflexivity;
  repeat match goal with
         | H : exists _, _ |- _ => destruct H
         | H : _ /\ _ |- _ => destruct H
         | H : rank _ = None \/ rank _ = None |- _ => destruct H
         end;
  simplify_eq;
  repeat match goal with
         | a : (Z * Z * Z)%type |- _ => destruct a as [[? ?] ?]
         end;
  unfold lt3 in *; cbn [fst snd] in *; try lia.

Lemma ltb_leb (x y : t) : ltb x y = true -> leb x y = true.
Proof. intros H. float_order. Qed.

Lemma leb_trans (x y z : t) : leb x y = true -> leb y z = true -> leb x z = true.
Proof. intros H1 H2. float_order. Qed.

Lemma ltb_asym (x y : t) : ltb x y = true -> ltb y x = false.
Proof. intros H. float_order. Qed.

(** Two floats equal to a third are not strictly ordered. *)
Lemma eqb_not_ltb (x y k : t) : eqb x k = true -> eqb y k = true -> ltb x y = false.
Proof. intros H1 H2. float_order. Qed.

Lemma leb_ranked (x y : t) : leb x y = true -> is_Some (rank x) /\ is_Some (rank y).
Proof. intros H. float_order; split; eauto. Qed.

(** Between floats that are not NaN, not being smaller is being at least
    as large. *)
Lemma not_ltb_leb (x y : t) :
  is_Some (rank x) -> is_Some (rank y) -> ltb x y = false -> leb y x = true.
Proof. intros [a Ha] [b Hb] H. float_order. Qed.
End FloatOrder.

(** ** Rounding of products *)

Section FloatRounding.
Local Open Scope Z_scope.

Lemma digits2_pos_spec (m : positive) :
  2 ^ (Zpos (digits2_pos m) - 1) <= Zpos m < 2 ^ Zpos (digits2_pos m).
Proof.
  induction m as [m IH|m IH|]; cbn [digits2_pos].
  - rewrite Pos2Z.inj_succ. change (Zpos m~1) with (2 * Zpos m + 1).
    replace (Z.succ (Zpos (digits2_pos m)) - 1) with (Z.succ (Zpos (digits2_pos m) - 1)) by lia.
    rewrite !Z.pow_succ_r by lia.
    revert IH. generalize (2 ^ (Zpos (digits2_pos m) - 1)) (2 ^ Zpos (digits2_pos m)). lia.
  - rewrite Pos2Z.inj_succ. change (Zpos m~0) with (2 * Zpos m).
    replace (Z.succ (Zpos (digits2_pos m)) - 1) with (Z.succ (Zpos (digits2_pos m) - 1)) by lia.
    rewrite !Z.pow_succ_r by lia.
    revert IH. generalize (2 ^ (Zpos (digits2_pos m) - 1)) (2 ^ Zpos (digits2_pos m)). lia.
  - cbn. lia.
Qed.

Lemma digits2_pos_gt (m : positive) (k : Z) :
  0 <= k -> 2 ^ k <= Zpos m -> k < Zpos (digits2_pos m).
Proof.
  intros Hk Hm. destruct (digits2_pos_spec m) as [_ Hhi].
  apply (Z.pow_lt_mono_r_iff 2); lia.
Qed.

Lemma digits2_pos_le (m : positive) (k : Z) :
  0 <= k -> Zpos m < 2 ^ k -> Zpos (digits2_pos m) <= k.
Proof.
  intros Hk Hm. destruct (digits2_pos_spec m) as [Hlo _].
  assert (Zpos (digits2_pos m) - 1 < k); [|lia].
  apply (Z.pow_lt_mono_r_iff 2); lia.
Qed.

Lemma shr_1_m (r : shr_record) : 0 <= shr_m r -> shr_m (shr_1 r) = shr_m r / 2.
Proof.
  destruct r as [m b s]. cbn [shr_m]. intros Hm.
  rewrite <- Z.div2_div.
  destruct m as [|[p|p|]|p]; try reflexivity; lia.
Qed.

Lemma shr_iter_m (p : positive) (r : shr_record) :
  0 <= shr_m r -> shr_m (SpecFloat.iter_pos shr_1 p r) = shr_m r / 2 ^ Zpos p.
Proof.
  revert r. induction p as [p IH|p IH|]; intros r Hr; cbn [SpecFloat.iter_pos].
  - assert (H1 : 0 <= shr_m (shr_1 r)) by (rewrite shr_1_m by exact Hr; apply Z.div_pos; lia).
    assert (H2 : 0 <= shr_m (SpecFloat.iter_pos shr_1 p (shr_1 r)))
      by (rewrite IH by exact H1; apply Z.div_pos; [exact H1 | apply Z.pow_pos_nonneg; lia]).
    rewrite IH by exact H2. rewrite IH by exact H1. rewrite shr_1_m by exact Hr.
    rewrite !Z.div_div by (try apply Z.pow_pos_nonneg; lia).
    f_equal. change (Zpos p~1) with (Z.succ (2 * Zpos p)).
    rewrite Z.pow_succ_r by lia. rewrite Z.pow_mul_r by lia.
    replace (2 ^ 2) with (2 * 2) by reflexivity.
    rewrite Z.pow_mul_l. lia.
  - assert (H2 : 0 <= shr_m (SpecFloat.iter_pos shr_1 p r))
      by (rewrite IH by exact Hr; apply Z.div_pos; [exact Hr | apply Z.pow_pos_nonneg; lia]).
    rewrite IH by exact H2. rewrite IH by exact Hr.
    rewrite !Z.div_div by (try apply Z.pow_pos_nonneg; lia).
    f_equal. change (Zpos p~0) with (2 * Zpos p).
    rewrite Z.pow_mul_r by lia.
    replace (2 ^ 2) with (2 * 2) by reflexivity.
    rewrite Z.pow_mul_l. lia.
  - rewrite shr_1_m by exact Hr. reflexivity.
Qed.

Lemma shr_record_of_loc_m (m : Z) (l : location) : shr_m (shr_record_of_loc m l) = m.
Proof. destruct l as [|[]]; reflexivity. Qed.

(** Shifting a mantissa of at least 53 bits, above the subnormal range,
    leaves exactly 53 bits. *)
Lemma shr_fexp_normal (m : positive) (e : Z) (l : location) :
  53 <= Zpos (digits2_pos m) ->
  -1074 <= Zpos (digits2_pos m) + e - 53 ->
  exists mrs,
    shr_fexp 53 1024 (Zpos m) e l = (mrs, Zpos (digits2_pos m) + e - 53)
    /\ 2 ^ 52 <= shr_m mrs < 2 ^ 53.
Proof.
  intros Hd He. unfold shr_fexp, fexp, emin. cbn [Zdigits2].
  destruct (digits2_pos_spec m) as [Hlo Hhi].
  set (d := Zpos (digits2_pos m)) in *.
  replace (Z.max (d + e - 53) (3 - 1024 - 53) - e) with (d - 53) by lia.
  destruct (d - 53) as [|p|p] eqn:Hs; cbn [shr].
  - exists (shr_record_of_loc (Zpos m) l). split; [f_equal; lia|].
    rewrite shr_record_of_loc_m.
    replace (d - 1) with 52 in Hlo by lia. replace d with 53 in Hhi by lia. lia.
  - exists (SpecFloat.iter_pos shr_1 p (shr_record_of_loc (Zpos m) l)). split; [f_equal; lia|].
    rewrite shr_iter_m by (rewrite shr_record_of_loc_m; lia).
    rewrite shr_record_of_loc_m.
    assert (Hp : 0 < 2 ^ Zpos p) by (apply Z.pow_pos_nonneg; lia).
    split.
    + apply Z.div_le_lower_bound; [exact Hp|].
      rewrite <- Z.pow_add_r by lia.
      replace (Zpos p + 52) with (d - 1) by lia. exact Hlo.
    + apply Z.div_lt_upper_bound; [exact Hp|].
      rewrite <- Z.pow_add_r by lia.
      replace (Zpos p + 53) with d by lia. exact Hhi.
  - lia.
Qed.

(** Rounding a positive mantissa of at least 53 bits, above the subnormal
    range: the result is normal, of exponent no less than that of the
    leading 53 bits, or overflows to infinity. *)
Lemma binary_round_aux_lower (m : positive) (e : Z) :
  53 <= Zpos (digits2_pos m) ->
  -1074 <= Zpos (digits2_pos m) + e - 53 ->
  binary_round_aux 53 1024 false (Zpos m) e loc_Exact = S754_infinity false
  \/ exists m' e',
       binary_round_aux 53 1024 false (Zpos m) e loc_Exact = S754_finite false m' e'
       /\ Zpos (digits2_pos m) + e - 53 <= e' /\ 2 ^ 52 <= Zpos m'.
Proof.
  intros Hd He. unfold binary_round_aux.
  destruct (shr_fexp_normal m e loc_Exact Hd He) as [mrs [-> Hm]].
  set (e1 := Zpos (digits2_pos m) + e - 53) in *.
  assert (Hr : 2 ^ 52 <= round_nearest_even (shr_m mrs) (loc_of_shr_record mrs) <= 2 ^ 53).
  { unfold round_nearest_even.
    destruct (loc_of_shr_record mrs) as [|[]]; try destruct (Z.even (shr_m mrs)); lia. }
  destruct (round_nearest_even (shr_m mrs) (loc_of_shr_record mrs)) as [|m2|m2] eqn:Hm2;
    [exfalso; lia | | exfalso; lia].
  assert (Hd2 : 53 <= Zpos (digits2_pos m2)).
  { assert (52 < Zpos (digits2_pos m2)); [|lia]. apply digits2_pos_gt; lia. }
  destruct (shr_fexp_normal m2 e1 loc_Exact Hd2 ltac:(lia)) as [mrs2 [-> Hm3]].
  destruct (shr_m mrs2) as [|m3|m3] eqn:Hm4; [exfalso; lia | | exfalso; lia].
  destruct (Zpos (digits2_pos m2) + e1 - 53 <=? 1024 - 53); [right|left; reflexivity].
  eexists _, _. split; [reflexivity|]. split; lia.
Qed.

Lemma digits2_pos_iter_xO (m q : positive) :
  digits2_pos (Pos.iter xO m q) = (digits2_pos m + q)%positive.
Proof.
  induction q as [|q IH] using Pos.peano_ind.
  - cbn. now rewrite Pos.add_1_r.
  - rewrite Pos.iter_succ. cbn [digits2_pos]. rewrite IH. now rewrite Pos.add_succ_r.
Qed.

Lemma binary_normalize_lower (n k : Z) :
  0 <= k -> 2 ^ k <= n ->
  binary_normalize 53 1024 n 0 false = S754_infinity false
  \/ exists m e,
       binary_normalize 53 1024 n 0 false = S754_finite false m e
       /\ k - 52 <= e /\ 2 ^ 52 <= Zpos m.
Proof.
  intros Hk Hn.
  assert (Hpos : 0 < 2 ^ k) by (apply Z.pow_pos_nonneg; lia).
  destruct n as [|p|p]; [lia | | lia].
  pose proof (digits2_pos_gt p k Hk Hn) as Hdp.
  cbn [binary_normalize]. unfold binary_round, shl_align, fexp, emin.
  replace (Z.max (Zpos (digits2_pos p) + 0 - 53) (3 - 1024 - 53) - 0)
    with (Zpos (digits2_pos p) - 53) by lia.
  destruct (Zpos (digits2_pos p) - 53) as [|q|q] eqn:Hq.
  - destruct (binary_round_aux_lower p 0 ltac:(lia) ltac:(lia)) as [->|[m [e [-> [He Hm]]]]];
      [left; reflexivity | right].
    eexists _, _. split; [reflexivity|]. split; lia.
  - destruct (binary_round_aux_lower p 0 ltac:(lia) ltac:(lia)) as [->|[m [e [-> [He Hm]]]]];
      [left; reflexivity | right].
    eexists _, _. split; [reflexivity|]. split; lia.
  - pose proof (digits2_pos_iter_xO p q) as Hdq.
    assert (Hd53 : Zpos (digits2_pos (Pos.iter xO p q)) = 53) by (rewrite Hdq; lia).
    destruct (binary_round_aux_lower (Pos.iter xO p q)
                (Z.max (Zpos (digits2_pos p) + 0 - 53) (3 - 1024 - 53))
                ltac:(lia) ltac:(lia)) as [->|[m [e [-> [He Hm]]]]];
      [left; reflexivity | right].
    eexists _, _. split; [reflexivity|]. split; lia.
Qed.

Lemma SFmul_lower (x : spec_float) (k : Z) (mc : positive) (ec : Z) :
  (x = S754_infinity false
   \/ exists m e, x = S754_finite false m e /\ k - 52 <= e /\ 2 ^ 52 <= Zpos m) ->
  2 ^ 52 <= Zpos mc -> -1074 <= k + ec ->
  SFmul 53 1024 x (S754_finite false mc ec) = S754_infinity false
  \/ exists m e,
       SFmul 53 1024 x (S754_finite false mc ec) = S754_finite false m e
       /\ k + ec <= e /\ 2 ^ 52 <= Zpos m.
Proof.
  intros [->|[mx [ex [-> [Hex Hmx]]]]] Hmc Hk; [left; reflexivity|].
  cbn [SFmul xorb].
  assert (Hprod : 2 ^ 104 <= Zpos (mx * mc)).
  { rewrite Pos2Z.inj_mul. change (2 ^ 104) with (2 ^ 52 * 2 ^ 52).
    apply Z.mul_le_mono_nonneg; lia. }
  pose proof (digits2_pos_gt (mx * mc) 104 ltac:(lia) Hprod) as Hd.
  destruct (binary_round_aux_lower (mx * mc) (ex + ec) ltac:(lia) ltac:(lia))
    as [->|[m [e [-> [He Hm]]]]]; [left; reflexivity | right].
  eexists _, _. split; [reflexivity|]. split; lia.
Qed.

Lemma of_nat_lower (n : nat) (k : Z) :
  0 <= k -> 2 ^ k <= Z.of_nat n ->
  PyFloat.of_nat n = S754_infinity false
  \/ exists m e,
       PyFloat.of_nat n = S754_finite false m e /\ k - 52 <= e /\ 2 ^ 52 <= Zpos m.
Proof. apply binary_normalize_lower. Qed.

Lemma ltb_finite_lower (m : positive) (e : Z) (mc : positive) (ec : Z) :
  ec < e \/ (ec = e /\ Zpos mc <= Zpos m) ->
  PyFloat.ltb (S754_finite false m e) (S754_finite false mc ec) = false.
Proof.
  intros H. unfold PyFloat.ltb, SFltb. cbn [SFcompare].
  change (Pos.compare_cont Eq m mc) with (Pos.compare m mc).
  destruct (Z.compare_spec e ec) as [Heq|Hlt|Hgt]; [|lia|reflexivity].
  destruct (Pos.compare_spec m mc) as [Hm|Hm|Hm]; [reflexivity| |reflexivity].
  apply Pos2Z.pos_lt_pos in Hm. lia.
Qed.

(** From 15 common words on, the description share is its cap: the product
    [overlap * 0.02] is not below 0.3. *)
Lemma overlap_share_saturated (n : nat) :
  (15 <= n)%nat ->
  PyFloat.min PyFloat.f0_3 (PyFloat.mul (PyFloat.of_nat n) PyFloat.f0_02) = PyFloat.f0_3.
Proof.
  intros Hn. destruct (le_lt_dec 32 n) as [Hbig|Hsmall].
  - assert (Hlt : PyFloat.ltb (PyFloat.mul (PyFloat.of_nat n) PyFloat.f0_02) PyFloat.f0_3
                  = false).
    { rewrite literal_0_02, literal_0_3. unfold PyFloat.mul, PyFloat.prec, PyFloat.emax.
      destruct (SFmul_lower (PyFloat.of_nat n) 5 5764607523034235 (-58)
                  (of_nat_lower n 5 ltac:(lia) ltac:(change (2 ^ 5) with 32; lia))
                  ltac:(lia) ltac:(lia)) as [->|[m [e [-> [He Hm]]]]].
      - reflexivity.
      - apply ltb_finite_lower. lia. }
    unfold PyFloat.min. now rewrite Hlt.
  - do 32 (destruct n as [|n]; [first [lia | vm_compute; reflexivity]|]). lia.
Qed.

(** From 5 matching tags on, the tag share is its cap: the product
    [tag_matches * 0.05] is not below 0.25. *)
Lemma tag_share_saturated (n : nat) :
  (5 <= n)%nat ->
  PyFloat.min PyFloat.f0_25 (PyFloat.mul (PyFloat.of_nat n) PyFloat.f0_05) = PyFloat.f0_25.
Proof.
  intros Hn. destruct (le_lt_dec 8 n) as [Hbig|Hsmall].
  - assert (Hlt : PyFloat.ltb (PyFloat.mul (PyFloat.of_nat n) PyFloat.f0_05) PyFloat.f0_25
                  = false).
    { rewrite literal_0_05, literal_0_25. unfold PyFloat.mul, PyFloat.prec, PyFloat.emax.
      destruct (SFmul_lower (PyFloat.of_nat n) 3 7205759403792794 (-57)
                  (of_nat_lower n 3 ltac:(lia) ltac:(change (2 ^ 3) with 8; lia))
                  ltac:(lia) ltac:(lia)) as [->|[m [e [-> [He Hm]]]]].
      - reflexivity.
      - apply ltb_finite_lower. lia. }
    unfold PyFloat.min. now rewrite Hlt.
  - do 8 (destruct n as [|n]; [first [lia | vm_compute; reflexivity]|]). lia.
Qed.

(** Either share takes one of finitely many values. *)
Lemma overlap_share_cases (n : nat) :
  exists k : nat,
    (k <= 15)%nat
    /\ PyFloat.min PyFloat.f0_3 (PyFloat.mul (PyFloat.of_nat n) PyFloat.f0_02)
       = PyFloat.min PyFloat.f0_3 (PyFloat.mul (PyFloat.of_nat k) PyFloat.f0_02).
Proof.
  destruct (le_lt_dec 15 n) as [Hbig|Hsmall].
  - exists 15%nat. split; [lia|].
    now rewrite (overlap_share_saturated n Hbig), (overlap_share_saturated 15 (le_n 15)).
  - exists n. split; [lia | reflexivity].
Qed.

Lemma tag_share_cases (n : nat) :
  exists k : nat,
    (k <= 5)%nat
    /\ PyFloat.min PyFloat.f0_25 (PyFloat.mul (PyFloat.of_nat n) PyFloat.f0_05)
       = PyFloat.min PyFloat.f0_25 (PyFloat.mul (PyFloat.of_nat k) PyFloat.f0_05).
Proof.
  destruct (le_lt_dec 5 n) as [Hbig|Hsmall].
  - exists 5%nat. split; [lia|].
    now rewrite (tag_share_saturated n Hbig), (tag_share_saturated 5 (le_n 5)).
  - exists n. split; [lia | reflexivity].
Qed.
End FloatRounding.

(** ** Relevance scores *)

Section ScoreFacts.
Import Navigator.

(** The clamp [min(1.0, max(0.0, q))] lands between 0 and 1 for every
    float, a NaN included. *)
Lemma clamp_bounds (q : PyFloat.t) :
  PyFloat.leb PyFloat.f0_0 (PyFloat.min PyFloat.f1_0 (PyFloat.max PyFloat.f0_0 q)) = true
  /\ PyFloat.leb (PyFloat.min PyFloat.f1_0 (PyFloat.max PyFloat.f0_0 q)) PyFloat.f1_0 = true.
Proof.
  unfold PyFloat.max.
  destruct (PyFloat.ltb PyFloat.f0_0 q) eqn:Hpos.
  - unfold PyFloat.min. destruct (PyFloat.ltb q PyFloat.f1_0) eqn:Hlt.
    + split; now apply ltb_leb.
    + split; reflexivity.
  - split; reflexivity.
Qed.

Lemma score_is_ranked (r : Resource.t) (use_case : UseCase.t) :
  is_Some (PyFloat.rank (score (score_resource r use_case))).
Proof.
  destruct (clamp_bounds (raw_score r use_case)) as [H _].
  apply leb_ranked in H. apply H.
Qed.

Lemma by_score_desc_total (x y : Scored) :
  by_score_desc x y = false -> by_score_desc y x = true.
Proof.
  unfold by_score_desc. intros H. apply negb_false_iff in H.
  apply ltb_asym in H. now rewrite H.
Qed.

(** The ranked list is in descending order of score: no entry is smaller
    than its right neighbour. *)
Lemma score_resources_descending (resources : list Resource.t) (use_case : UseCase.t) :
  ordered by_score_desc (score_resources resources use_case).
Proof. apply stable_sort_ordered, by_score_desc_total. Qed.

Lemma score_resources_length (resources : list Resource.t) (use_case : UseCase.t) :
  length (score_resources resources use_case) = length resources.
Proof.
  unfold score_resources. now rewrite stable_sort_length, length_map.
Qed.

(** Entries of one score keep the order of the list that was scored. *)
Lemma score_resources_stable (resources : list Resource.t) (use_case : UseCase.t)
    (k : PyFloat.t) :
  List.filter (fun s => PyFloat.eqb (score s) k) (score_resources resources use_case)
  = List.filter (fun s => PyFloat.eqb (score s) k)
      (map (fun r => score_resource r use_case) resources).
Proof.
  unfold score_resources. apply stable_sort_filter.
  intros x y Hx Hy. unfold by_score_desc.
  now rewrite (eqb_not_ltb (score x) (score y) k Hx Hy).
Qed.
End ScoreFacts.

(** C1. Every score returned by [_score_resources] is the clamped sum of
    the five contributions and lies in the closed interval from 0 to 1,
    for every use case and every candidate list. *)
Theorem score_resources_in_unit_interval
    (resources : list Resource.t) (use_case : UseCase.t) :
  Forall
    (fun s =>
       Navigator.score s
       = PyFloat.min PyFloat.f1_0
           (PyFloat.max PyFloat.f0_0 (Navigator.raw_score (Navigator.resource s) use_case))
       /\ PyFloat.leb PyFloat.f0_0 (Navigator.score s) = true
       /\ PyFloat.leb (Navigator.score s) PyFloat.f1_0 = true)
    (Navigator.score_resources resources use_case).
Proof.
  apply List.Forall_forall. intros s Hs.
  unfold Navigator.score_resources in Hs.
  apply stable_sort_In in Hs.
  apply in_map_iff in Hs. destruct Hs as [r [<- _]].
  simpl. split; [reflexivity|]. apply clamp_bounds.
Qed.

(** The ranking of the platform request: every candidate scores the float
    0.2 of its type match. *)
Example platform_ranking :
  map (fun s => (Resource.resource_id (Navigator.resource s), Navigator.score s))
    (Navigator.score_resources
       (Statements.candidates MockResourceCatalog.resources Statements.uc_platform)
       Statements.uc_platform)
  = [("solution-002", PyFloat.f0_2); ("demo-001", PyFloat.f0_2);
     ("demo-002", PyFloat.f0_2); ("solution-001", PyFloat.f0_2)].
Proof. vm_compute. reflexivity. Qed.

(** Scores one bit apart are ranked apart: solution-001 is found after
    demo-001 and ranked before it, with 0.22 against 0.21999999999999997. *)
Example chat_ranking :
  map Resource.resource_id
    (Statements.candidates MockResourceCatalog.resources Statements.uc_chat)
  = ["demo-001"; "solution-001"; "solution-002"; "component-001"]
  /\ map (fun s => (Resource.resource_id (Navigator.resource s), Navigator.score s))
       (Navigator.score_resources
          (Statements.candidates MockResourceCatalog.resources Statements.uc_chat)
          Statements.uc_chat)
     = [("solution-001", S754_finite false 7926335344172073 (-55));
        ("demo-001", S754_finite false 7926335344172072 (-55));
        ("solution-002", PyFloat.f0_2);
        ("component-001", PyFloat.f0_15)].
Proof. split; vm_compute; reflexivity. Qed.

(** The sum [0.3 + 0.2 + 0.15 + 0.05] is 0.7000000000000001, above the
    threshold 0.7 of a required BOM line. *)
Example maintain_required :
  let top := Navigator.score_resource MockResourceCatalog.demo_001 Statements.uc_maintain in
  Navigator.score top = S754_finite false 6305039478318695 (-53)
  /\ PyFloat.ltb PyFloat.f0_7 (Navigator.score top) = true
  /\ BOMItem.required (Navigator.resource_item top) = true.
Proof. repeat split; vm_compute; reflexivity. Qed.

(** C5 (as stated): on the platform request the ranked list is
    solution-002, demo-001, demo-002, solution-001, all of score 0.2;
    solution-002 is the last catalog entry and comes first, ahead of
    demo-001, the first. *)
Lemma ties_not_in_catalog_order :
  ~ Statements.ties_in_catalog_order MockResourceCatalog.resources
      (Navigator.score_resources
         (Statements.candidates MockResourceCatalog.resources Statements.uc_platform)
         Statements.uc_platform).
Proof.
  intros H.
  specialize (H 0 1
                (Navigator.score_resource MockResourceCatalog.solution_002 Statements.uc_platform)
                (Navigator.score_resource MockResourceCatalog.demo_001 Statements.uc_platform)).
  assert (Hlt : 4 < 0); [|lia].
  apply H.
  - lia.
  - vm_compute. reflexivity.
  - vm_compute. reflexivity.
  - vm_compute. reflexivity.
Qed.

(** C5 (amended). Candidates of equal score are ranked in the order of the
    candidate list built by [_search_catalog] (the keyword passes, then the
    type passes, then the industry pass): for every score [k] the entries
    of score [k] are the same sequence in the ranked list and in the
    scored candidate list. *)
Theorem ties_keep_discovery_order
    (catalog : list Resource.t) (use_case : UseCase.t) (k : PyFloat.t) :
  List.filter (fun s => PyFloat.eqb (Navigator.score s) k)
    (Navigator.score_resources (Statements.candidates catalog use_case) use_case)
  = List.filter (fun s => PyFloat.eqb (Navigator.score s) k)
      (map (fun r => Navigator.score_resource r use_case)
           (Statements.candidates catalog use_case)).
Proof. apply score_resources_stable. Qed.

(** ** Top-10 truncation *)


(** The successful path of [_search_resources]: the match is filed under the
    use case id and returned. *)
Lemma search_resources_found
    (catalog : list Resource.t) (st : Storage.t) (match_id uid : string)
    (use_case : UseCase.t) :
  PyStr.nonempty uid = true ->
  Storage.get_use_case st uid = Some use_case ->
  let m := Navigator.build_resource_match catalog match_id uid use_case in
  Navigator.search_resources catalog st match_id (Some uid)
  = ({| Storage.use_cases := Storage.use_cases st;
        Storage.projects := Storage.projects st;
        Storage.resource_matches := <[uid := m]> (Storage.resource_matches st);
        Storage.chat_sessions := Storage.chat_sessions st |},
     create_response Navigator.name true
       (Fmt "Successfully matched {} resources"
          [ANat (length (ResourceMatch.recommended_resources m))])
       (Some (Navigator.Matched m)) (Some "present_matches")).
Proof.
  intros Hid Hget m.
  unfold Navigator.search_resources.
  rewrite Hid, Hget.
  unfold Storage.create_resource_match, Storage.or_id.
  change (ResourceMatch.use_case_id
            (Navigator.build_resource_match catalog match_id uid use_case)) with uid.
  rewrite Hid. rewrite Hid. reflexivity.
Qed.



(** ** Bill of materials *)

Section BomFacts.
Import Navigator.

(** The BOM is the concatenation of the five rules' items. *)
Lemma generate_bom_items_rules (scored : list Scored) (use_case : UseCase.t) :
  generate_bom_items scored use_case
  = map resource_item (firstn 5 scored)
    ++ match UseCase.cloud_preference use_case with
       | Some c => get_cloud_requirements c
       | None => []
       end
    ++ get_compliance_requirements
         (ProjectConstraints.compliance_requirements (UseCase.project_constraints use_case))
    ++ [project_management; technical_documentation]
    ++ (if timeline_is_urgent
             (ProjectConstraints.timeline (UseCase.project_constraints use_case))
        then [rapid_deployment] else []).
Proof.
  unfold generate_bom_items.
  destruct (UseCase.cloud_preference use_case) as [[|c0 c]|];
    destruct (ProjectConstraints.compliance_requirements
                (UseCase.project_constraints use_case)) as [|r rs];
    destruct (timeline_is_urgent
                (ProjectConstraints.timeline (UseCase.project_constraints use_case)));
    cbn [PyStr.nonempty]; change (get_cloud_requirements "") with (@nil BOMItem.t);
    change (get_compliance_requirements []) with (@nil BOMItem.t);
    rewrite <- ?app_assoc, ?app_nil_r; reflexivity.
Qed.

Lemma compliance_item_length (req : string) :
  length (compliance_item req) = if Statements.matches_regime req then 1 else 0.
Proof.
  unfold compliance_item, Statements.matches_regime.
  destruct (PyStr.contains "gdpr" (PyStr.lower req)); [reflexivity|].
  destruct (PyStr.contains "hipaa" (PyStr.lower req)); [reflexivity|].
  destruct (PyStr.contains "soc2" (PyStr.lower req)); [reflexivity|].
  destruct (PyStr.contains "pci" (PyStr.lower req)); reflexivity.
Qed.

Lemma compliance_count (requirements : list string) :
  length (get_compliance_requirements requirements)
  = length (List.filter Statements.matches_regime requirements).
Proof.
  unfold get_compliance_requirements.
  induction requirements as [|req reqs IH]; simpl.
  - reflexivity.
  - rewrite length_app, compliance_item_length, IH.
    destruct (Statements.matches_regime req); reflexivity.
Qed.

(** The lines of scored resources, of the cloud table and of the two
    standing items are not compliance lines. *)
Lemma resource_items_not_compliance (scored : list Scored) :
  List.filter Statements.is_compliance (map resource_item scored) = [].
Proof.
  induction scored as [|s scored IH]; simpl.
  - reflexivity.
  - exact IH.
Qed.

Lemma cloud_items_not_compliance (c : string) :
  List.filter Statements.is_compliance (get_cloud_requirements c) = [].
Proof.
  unfold get_cloud_requirements.
  destruct (String.eqb (PyStr.lower c) "azure"); [reflexivity|].
  destruct (String.eqb (PyStr.lower c) "aws"); [reflexivity|].
  destruct (String.eqb (PyStr.lower c) "gcp"); reflexivity.
Qed.

(** No line of the first four rules is the expedited-process item. *)
Lemma rapid_not_resource_item (scored : list Scored) :
  ~ In rapid_deployment (map resource_item scored).
Proof.
  intros H. apply in_map_iff in H. destruct H as [s [Hs _]].
  unfold resource_item, rapid_deployment, bom in Hs. discriminate.
Qed.

Lemma rapid_not_cloud_item (c : string) : ~ In rapid_deployment (get_cloud_requirements c).
Proof.
  unfold get_cloud_requirements.
  destruct (String.eqb (PyStr.lower c) "azure");
    [|destruct (String.eqb (PyStr.lower c) "aws");
      [|destruct (String.eqb (PyStr.lower c) "gcp")]];
    simpl; intros H; repeat (destruct H as [H|H]; [discriminate|]); exact H.
Qed.

Lemma rapid_not_compliance_item (requirements : list string) :
  ~ In rapid_deployment (get_compliance_requirements requirements).
Proof.
  unfold get_compliance_requirements. intros H.
  apply in_flat_map in H. destruct H as [req [_ H]].
  unfold compliance_item in H.
  destruct (PyStr.contains "gdpr" (PyStr.lower req));
    [|destruct (PyStr.contains "hipaa" (PyStr.lower req));
      [|destruct (PyStr.contains "soc2" (PyStr.lower req));
        [|destruct (PyStr.contains "pci" (PyStr.lower req))]]];
    simpl in H; repeat (destruct H as [H|H]; [discriminate|]); exact H.
Qed.
End BomFacts.

(** The expedited-process item is in the BOM exactly when the guard of the
    timeline rule holds. *)
Lemma expedited_iff_urgent (scored : list Navigator.Scored) (use_case : UseCase.t) :
  In Navigator.rapid_deployment (Navigator.generate_bom_items scored use_case)
  <-> Navigator.timeline_is_urgent
        (ProjectConstraints.timeline (UseCase.project_constraints use_case)) = true.
Proof.
  rewrite generate_bom_items_rules.
  rewrite !in_app_iff.
  destruct (Navigator.timeline_is_urgent _); split.
  - reflexivity.
  - intros _. do 4 right. now left.
  - intros [H|[H|[H|[H|H]]]].
    + now apply rapid_not_resource_item in H.
    + destruct (UseCase.cloud_preference use_case) as [c|]; [|destruct H].
      now apply rapid_not_cloud_item in H.
    + now apply rapid_not_compliance_item in H.
    + simpl in H. destruct H as [H|[H|H]]; [discriminate | discriminate | destruct H].
    + destruct H.
  - discriminate.
Qed.

(** C3 (as stated): for the request with timeline "need this ASAP" the
    BOM built from its ranked candidates has no expedited-process item. *)
Lemma asap_bom_lacks_expedited_item :
  ~ (Orchestrator.priority (Orchestrator.perform_intent_analysis Statements.uc_asap) = "high"
     /\ In Navigator.rapid_deployment
          (Navigator.generate_bom_items
             (Navigator.score_resources
                (Statements.candidates MockResourceCatalog.resources Statements.uc_asap)
                Statements.uc_asap)
             Statements.uc_asap)).
Proof.
  intros [_ H].
  pose proof (proj1 (expedited_iff_urgent _ Statements.uc_asap) H) as Hurgent.
  vm_compute in Hurgent. discriminate.
Qed.

(** C3 (amended). For every use case whose timeline is "need this ASAP" the
    intent analysis gives priority 'high'; the BOM deriver tests the
    timeline for 'urgent' only, so the BOM of such a use case has no
    expedited-process item, whatever the candidates. *)
Theorem asap_priority_high_no_expedited_item
    (use_case : UseCase.t) (scored : list Navigator.Scored) :
  ProjectConstraints.timeline (UseCase.project_constraints use_case) = Some "need this ASAP" ->
  Orchestrator.priority (Orchestrator.perform_intent_analysis use_case) = "high"
  /\ ~ In Navigator.rapid_deployment (Navigator.generate_bom_items scored use_case).
Proof.
  intros Htl. split.
  - unfold Orchestrator.perform_intent_analysis.
    cbn [Orchestrator.priority]. rewrite Htl. reflexivity.
  - rewrite expedited_iff_urgent, Htl. vm_compute. discriminate.
Qed.

Lemma asap_priority_high_no_expedited_item_witness :
  ProjectConstraints.timeline (UseCase.project_constraints Statements.uc_asap)
  = Some "need this ASAP"
  /\ Orchestrator.priority (Orchestrator.perform_intent_analysis Statements.uc_asap) = "high"
  /\ ~ In Navigator.rapid_deployment (Navigator.generate_bom_items [] Statements.uc_asap).
Proof.
  split; [reflexivity|].
  exact (asap_priority_high_no_expedited_item Statements.uc_asap [] eq_refl).
Defined.


Example standalone_bom_of_compliance_request :
  map BOMItem.item (Navigator.generate_bom_items [] Statements.uc_compliance)
  = ["Azure Subscription"; "Azure DevOps"; "Azure Monitor";
     "GDPR Compliance Framework"; "SOC2 Audit Preparation";
     "Project Management"; "Technical Documentation"; "Rapid Deployment Framework"].
Proof. reflexivity. Qed.

(** C8. With compliance requirements ["GDPR", "SOC2"], the compliance
    lines of the BOM are the GDPR item and the SOC2 item of the table, once
    each and both required, for every candidate list. *)
Theorem gdpr_soc2_items_once (use_case : UseCase.t) (scored : list Navigator.Scored) :
  ProjectConstraints.compliance_requirements (UseCase.project_constraints use_case)
  = ["GDPR"; "SOC2"] ->
  exists gdpr soc2,
    List.filter Statements.is_compliance (Navigator.generate_bom_items scored use_case)
    = [gdpr; soc2]
    /\ BOMItem.item gdpr = "GDPR Compliance Framework" /\ BOMItem.required gdpr = true
    /\ BOMItem.item soc2 = "SOC2 Audit Preparation" /\ BOMItem.required soc2 = true.
Proof.
  intros Hreqs.
  exists (Navigator.bom "GDPR Compliance Framework" "Compliance" "Regulatory" true),
         (Navigator.bom "SOC2 Audit Preparation" "Compliance" "Regulatory" true).
  split; [|repeat split].
  rewrite generate_bom_items_rules, Hreqs.
  rewrite !List.filter_app, resource_items_not_compliance.
  assert (Hcloud :
    List.filter Statements.is_compliance
      match UseCase.cloud_preference use_case with
      | Some c => Navigator.get_cloud_requirements c
      | None => []
      end = []).
  { destruct (UseCase.cloud_preference use_case); [apply cloud_items_not_compliance | reflexivity]. }
  rewrite Hcloud.
  destruct (Navigator.timeline_is_urgent _); reflexivity.
Qed.

Lemma gdpr_soc2_items_once_witness :
  ProjectConstraints.compliance_requirements
    (UseCase.project_constraints Statements.uc_compliance) = ["GDPR"; "SOC2"]
  /\ exists gdpr soc2,
       List.filter Statements.is_compliance
         (Navigator.generate_bom_items
            (Navigator.score_resources
               (Statements.candidates MockResourceCatalog.resources Statements.uc_compliance)
               Statements.uc_compliance)
            Statements.uc_compliance)
       = [gdpr; soc2]
       /\ BOMItem.item gdpr = "GDPR Compliance Framework" /\ BOMItem.required gdpr = true
       /\ BOMItem.item soc2 = "SOC2 Audit Preparation" /\ BOMItem.required soc2 = true.
Proof.
  split; [reflexivity|].
  exact (gdpr_soc2_items_once Statements.uc_compliance _ eq_refl).
Defined.

(** ** Concierge *)




(** C10. When the stripped input has fewer than 20 characters,
    [_process_comprehensive_input] leaves the storage as it was and returns
    an unsuccessful response without data that awaits
    'process_comprehensive'. *)
Theorem brief_input_reprompts
    (st : Storage.t) (fresh : string) (context : Concierge.Context) :
  String.length (PyStr.strip (default "" (Concierge.user_input context))) < 20 ->
  fst (Concierge.process_comprehensive_input st fresh context) = st
  /\ AgentResponse.success (snd (Concierge.process_comprehensive_input st fresh context))
     = false
  /\ AgentResponse.next_action (snd (Concierge.process_comprehensive_input st fresh context))
     = Some "process_comprehensive"
  /\ AgentResponse.data (snd (Concierge.process_comprehensive_input st fresh context))
     = None.
Proof.
  intros Hshort. apply Nat.ltb_lt in Hshort.
  unfold Concierge.process_comprehensive_input.
  rewrite Hshort. repeat split; reflexivity.
Qed.

Lemma brief_input_reprompts_witness :
  String.length
    (PyStr.strip
       (default "" (Concierge.user_input
                      (Statements.context_with (Some "intake_form") (Some "  a chat bot  ")))))
  < 20
  /\ fst (Concierge.process_comprehensive_input Storage.empty "uc-2"
            (Statements.context_with (Some "intake_form") (Some "  a chat bot  ")))
     = Storage.empty
  /\ AgentResponse.success
       (snd (Concierge.process_comprehensive_input Storage.empty "uc-2"
               (Statements.context_with (Some "intake_form") (Some "  a chat bot  "))))
     = false
  /\ AgentResponse.next_action
       (snd (Concierge.process_comprehensive_input Storage.empty "uc-2"
               (Statements.context_with (Some "intake_form") (Some "  a chat bot  "))))
     = Some "process_comprehensive"
  /\ AgentResponse.data
       (snd (Concierge.process_comprehensive_input Storage.empty "uc-2"
               (Statements.context_with (Some "intake_form") (Some "  a chat bot  "))))
     = None.
Proof.
  assert (Hshort :
    String.length
      (PyStr.strip
         (default "" (Concierge.user_input
                        (Statements.context_with (Some "intake_form") (Some "  a chat bot  ")))))
    < 20).
  { vm_compute. lia. }
  split; [exact Hshort|].
  exact (brief_input_reprompts Storage.empty "uc-2"
           (Statements.context_with (Some "intake_form") (Some "  a chat bot  ")) Hshort).
Defined.

(** A long enough description is filed as a new use case. *)
Example long_input_is_stored :
  Storage.use_cases
    (fst (Concierge.process_comprehensive_input Storage.empty "uc-2"
            (Statements.context_with (Some "intake_form")
               (Some "Urgent azure chat demo for a finance client. Needs SSO."))))
  !! "uc-2"
  = Some (Concierge.use_case_of "uc-2"
            {| Concierge.ex_title := "Urgent azure chat demo for a finance client";
               Concierge.ex_description :=
                 "Urgent azure chat demo for a finance client. Needs SSO.";
               Concierge.ex_created_by := "user-1";
               Concierge.ex_industry_vertical := Some "Finance";
               Concierge.ex_cloud_preference := Some "Azure";
               Concierge.ex_resource_type_preference := ["Demo"];
               Concierge.ex_timeline := Some "Contains timeline reference: urgent" |}).
Proof. vm_compute. reflexivity. Qed.

(** ** Coordination *)

Section CoordinationFacts.
Import Orchestrator.
Context {World : Type}.
Variable navigator : context -> World -> World * outcome response.
Variable archivist : context -> World -> World * outcome response.

(** A critical agent that returns an unsuccessful response ends the
    loop: its entry is the last one. *)
Lemma run_agents_breaks_on_returned_failure
    (agent_name : string) (rest : list string) (ctx : context) (w w' : World)
    (result : response) (results : list Entry) :
  critical agent_name = true ->
  execute_agent navigator archivist agent_name ctx w = (w', Returned result) ->
  AgentResponse.success result = false ->
  run_agents navigator archivist (agent_name :: rest) ctx w results
  = (w', ctx,
     results ++ [{| agent := agent_name;
                    entry_success := false;
                    entry_message := AgentResponse.message_of result;
                    entry_data := AgentResponse.data result |}]).
Proof.
  intros Hcritical Hexec Hfailed.
  cbn [run_agents]. rewrite Hexec, Hfailed, Hcritical. reflexivity.
Qed.

(** An agent that raises is recorded as failed and the loop goes on with
    the remaining agents, whether or not the agent is critical. *)
Lemma run_agents_continues_after_exception
    (agent_name : string) (rest : list string) (ctx : context) (w w' : World)
    (err : string) (results : list Entry) :
  execute_agent navigator archivist agent_name ctx w = (w', Raised err) ->
  run_agents navigator archivist (agent_name :: rest) ctx w results
  = run_agents navigator archivist rest ctx w'
      (results ++ [{| agent := agent_name;
                      entry_success := false;
                      entry_message := Fmt "Execution failed: {}" [AStr err];
                      entry_data := None |}]).
Proof.
  intros Hexec. cbn [run_agents]. rewrite Hexec. reflexivity.
Qed.

(** The response of a run over a non-empty list of agents. *)
Lemma coordinate_agents_nonempty
    (required_agents : list string) (ctx : context) (w : World) :
  required_agents <> [] ->
  let results :=
    snd (run_agents navigator archivist
           (determine_agent_execution_order required_agents) ctx w []) in
  let successful := List.filter entry_success results in
  snd (coordinate_agents navigator archivist required_agents ctx w)
  = create_response name
      (Nat.leb (length required_agents / 2) (length successful))
      (Fmt "Agent coordination completed. {}/{} agents succeeded."
         [ANat (length successful); ANat (length required_agents)])
      (Some {| coordination_results := results;
               successful_agents := length successful;
               total_agents := length required_agents |})
      (Some "coordination_complete").
Proof.
  intros Hne results successful. subst successful results.
  unfold coordinate_agents.
  destruct required_agents as [|a rest]; [contradiction|].
  destruct (run_agents navigator archivist
              (determine_agent_execution_order (a :: rest)) ctx w [])
    as [[w' ctx'] results].
  reflexivity.
Qed.
End CoordinationFacts.


(** C6 (as stated): over an empty list of required workers the response is
    unsuccessful, although 0 recorded successes reach floor(0 / 2). *)
Lemma empty_run_is_unsuccessful :
  ~ Statements.success_iff_half []
      (snd (Orchestrator.coordinate_agents
              (Statements.succeeding "NavigatorAgent")
              (Statements.succeeding "ArchivistAgent") [] ∅ tt)).
Proof.
  unfold Statements.success_iff_half. intros [_ H].
  specialize (H (Nat.le_refl 0)). discriminate.
Qed.

(** C6 (amended). For every run over a non-empty list of n required
    workers, the overall success flag is true exactly when the number of
    successful recorded results is at least floor(n / 2); the response
    carries that number and n. *)
Theorem success_iff_half_nonempty {World : Type}
    (navigator archivist :
       Orchestrator.context -> World -> World * outcome Orchestrator.response)
    (required_agents : list string) (ctx : Orchestrator.context) (w : World) :
  required_agents <> [] ->
  let r := snd (Orchestrator.coordinate_agents navigator archivist required_agents ctx w) in
  Statements.success_iff_half required_agents r
  /\ exists d, AgentResponse.data r = Some d
               /\ Orchestrator.successful_agents d = Statements.recorded_successes r
               /\ Orchestrator.total_agents d = length required_agents.
Proof.
  intros Hne r. subst r.
  rewrite (coordinate_agents_nonempty navigator archivist required_agents ctx w Hne).
  unfold Statements.success_iff_half, Statements.recorded_successes, create_response.
  cbn [AgentResponse.success AgentResponse.data Orchestrator.coordination_results
       Orchestrator.successful_agents Orchestrator.total_agents].
  split.
  - apply Nat.leb_le.
  - eexists. split; [reflexivity|]. split; reflexivity.
Qed.

Lemma success_iff_half_nonempty_witness :
  ["NavigatorAgent"; "CostAgent"] <> []
  /\ let r :=
       snd (Orchestrator.coordinate_agents
              (Statements.succeeding "NavigatorAgent")
              (Statements.succeeding "ArchivistAgent")
              ["NavigatorAgent"; "CostAgent"] ∅ tt) in
     Statements.success_iff_half ["NavigatorAgent"; "CostAgent"] r
     /\ exists d, AgentResponse.data r = Some d
                  /\ Orchestrator.successful_agents d = Statements.recorded_successes r
                  /\ Orchestrator.total_agents d = length ["NavigatorAgent"; "CostAgent"].
Proof.
  assert (Hne : ["NavigatorAgent"; "CostAgent"] <> []) by discriminate.
  split; [exact Hne|].
  exact (success_iff_half_nonempty
           (Statements.succeeding "NavigatorAgent")
           (Statements.succeeding "ArchivistAgent")
           ["NavigatorAgent"; "CostAgent"] ∅ tt Hne).
Defined.

(** One success out of two workers is an overall success: CostAgent is not
    implemented and fails, NavigatorAgent succeeds. *)
Example one_of_two_is_success :
  let r :=
    snd (Orchestrator.coordinate_agents
           (Statements.succeeding "NavigatorAgent")
           (Statements.succeeding "ArchivistAgent")
           ["NavigatorAgent"; "CostAgent"] ∅ tt) in
  AgentResponse.success r = true /\ Statements.recorded_successes r = 1.
Proof. vm_compute. split; reflexivity. Qed.

(** A critical worker that returns a failure ends the run at its entry. *)
Example returned_failure_halts :
  option_map
    (fun d => map (fun e => (Orchestrator.agent e, Orchestrator.entry_success e))
                (Orchestrator.coordination_results d))
    (AgentResponse.data
       (snd (Orchestrator.coordinate_agents
               (Statements.failing "NavigatorAgent")
               (Statements.succeeding "ArchivistAgent")
               ["ArchivistAgent"; "CostAgent"; "NavigatorAgent"] ∅ tt)))
  = Some [("NavigatorAgent", false)].
Proof. vm_compute. reflexivity. Qed.

(** * Further properties of the code *)

(** ** Catalog search *)

Lemma filter_filter_andb {A : Type} (f g : A -> bool) (l : list A) :
  List.filter f (List.filter g l) = List.filter (fun x => g x && f x) l.
Proof.
  induction l as [|x l IH]; simpl.
  - reflexivity.
  - destruct (g x); simpl; [destruct (f x)|]; now rewrite IH.
Qed.

Lemma filter_true {A : Type} (l : list A) : List.filter (fun _ => true) l = l.
Proof. induction l as [|x l IH]; simpl; [reflexivity | now rewrite IH]. Qed.

Lemma filter_ext_bool {A : Type} (f g : A -> bool) (l : list A) :
  (forall x, f x = g x) -> List.filter f l = List.filter g l.
Proof.
  intros Hfg. induction l as [|x l IH]; simpl; [reflexivity|].
  rewrite Hfg, IH. reflexivity.
Qed.

Lemma search_resources_as_filter
    (rs : list Resource.t) (query : string) (resource_type industry : option string)
    (tags : option (list string)) :
  MockResourceCatalog.search_resources rs query resource_type industry tags
  = List.filter (Statements2.satisfies query resource_type industry tags) rs.
Proof.
  unfold MockResourceCatalog.search_resources, Statements2.satisfies.
  rewrite <- (filter_true rs) at 1.
  assert (Hty : forall l,
    match resource_type with
    | Some ty =>
        if PyStr.nonempty ty
        then List.filter
               (fun r => String.eqb (PyStr.lower (Resource.type r)) (PyStr.lower ty)) l
        else l
    | None => l
    end
    = List.filter
        (fun r => if PyStr.truthy resource_type
                  then String.eqb (PyStr.lower (Resource.type r))
                         (PyStr.lower (default "" resource_type))
                  else true) l).
  { intros l. destruct resource_type as [ty|]; simpl.
    - destruct (PyStr.nonempty ty); [reflexivity | now rewrite filter_true].
    - now rewrite filter_true. }
  assert (Hind : forall l,
    match industry with
    | Some ind =>
        if PyStr.nonempty ind
        then List.filter
               (fun r => PyStr.mem (PyStr.lower ind) (map PyStr.lower (Resource.industry r))) l
        else l
    | None => l
    end
    = List.filter
        (fun r => if PyStr.truthy industry
                  then PyStr.mem (PyStr.lower (default "" industry))
                         (map PyStr.lower (Resource.industry r))
                  else true) l).
  { intros l. destruct industry as [ind|]; simpl.
    - destruct (PyStr.nonempty ind); [reflexivity | now rewrite filter_true].
    - now rewrite filter_true. }
  assert (Htags : forall l,
    match tags with
    | Some (t0 :: ts) =>
        List.filter
          (fun r =>
             existsb (fun tag => PyStr.mem (PyStr.lower tag) (map PyStr.lower (Resource.tags r)))
                     (t0 :: ts)) l
    | _ => l
    end
    = List.filter
        (fun r =>
           match tags with
           | Some (t0 :: ts) =>
               existsb (fun tag => PyStr.mem (PyStr.lower tag) (map PyStr.lower (Resource.tags r)))
                       (t0 :: ts)
           | _ => true
           end) l).
  { intros l. destruct tags as [[|t0 ts]|]; try now rewrite filter_true. reflexivity. }
  cbv zeta. rewrite Hty, Hind, Htags.
  destruct (PyStr.nonempty query).
  - rewrite !filter_filter_andb. apply filter_ext_bool. intros r.
    rewrite ?andb_true_l, ?andb_assoc. reflexivity.
  - rewrite !filter_filter_andb. apply filter_ext_bool. intros r.
    rewrite ?andb_true_l, ?andb_true_r, ?andb_assoc. reflexivity.
Qed.

(** X1. The filters of [search_resources], applied one after the other, select
    the catalog entries that pass all the supplied tests, in catalog order;
    an omitted or falsy argument imposes no constraint. *)
Theorem search_resources_conjunctive
    (rs : list Resource.t) (query : string) (resource_type industry : option string)
    (tags : option (list string)) :
  MockResourceCatalog.search_resources rs query resource_type industry tags
  = List.filter (Statements2.satisfies query resource_type industry tags) rs
  /\ incl (MockResourceCatalog.search_resources rs query resource_type industry tags) rs
  /\ MockResourceCatalog.search_resources rs "" None None None = rs.
Proof.
  split; [apply search_resources_as_filter|]. split.
  - rewrite search_resources_as_filter. intros r Hr. now apply filter_In in Hr.
  - rewrite search_resources_as_filter. apply filter_true.
Qed.

(** [get_resource_by_id] finds an entry of that id when the catalog has
    one, and nothing otherwise. *)
Theorem get_resource_by_id_spec (rs : list Resource.t) (rid : string) :
  match MockResourceCatalog.get_resource_by_id rs rid with
  | Some r => In r rs /\ Resource.resource_id r = rid
  | None => Forall (fun r => Resource.resource_id r <> rid) rs
  end.
Proof.
  unfold MockResourceCatalog.get_resource_by_id.
  destruct (List.find _ rs) as [r|] eqn:Hfind.
  - apply find_some in Hfind. destruct Hfind as [Hin Heq].
    apply String.eqb_eq in Heq. now split.
  - apply List.Forall_forall. intros r Hin Heq.
    apply (find_none _ _ Hfind) in Hin.
    apply String.eqb_neq in Hin. contradiction.
Qed.

(** ** Search terms and candidates *)

Lemma strings_eqb_eq (a b : list string) : Resource.strings_eqb a b = true <-> a = b.
Proof.
  revert b. induction a as [|x a IH]; intros [|y b]; simpl; split; intros H;
    try reflexivity; try discriminate.
  - apply andb_true_iff in H. destruct H as [Hxy Hab].
    apply String.eqb_eq in Hxy. apply IH in Hab. congruence.
  - injection H as -> ->. rewrite String.eqb_refl. now apply IH.
Qed.

(** Dictionary equality of catalog entries is equality of all their
    fields. *)
Lemma resource_eqb_eq (a b : Resource.t) : Resource.eqb a b = true <-> a = b.
Proof.
  unfold Resource.eqb. split.
  - intros H. repeat (apply andb_true_iff in H; destruct H as [H ?]).
    repeat match goal with
           | Hs : String.eqb _ _ = true |- _ => apply String.eqb_eq in Hs
           | Hs : Resource.strings_eqb _ _ = true |- _ => apply strings_eqb_eq in Hs
           end.
    destruct a, b; simpl in *; congruence.
  - intros <-. rewrite !String.eqb_refl.
    rewrite (proj2 (strings_eqb_eq _ _) eq_refl).
    rewrite (proj2 (strings_eqb_eq (Resource.industry a) _) eq_refl). reflexivity.
Qed.

Lemma resource_mem_In (r : Resource.t) (l : list Resource.t) :
  Resource.mem r l = true <-> In r l.
Proof.
  unfold Resource.mem. rewrite existsb_exists. split.
  - intros [x [Hin Heq]]. apply resource_eqb_eq in Heq. now subst.
  - intros Hin. exists r. split; [exact Hin | now apply resource_eqb_eq].
Qed.

Lemma pystr_mem_In (x : string) (l : list string) : PyStr.mem x l = true <-> In x l.
Proof.
  unfold PyStr.mem. rewrite existsb_exists. split.
  - intros [y [Hin Heq]]. apply String.eqb_eq in Heq. now subst.
  - intros Hin. exists x. split; [exact Hin | apply String.eqb_refl].
Qed.

Lemma NoDup_snoc {A : Type} (l : list A) (x : A) :
  List.NoDup l -> ~ In x l -> List.NoDup (l ++ [x]).
Proof.
  induction l as [|y l IH]; simpl; intros Hnd Hnot.
  - constructor; [intros []|constructor].
  - inversion Hnd as [|? ? Hy Hl]; subst. constructor.
    + rewrite in_app_iff. intros [H|[H|[]]]; [contradiction|].
      subst. apply Hnot. now left.
    + apply IH; [exact Hl|]. intros H. apply Hnot. now right.
Qed.

(** An invariant of a loop carries over to [fold_left]. *)
Lemma fold_left_invariant {A B : Type} (P : A -> Prop) (f : A -> B -> A) (l : list B) (a : A) :
  (forall acc x, In x l -> P acc -> P (f acc x)) -> P a -> P (fold_left f l a).
Proof.
  revert a. induction l as [|x l IH]; simpl; intros a Hstep Ha.
  - exact Ha.
  - apply IH; [intros acc y Hy; apply Hstep; now right|].
    apply Hstep; [now left | exact Ha].
Qed.

Lemma NoDup_map_filter {A B : Type} (f : A -> B) (p : A -> bool) (l : list A) :
  List.NoDup (map f l) -> List.NoDup (map f (List.filter p l)).
Proof.
  induction l as [|x l IH]; simpl; intros Hnd.
  - constructor.
  - inversion Hnd as [|? ? Hx Hl]; subst.
    destruct (p x); simpl; [|now apply IH].
    constructor; [|now apply IH].
    intros Hin. apply Hx. apply in_map_iff in Hin. destruct Hin as [y [Hy Hin]].
    apply filter_In in Hin. apply in_map_iff. exists y. tauto.
Qed.

(** X2. The keywords of a use case are distinct and are drawn from the seven
    keys of the keyword mapping and the eleven technical keywords. *)
Theorem keywords_distinct_from_vocabulary (use_case : UseCase.t) :
  List.NoDup (Navigator.keywords (Navigator.extract_search_terms use_case))
  /\ incl (Navigator.keywords (Navigator.extract_search_terms use_case))
          Statements2.keyword_vocabulary
  /\ length (Navigator.keywords (Navigator.extract_search_terms use_case)) <= 18.
Proof.
  unfold Navigator.extract_search_terms. cbn [Navigator.keywords].
  set (mapped := map fst (List.filter _ Navigator.keyword_mapping)).
  set (words := PyStr.findall_words _).
  set (step := fun (acc : list string) (word : string) => _).
  assert (Hinv : List.NoDup (fold_left step words mapped)
                 /\ incl (fold_left step words mapped) Statements2.keyword_vocabulary).
  { apply (fold_left_invariant
             (fun acc => List.NoDup acc /\ incl acc Statements2.keyword_vocabulary)).
    - intros acc word _ [Hnd Hincl]. unfold step.
      destruct (PyStr.mem (PyStr.lower word) Navigator.tech_keywords) eqn:Htech;
        [|now split].
      destruct (PyStr.mem (PyStr.lower word) acc) eqn:Hacc; [now split|].
      simpl. split.
      + apply NoDup_snoc; [exact Hnd|]. intros Hin.
        apply pystr_mem_In in Hin. congruence.
      + apply incl_app; [exact Hincl|]. intros k [<-|[]].
        unfold Statements2.keyword_vocabulary. apply in_or_app. right.
        now apply pystr_mem_In.
    - split.
      + apply NoDup_map_filter. vm_compute.
        repeat (constructor; [simpl; intros H;
                              repeat (destruct H as [H|H]; [discriminate|]); exact H|]).
        constructor.
      + intros k Hk. unfold Statements2.keyword_vocabulary. apply in_or_app. left.
        apply in_map_iff in Hk. destruct Hk as [e [<- He]].
        apply filter_In in He. apply in_map. tauto. }
  destruct Hinv as [Hnd Hincl]. split; [exact Hnd|]. split; [exact Hincl|].
  change 18 with (length Statements2.keyword_vocabulary).
  now apply NoDup_incl_length.
Qed.

Lemma add_matches_spec (all_matches matches : list Resource.t) :
  List.NoDup all_matches ->
  List.NoDup (Navigator.add_matches all_matches matches)
  /\ incl (Navigator.add_matches all_matches matches) (all_matches ++ matches)
  /\ incl all_matches (Navigator.add_matches all_matches matches).
Proof.
  unfold Navigator.add_matches. revert all_matches.
  induction matches as [|m matches IH]; simpl; intros acc Hnd.
  - split; [exact Hnd|]. split; [|apply incl_refl].
    intros r Hr. apply in_or_app. now left.
  - destruct (Resource.mem m acc) eqn:Hmem.
    + destruct (IH acc Hnd) as [H1 [H2 H3]]. split; [exact H1|]. split; [|exact H3].
      intros r Hr. apply H2 in Hr. apply in_app_iff in Hr. apply in_app_iff.
      destruct Hr; [now left | right; now right].
    + assert (Hnot : ~ In m acc).
      { intros Hin. apply resource_mem_In in Hin. congruence. }
      destruct (IH (acc ++ [m]) (NoDup_snoc acc m Hnd Hnot)) as [H1 [H2 H3]].
      split; [exact H1|]. split.
      * intros r Hr. apply H2 in Hr. rewrite !in_app_iff in Hr. rewrite in_app_iff.
        simpl in *. tauto.
      * intros r Hr. apply H3. apply in_or_app. now left.
Qed.

Lemma search_resources_incl (rs : list Resource.t) (query : string)
    (resource_type industry : option string) (tags : option (list string)) :
  incl (MockResourceCatalog.search_resources rs query resource_type industry tags) rs.
Proof.
  rewrite search_resources_as_filter. intros r Hr. now apply filter_In in Hr.
Qed.

(** X3. The candidate list of [_search_catalog] holds every resource once,
    however many passes find it, and only entries of the catalog. *)
Theorem search_catalog_distinct_entries
    (catalog : list Resource.t) (search_terms : Navigator.SearchTerms) :
  List.NoDup (Navigator.search_catalog catalog search_terms)
  /\ incl (Navigator.search_catalog catalog search_terms) catalog.
Proof.
  unfold Navigator.search_catalog.
  set (P := fun acc : list Resource.t => List.NoDup acc /\ incl acc catalog).
  assert (Hstep : forall acc q ty ind, P acc ->
            P (Navigator.add_matches acc
                 (MockResourceCatalog.search_resources catalog q ty ind None))).
  { intros acc q ty ind [Hnd Hincl].
    destruct (add_matches_spec acc
                (MockResourceCatalog.search_resources catalog q ty ind None) Hnd)
      as [H1 [H2 _]].
    split; [exact H1|]. intros r Hr. apply H2 in Hr. apply in_app_iff in Hr.
    destruct Hr as [Hr|Hr]; [now apply Hincl | now apply search_resources_incl in Hr]. }
  assert (H1 : P (fold_left
                    (fun acc keyword =>
                       Navigator.add_matches acc
                         (MockResourceCatalog.search_resources catalog keyword None None None))
                    (Navigator.keywords search_terms) [])).
  { apply (fold_left_invariant P).
    - intros acc k _ Hacc. now apply Hstep.
    - split; [constructor | intros r []]. }
  assert (H2 : P (fold_left
                    (fun acc res_type =>
                       Navigator.add_matches acc
                         (MockResourceCatalog.search_resources catalog "" (Some res_type)
                            None None))
                    (Navigator.resource_types search_terms)
                    (fold_left
                       (fun acc keyword =>
                          Navigator.add_matches acc
                            (MockResourceCatalog.search_resources catalog keyword None None None))
                       (Navigator.keywords search_terms) []))).
  { apply (fold_left_invariant P); [|exact H1].
    intros acc k _ Hacc. now apply Hstep. }
  cbv zeta. destruct (PyStr.truthy (Navigator.industry search_terms)).
  - now apply Hstep.
  - exact H2.
Qed.

(** ** Ranking *)

Section OrderedFacts.
Context {A : Type} (before : A -> A -> bool).
Hypothesis before_trans :
  forall x y z, before x y = true -> before y z = true -> before x z = true.

Lemma ordered_head_before (x : A) (l : list A) :
  ordered before (x :: l) -> forall y, In y l -> before x y = true.
Proof.
  revert x. induction l as [|z l IH]; intros x Hord y Hy.
  - destruct Hy.
  - destruct Hord as [Hxz Hrest]. destruct Hy as [<-|Hy]; [exact Hxz|].
    apply before_trans with z; [exact Hxz|]. now apply IH.
Qed.

(** In an ordered list an element is [before] every element to its
    right. *)
Lemma ordered_lookup (l : list A) (i j : nat) (a b : A) :
  ordered before l -> i < j -> l !! i = Some a -> l !! j = Some b ->
  before a b = true.
Proof.
  revert i j. induction l as [|x l IH]; intros i j Hord Hij Ha Hb.
  - discriminate.
  - destruct i as [|i], j as [|j]; try lia.
    + simpl in Ha, Hb. injection Ha as <-.
      apply ordered_head_before with l; [exact Hord|].
      apply list_elem_of_In. now apply list_elem_of_lookup_2 with j.
    + simpl in Ha, Hb. apply IH with i j; [apply Hord | lia | exact Ha | exact Hb].
Qed.

(** The last element has every other element [before] it. *)
Lemma ordered_before_last (l : list A) (x z : A) :
  ordered before l -> (forall y, before y y = true) ->
  last l = Some z -> In x l -> before x z = true.
Proof.
  intros Hord Hrefl Hlast Hx.
  apply list_elem_of_In, list_elem_of_lookup in Hx. destruct Hx as [i Hi].
  rewrite last_lookup in Hlast.
  assert (Hlt : i < length l) by (apply lookup_lt_Some in Hi; exact Hi).
  destruct (Nat.eq_dec i (Nat.pred (length l))) as [->|Hne].
  - rewrite Hi in Hlast. injection Hlast as <-. apply Hrefl.
  - apply ordered_lookup with l i (Nat.pred (length l)); [exact Hord | lia | exact Hi | exact Hlast].
Qed.
End OrderedFacts.

(** X4. [_score_resources] returns every candidate once more, no other entry:
    the ranked resources are a permutation of the candidate list. *)
Theorem score_resources_permutes (resources : list Resource.t) (use_case : UseCase.t) :
  Permutation (map Navigator.resource (Navigator.score_resources resources use_case))
              resources.
Proof.
  unfold Navigator.score_resources.
  rewrite (Permutation_map Navigator.resource
             (stable_sort_perm Navigator.by_score_desc
                (map (fun r => Navigator.score_resource r use_case) resources))).
  rewrite map_map. simpl. now rewrite map_id.
Qed.

Lemma ordered_weaken {A : Type} (before before' : A -> A -> bool) (P : A -> Prop)
    (l : list A) :
  (forall x y, P x -> P y -> before x y = true -> before' x y = true) ->
  Forall P l -> ordered before l -> ordered before' l.
Proof.
  intros Himp. induction l as [|x l IH]; [trivial|].
  intros HP [Hhead Htail]. inversion HP as [|? ? Hx Hl]; subst.
  split; [|now apply IH].
  destruct l as [|y l']; [trivial|].
  inversion Hl; subst. now apply Himp.
Qed.

(** No score of the ranked list is a NaN. *)
Lemma score_resources_not_nan (resources : list Resource.t) (use_case : UseCase.t) :
  Forall (fun s => is_Some (PyFloat.rank (Navigator.score s)))
    (Navigator.score_resources resources use_case).
Proof.
  apply List.Forall_forall. intros s Hs.
  unfold Navigator.score_resources in Hs.
  apply stable_sort_In in Hs.
  apply in_map_iff in Hs. destruct Hs as [r [<- _]].
  apply score_is_ranked.
Qed.

(** X5. The ranked list is in descending order of score: an entry never has a
    greater score than an entry ranked before it. *)
Theorem score_resources_ranked
    (resources : list Resource.t) (use_case : UseCase.t)
    (i j : nat) (a b : Navigator.Scored) :
  i < j ->
  Navigator.score_resources resources use_case !! i = Some a ->
  Navigator.score_resources resources use_case !! j = Some b ->
  PyFloat.leb (Navigator.score b) (Navigator.score a) = true.
Proof.
  intros Hij Ha Hb.
  apply (ordered_lookup
           (fun x y => PyFloat.leb (Navigator.score y) (Navigator.score x))
           (fun x y z Hxy Hyz => leb_trans _ _ _ Hyz Hxy)
           (Navigator.score_resources resources use_case) i j);
    [|exact Hij | exact Ha | exact Hb].
  apply (ordered_weaken Navigator.by_score_desc _
           (fun s => is_Some (PyFloat.rank (Navigator.score s)))).
  - intros x y Hx Hy Hxy. unfold Navigator.by_score_desc in Hxy.
    apply negb_true_iff in Hxy. now apply not_ltb_leb.
  - apply score_resources_not_nan.
  - apply score_resources_descending.
Qed.

Lemma score_resources_ranked_witness :
  0 < 1
  /\ Navigator.score_resources
       (Statements.candidates MockResourceCatalog.resources Statements.uc_asap)
       Statements.uc_asap !! 0
     = Some (Navigator.score_resource MockResourceCatalog.demo_001 Statements.uc_asap)
  /\ Navigator.score_resources
       (Statements.candidates MockResourceCatalog.resources Statements.uc_asap)
       Statements.uc_asap !! 1
     = Some (Navigator.score_resource MockResourceCatalog.demo_002 Statements.uc_asap)
  /\ PyFloat.leb
       (Navigator.score
          (Navigator.score_resource MockResourceCatalog.demo_002 Statements.uc_asap))
       (Navigator.score
          (Navigator.score_resource MockResourceCatalog.demo_001 Statements.uc_asap))
     = true.
Proof.
  assert (H0 : Navigator.score_resources
       (Statements.candidates MockResourceCatalog.resources Statements.uc_asap)
       Statements.uc_asap !! 0
     = Some (Navigator.score_resource MockResourceCatalog.demo_001 Statements.uc_asap)).
  { vm_compute. reflexivity. }
  assert (H1 : Navigator.score_resources
       (Statements.candidates MockResourceCatalog.resources Statements.uc_asap)
       Statements.uc_asap !! 1
     = Some (Navigator.score_resource MockResourceCatalog.demo_002 Statements.uc_asap)).
  { vm_compute. reflexivity. }
  split; [lia|]. split; [exact H0|]. split; [exact H1|].
  exact (score_resources_ranked _ Statements.uc_asap 0 1 _ _ (Nat.lt_0_succ 0) H0 H1).
Defined.

(** The sum of the five caps is one bit above 1.2. *)
Example caps_sum_value :
  Statements2.caps_sum = S754_finite false 5404319552844596 (-52)
  /\ PyFloat.dec 12 10 = S754_finite false 5404319552844595 (-52).
Proof. split; vm_compute; reflexivity. Qed.

(** X6. The sum of the five contributions lies between 0 and the sum of the
    five caps, the double 1.2000000000000002, so that of the two clamps only
    the upper one can change a score. *)
Theorem raw_score_bounds (r : Resource.t) (use_case : UseCase.t) :
  PyFloat.leb PyFloat.f0_0 (Navigator.raw_score r use_case) = true
  /\ PyFloat.leb (Navigator.raw_score r use_case) Statements2.caps_sum = true
  /\ Navigator.score (Navigator.score_resource r use_case)
     = PyFloat.min PyFloat.f1_0 (Navigator.raw_score r use_case).
Proof.
  assert (H : PyFloat.leb PyFloat.f0_0 (Navigator.raw_score r use_case) = true
              /\ PyFloat.leb (Navigator.raw_score r use_case) Statements2.caps_sum = true
              /\ PyFloat.max PyFloat.f0_0 (Navigator.raw_score r use_case)
                 = Navigator.raw_score r use_case).
  { unfold Navigator.raw_score.
    set (overlap := Navigator.word_overlap _ _).
    set (tag_matches := length _).
    destruct (overlap_share_cases overlap) as [o [Ho ->]].
    destruct (tag_share_cases tag_matches) as [t [Ht ->]].
    clearbody overlap tag_matches. cbv zeta.
    assert (Hcases :
              forall title_match type_match industry_match : bool,
                let score := PyFloat.f0_0 in
                let score := if title_match then PyFloat.add score PyFloat.f0_3 else score in
                let score :=
                  PyFloat.add score
                    (PyFloat.min PyFloat.f0_3 (PyFloat.mul (PyFloat.of_nat o) PyFloat.f0_02)) in
                let score := if type_match then PyFloat.add score PyFloat.f0_2 else score in
                let score :=
                  if industry_match then PyFloat.add score PyFloat.f0_15 else score in
                let score :=
                  PyFloat.add score
                    (PyFloat.min PyFloat.f0_25
                       (PyFloat.mul (PyFloat.of_nat t) PyFloat.f0_05)) in
                PyFloat.leb PyFloat.f0_0 score = true
                /\ PyFloat.leb score Statements2.caps_sum = true
                /\ PyFloat.max PyFloat.f0_0 score = score).
    { repeat (destruct o as [|o]; [|apply le_S_n in Ho]);
        try (apply Nat.le_0_r in Ho; subst o);
        repeat (destruct t as [|t]; [|apply le_S_n in Ht]);
        try (apply Nat.le_0_r in Ht; subst t);
        intros [] [] []; vm_compute; repeat split. }
    destruct (UseCase.industry_vertical use_case) as [ind|].
    - exact (Hcases _ _ _).
    - exact (Hcases _ _ false). }
  destruct H as [Hlo [Hhi Hmax]]. split; [exact Hlo|]. split; [exact Hhi|].
  unfold Navigator.score_resource. cbn [Navigator.score]. now rewrite Hmax.
Qed.

(** ** Bill of materials, continued *)

(** X7. The BOM opens with one line per top-5 candidate, in rank order, and
    at least the two standing items follow. *)
Theorem bom_opens_with_top_five (scored : list Navigator.Scored) (use_case : UseCase.t) :
  firstn (Nat.min 5 (length scored)) (Navigator.generate_bom_items scored use_case)
  = map Navigator.resource_item (firstn 5 scored)
  /\ Nat.min 5 (length scored) + 2 <= length (Navigator.generate_bom_items scored use_case).
Proof.
  rewrite generate_bom_items_rules.
  assert (Hlen : length (map Navigator.resource_item (firstn 5 scored))
                 = Nat.min 5 (length scored)).
  { now rewrite length_map, length_firstn. }
  split.
  - rewrite <- Hlen. rewrite firstn_app, Nat.sub_diag, firstn_all. simpl.
    now rewrite app_nil_r.
  - rewrite !length_app, Hlen. simpl. lia.
Qed.

(** Every compliance requirement contributes at most one line, and each
    compliance line is a required regulatory item. *)
Theorem compliance_lines_bounded (requirements : list string) :
  length (Navigator.get_compliance_requirements requirements) <= length requirements
  /\ Forall
       (fun b => BOMItem.category b = "Compliance"
                 /\ BOMItem.source b = "Regulatory"
                 /\ BOMItem.required b = true)
       (Navigator.get_compliance_requirements requirements).
Proof.
  split.
  - rewrite compliance_count. apply List.filter_length_le.
  - apply List.Forall_forall. intros b Hb.
    unfold Navigator.get_compliance_requirements in Hb.
    apply in_flat_map in Hb. destruct Hb as [req [_ Hb]].
    unfold Navigator.compliance_item in Hb.
    destruct (PyStr.contains "gdpr" (PyStr.lower req));
      [|destruct (PyStr.contains "hipaa" (PyStr.lower req));
        [|destruct (PyStr.contains "soc2" (PyStr.lower req));
          [|destruct (PyStr.contains "pci" (PyStr.lower req))]]];
      simpl in Hb; try contradiction; destruct Hb as [<-|[]]; repeat split.
Qed.

(** ** Navigator: error paths and storage *)

(** X8. A resource search succeeds exactly when the context names a stored use
    case; when it fails the storage is left as it was and the response
    awaits 'error'. *)
Theorem search_resources_succeeds_iff_found
    (catalog : list Resource.t) (st : Storage.t) (match_id : string)
    (use_case_id : option string) :
  let result := Navigator.search_resources catalog st match_id use_case_id in
  (AgentResponse.success (snd result) = true
   <-> exists uid use_case,
         use_case_id = Some uid /\ PyStr.nonempty uid = true
         /\ Storage.get_use_case st uid = Some use_case)
  /\ (AgentResponse.success (snd result) = false
      -> fst result = st
         /\ AgentResponse.data (snd result) = None
         /\ AgentResponse.next_action (snd result) = Some "error").
Proof.
  cbv zeta.
  destruct use_case_id as [uid|];
    [destruct (PyStr.nonempty uid) eqn:Hid;
     [destruct (Storage.get_use_case st uid) as [use_case|] eqn:Hget|]|].
  - rewrite (search_resources_found catalog st match_id uid use_case Hid Hget).
    split; [|discriminate].
    split; [intros _; exists uid, use_case; auto | reflexivity].
  - unfold Navigator.search_resources. rewrite Hid, Hget. simpl.
    split; [|auto].
    split; [discriminate|]. intros [u [uc [Hu [_ Hg]]]].
    injection Hu as <-. congruence.
  - unfold Navigator.search_resources. rewrite Hid. simpl.
    split; [|auto].
    split; [discriminate|]. intros [u [uc [Hu [Hn _]]]].
    injection Hu as <-. congruence.
  - simpl. split; [|auto].
    split; [discriminate|]. intros [u [uc [Hu _]]]. discriminate.
Qed.



(** An action label other than 'search_resources' and 'generate_bom' is
    answered with a failure that names it and awaits 'error'; the storage
    is left as it was. *)
Theorem navigator_unknown_action
    (catalog : list Resource.t) (st : Storage.t) (match_id label : string)
    (use_case_id : option string) :
  label <> "search_resources" -> label <> "generate_bom" ->
  Navigator.process catalog st match_id (Some label) use_case_id
  = (st, create_response Navigator.name false
           (Fmt "Unknown navigation action: {}" [AStr label]) None (Some "error")).
Proof.
  intros H1 H2. unfold Navigator.process. cbn [from_option id].
  apply String.eqb_neq in H1, H2. now rewrite H1, H2.
Qed.

Lemma navigator_unknown_action_witness :
  "coordinate_agents" <> "search_resources"
  /\ "coordinate_agents" <> "generate_bom"
  /\ Navigator.process MockResourceCatalog.resources Storage.empty "match-1"
       (Some "coordinate_agents") (Some "uc-1")
     = (Storage.empty,
        create_response Navigator.name false
          (Fmt "Unknown navigation action: {}" [AStr "coordinate_agents"]) None (Some "error")).
Proof.
  assert (H1 : "coordinate_agents" <> "search_resources") by discriminate.
  assert (H2 : "coordinate_agents" <> "generate_bom") by discriminate.
  split; [exact H1|]. split; [exact H2|].
  exact (navigator_unknown_action MockResourceCatalog.resources Storage.empty "match-1"
           "coordinate_agents" (Some "uc-1") H1 H2).
Defined.

(** ** Storage *)



(** Creating an item fails exactly when it has no id. *)
Theorem create_use_case_fails_iff_no_id (st : Storage.t) (uc : UseCase.t) :
  Storage.create_use_case st uc = None <-> UseCase.use_case_id uc = "".
Proof.
  unfold Storage.create_use_case.
  destruct (UseCase.use_case_id uc) as [|c s]; simpl; split; intros H;
    try reflexivity; discriminate.
Qed.

(** X11. [update_item] never creates a file: it rewrites the item of an existing
    id and reports true, or changes nothing and reports false. *)
Theorem update_item_spec {A : Type} (files : gmap string A) (item_id : string) (item : A) :
  dom (fst (StorageOps.update_item files item_id item)) = dom files
  /\ snd (StorageOps.update_item files item_id item) = bool_decide (is_Some (files !! item_id))
  /\ forall k,
       fst (StorageOps.update_item files item_id item) !! k
       = if decide (item_id = k) then (fun _ => item) <$> files !! item_id else files !! k.
Proof.
  unfold StorageOps.update_item.
  destruct (files !! item_id) as [old|] eqn:Hold; cbn [fst snd].
  - split.
    + rewrite dom_insert_L. apply (elem_of_dom_2 (D := gset string)) in Hold.
      apply set_eq. intros k. rewrite elem_of_union, elem_of_singleton.
      split; [intros [->|Hk]; [exact Hold | exact Hk] | auto].
    + split.
      * symmetry. apply bool_decide_eq_true. eauto.
      * intros k. rewrite lookup_insert. now destruct (decide (item_id = k)).
  - split; [reflexivity|]. split.
    + symmetry. apply bool_decide_eq_false. intros [x Hx]. discriminate.
    + intros k. destruct (decide (item_id = k)) as [<-|]; [now rewrite Hold | reflexivity].
Qed.

(** X12. After [delete_item] the id has no file and the other files are
    untouched; the flag tells whether there was a file. *)
Theorem delete_item_spec {A : Type} (files : gmap string A) (item_id : string) :
  snd (StorageOps.delete_item files item_id) = bool_decide (is_Some (files !! item_id))
  /\ forall k,
       fst (StorageOps.delete_item files item_id) !! k
       = if decide (item_id = k) then None else files !! k.
Proof.
  unfold StorageOps.delete_item.
  destruct (files !! item_id) as [old|] eqn:Hold; cbn [fst snd].
  - split.
    + symmetry. apply bool_decide_eq_true. eauto.
    + intros k. rewrite lookup_delete. reflexivity.
  - split.
    + symmetry. apply bool_decide_eq_false. intros [x Hx]. discriminate.
    + intros k. destruct (decide (item_id = k)) as [<-|]; [exact Hold | reflexivity].
Qed.

Lemma query_items_In {A : Type} (files : gmap string A) (p : A -> bool) (x : A) :
  In x (StorageOps.query_items files p) <-> (exists k, files !! k = Some x) /\ p x = true.
Proof.
  unfold StorageOps.query_items. rewrite filter_In, in_map_iff. split.
  - intros [[[k y] [Hy Hin]] Hp]. simpl in Hy. subst y. split; [|exact Hp].
    exists k. apply elem_of_map_to_list. now apply list_elem_of_In.
  - intros [[k Hk] Hp]. split; [|exact Hp].
    exists (k, x). split; [reflexivity|].
    apply list_elem_of_In. now apply elem_of_map_to_list.
Qed.

(** [get_user_projects] returns the stored projects that the user created
    or collaborates on, and no other. *)
Theorem get_user_projects_spec (st : Storage.t) (user_id : string) (p : TechHubProject.t) :
  In p (Storage.get_user_projects st user_id)
  <-> (exists k, Storage.projects st !! k = Some p)
      /\ (TechHubProject.created_by p = user_id
          \/ In user_id (TechHubProject.collaborators p)).
Proof.
  change (Storage.get_user_projects st user_id)
    with (StorageOps.query_items (Storage.projects st)
            (fun p => String.eqb (TechHubProject.created_by p) user_id
                      || PyStr.mem user_id (TechHubProject.collaborators p))).
  rewrite query_items_In, orb_true_iff, String.eqb_eq, pystr_mem_In. reflexivity.
Qed.

(** X13. [get_project_matches] returns the stored matches of the use case of the
    project filed under the given id, and nothing when no project is
    filed under it. *)
Theorem get_project_matches_spec (st : Storage.t) (project_id : string) (m : ResourceMatch.t) :
  In m (StorageOps.get_project_matches st project_id)
  <-> exists project,
        StorageOps.get_project st project_id = Some project
        /\ (exists k, Storage.resource_matches st !! k = Some m)
        /\ ResourceMatch.use_case_id m = TechHubProject.use_case_id project.
Proof.
  unfold StorageOps.get_project_matches.
  destruct (StorageOps.get_project st project_id) as [project|].
  - rewrite query_items_In, String.eqb_eq. split.
    + intros [Hk Hid]. exists project. auto.
    + intros [p [Hp [Hk Hid]]]. injection Hp as <-. auto.
  - split; [intros [] | intros [p [Hp _]]; discriminate].
Qed.

(** ** Shared agent context *)

(** A session value that was set is read back, whatever the default, and
    the other keys keep their values. *)
Theorem session_value_round_trip {V : Type}
    (c : AgentContext.t V) (key key' : string) (v default_value : V) :
  AgentContext.get_session_value (AgentContext.set_session_value c key v) key' default_value
  = if decide (key = key') then v
    else AgentContext.get_session_value c key' default_value.
Proof.
  unfold AgentContext.get_session_value, AgentContext.set_session_value.
  cbn [AgentContext.session_data]. rewrite lookup_insert.
  destruct (decide (key = key')); reflexivity.
Qed.

(** X14. After [update_project_memory] the memory of the project holds the
    updates on top of what it held before, also for a project that had no
    memory yet; the memory of other projects is unchanged. *)
Theorem update_project_memory_spec {V : Type}
    (c : AgentContext.t V) (project_id project_id' : string) (updates : gmap string V) :
  AgentContext.get_project_memory
    (AgentContext.update_project_memory c project_id updates) project_id'
  = if decide (project_id = project_id')
    then updates ∪ AgentContext.get_project_memory c project_id
    else AgentContext.get_project_memory c project_id'.
Proof.
  unfold AgentContext.get_project_memory, AgentContext.update_project_memory.
  cbn [AgentContext.project_memory].
  destruct (AgentContext.project_memory c !! project_id) as [old|] eqn:Hold.
  - rewrite lookup_insert. destruct (decide (project_id = project_id')).
    + now rewrite Hold.
    + reflexivity.
  - rewrite lookup_insert. destruct (decide (project_id = project_id')).
    + now rewrite lookup_insert_eq.
    + now rewrite lookup_insert_ne.
Qed.

(** ** Intent analysis *)

Lemma add_when_chain (b1 b2 b3 b4 : bool) :
  let acc :=
    Orchestrator.add_when b4 "ResearchAgent" "precedent_research"
      (Orchestrator.add_when b3 "InfraAgent" "infrastructure_planning"
         (Orchestrator.add_when b2 "CostAgent" "cost_analysis"
            (Orchestrator.add_when b1 "ComplianceAgent" "compliance_review"
               (["NavigatorAgent"; "ArchivistAgent"], [])))) in
  exists extra,
    fst acc = ["NavigatorAgent"; "ArchivistAgent"] ++ extra
    /\ length (snd acc) = length extra
    /\ length extra <= 4
    /\ incl extra ["ComplianceAgent"; "CostAgent"; "InfraAgent"; "ResearchAgent"]
    /\ (In "ResearchAgent" extra <-> b4 = true).
Proof.
  destruct b1, b2, b3, b4; cbv [Orchestrator.add_when fst snd app];
    eexists; (split; [reflexivity|]); (split; [reflexivity|]);
    (split; [simpl; lia|]);
    (split; [intros x Hx; simpl in *; tauto|]);
    simpl; split; intros H; try reflexivity; try discriminate; try tauto;
    repeat (destruct H as [H|H]; try discriminate; try contradiction).
Qed.

(** X15. The required agents are always NavigatorAgent and ArchivistAgent,
    followed by at most four specialised agents in the fixed order
    compliance, cost, infrastructure, research; there is one special
    requirement per specialised agent. *)
Theorem required_agents_structure (use_case : UseCase.t) :
  let a := Orchestrator.perform_intent_analysis use_case in
  exists extra,
    Orchestrator.required_agents a = ["NavigatorAgent"; "ArchivistAgent"] ++ extra
    /\ length (Orchestrator.special_requirements a) = length extra
    /\ length extra <= 4
    /\ incl extra ["ComplianceAgent"; "CostAgent"; "InfraAgent"; "ResearchAgent"].
Proof.
  cbv zeta. unfold Orchestrator.perform_intent_analysis.
  cbn [Orchestrator.required_agents Orchestrator.special_requirements].
  match goal with
  | |- context [Orchestrator.add_when ?b4 "ResearchAgent" _
                  (Orchestrator.add_when ?b3 "InfraAgent" _
                     (Orchestrator.add_when ?b2 "CostAgent" _
                        (Orchestrator.add_when ?b1 "ComplianceAgent" _ _)))] =>
      destruct (add_when_chain b1 b2 b3 b4) as [extra [H1 [H2 [H3 [H4 _]]]]]
  end.
  exists extra. auto.
Qed.

(** X16. ResearchAgent is required exactly when the complexity is 'high', and
    that is also exactly when the estimated effort is 'high'. *)
Theorem research_agent_iff_high_complexity (use_case : UseCase.t) :
  let a := Orchestrator.perform_intent_analysis use_case in
  (In "ResearchAgent" (Orchestrator.required_agents a)
   <-> Orchestrator.complexity_level a = "high")
  /\ (Orchestrator.estimated_effort a = "high"
      <-> Orchestrator.complexity_level a = "high").
Proof.
  cbv zeta. unfold Orchestrator.perform_intent_analysis.
  cbn [Orchestrator.required_agents Orchestrator.complexity_level
       Orchestrator.estimated_effort].
  set (c := Orchestrator.complexity_of _).
  match goal with
  | |- context [Orchestrator.add_when ?b4 "ResearchAgent" _
                  (Orchestrator.add_when ?b3 "InfraAgent" _
                     (Orchestrator.add_when ?b2 "CostAgent" _
                        (Orchestrator.add_when ?b1 "ComplianceAgent" _ _)))] =>
      destruct (add_when_chain b1 b2 b3 b4) as [extra [H1 [_ [_ [_ H5]]]]]
  end.
  cbv zeta in H1. rewrite H1. split.
  - rewrite <- String.eqb_eq, <- H5. simpl. split; [|tauto].
    intros [H|[H|H]]; [discriminate | discriminate | exact H].
  - destruct (String.eqb_spec c "high") as [Hc|Hc].
    + tauto.
    + split; [|contradiction].
      destruct (Nat.ltb 3 _); discriminate.
Qed.

(** The analysis only produces the levels 'high', 'medium', 'low' for the
    complexity, 'high', 'medium', 'normal' for the priority and 'low',
    'medium', 'high' for the effort. *)
Theorem analysis_levels_closed (use_case : UseCase.t) :
  let a := Orchestrator.perform_intent_analysis use_case in
  In (Orchestrator.complexity_level a) ["high"; "medium"; "low"]
  /\ In (Orchestrator.priority a) ["high"; "medium"; "normal"]
  /\ In (Orchestrator.estimated_effort a) ["low"; "medium"; "high"].
Proof.
  cbv zeta. unfold Orchestrator.perform_intent_analysis.
  cbn [Orchestrator.priority Orchestrator.complexity_level Orchestrator.estimated_effort].
  split; [|split].
  - unfold Orchestrator.complexity_of.
    destruct (List.find _ Orchestrator.complexity_indicators) as [entry|] eqn:Hfind.
    + apply find_some in Hfind. destruct Hfind as [Hin _].
      simpl in Hin. destruct Hin as [<-|[<-|[<-|[]]]]; simpl; auto.
    + simpl. auto.
  - unfold Orchestrator.priority_of.
    destruct (ProjectConstraints.timeline _) as [t|]; [|simpl; auto].
    destruct (PyStr.nonempty t); [|simpl; auto].
    destruct (existsb _ ["urgent"; "asap"; "immediate"]); [simpl; auto|].
    destruct (existsb _ ["week"; "days"]); simpl; auto.
  - destruct (String.eqb _ "high"); [simpl; auto|].
    destruct (Nat.ltb 3 _); simpl; auto.
Qed.

(** ** Execution order *)

Lemma priority_get_range (x : string) :
  (Orchestrator.priority_get x = 1 /\ x = "NavigatorAgent")
  \/ (Orchestrator.priority_get x = 9 /\ x = "ArchivistAgent")
  \/ (2 <= Orchestrator.priority_get x <= 5).
Proof.
  unfold Orchestrator.priority_get, Orchestrator.priorities. cbn [List.find fst snd].
  repeat match goal with
         | |- context [String.eqb ?s x] =>
             destruct (String.eqb_spec s x) as [<-|_]; [simpl; auto; right; right; lia|]
         end.
  right. right. simpl. lia.
Qed.

Lemma by_priority_trans (x y z : string) :
  Nat.leb (Orchestrator.priority_get x) (Orchestrator.priority_get y) = true ->
  Nat.leb (Orchestrator.priority_get y) (Orchestrator.priority_get z) = true ->
  Nat.leb (Orchestrator.priority_get x) (Orchestrator.priority_get z) = true.
Proof. rewrite !Nat.leb_le. lia. Qed.

Lemma by_priority_total (x y : string) :
  Nat.leb (Orchestrator.priority_get x) (Orchestrator.priority_get y) = false ->
  Nat.leb (Orchestrator.priority_get y) (Orchestrator.priority_get x) = true.
Proof. rewrite Nat.leb_le, Nat.leb_gt. lia. Qed.

Lemma execution_order_ordered (required_agents : list string) :
  ordered (fun x y => Nat.leb (Orchestrator.priority_get x) (Orchestrator.priority_get y))
    (Orchestrator.determine_agent_execution_order required_agents).
Proof. apply stable_sort_ordered. intros x y. apply by_priority_total. Qed.

Lemma execution_order_perm (required_agents : list string) :
  Permutation (Orchestrator.determine_agent_execution_order required_agents)
              required_agents.
Proof. apply stable_sort_perm. Qed.

(** X17. The execution order runs every required agent once more, no other
    agent, by ascending priority; agents of equal priority keep the order
    in which they were required. *)
Theorem execution_order_sorted (required_agents : list string) :
  Permutation (Orchestrator.determine_agent_execution_order required_agents)
              required_agents
  /\ (forall i j a b,
        i < j ->
        Orchestrator.determine_agent_execution_order required_agents !! i = Some a ->
        Orchestrator.determine_agent_execution_order required_agents !! j = Some b ->
        Orchestrator.priority_get a <= Orchestrator.priority_get b)
  /\ (forall p,
        List.filter (fun x => Nat.eqb (Orchestrator.priority_get x) p)
          (Orchestrator.determine_agent_execution_order required_agents)
        = List.filter (fun x => Nat.eqb (Orchestrator.priority_get x) p) required_agents).
Proof.
  split; [apply execution_order_perm|]. split.
  - intros i j a b Hij Ha Hb. apply Nat.leb_le.
    apply (ordered_lookup _ by_priority_trans _ i j a b
             (execution_order_ordered required_agents) Hij Ha Hb).
  - intros p. apply stable_sort_filter. intros x y Hx Hy.
    apply Nat.eqb_eq in Hx, Hy. apply Nat.leb_le. lia.
Qed.

(** X18. When NavigatorAgent is required it runs first. *)
Theorem navigator_runs_first (required_agents : list string) :
  In "NavigatorAgent" required_agents ->
  head (Orchestrator.determine_agent_execution_order required_agents)
  = Some "NavigatorAgent".
Proof.
  intros Hin.
  apply (Permutation_in _ (Permutation_sym (execution_order_perm required_agents))) in Hin.
  pose proof (execution_order_ordered required_agents) as Hord.
  destruct (Orchestrator.determine_agent_execution_order required_agents) as [|x l];
    [destruct Hin|].
  simpl. f_equal. destruct Hin as [Hx|Hin]; [exact Hx|].
  pose proof (ordered_head_before _ by_priority_trans x l Hord _ Hin) as Hle.
  apply Nat.leb_le in Hle. change (Orchestrator.priority_get "NavigatorAgent") with 1 in Hle.
  destruct (priority_get_range x) as [[_ Hx]|[[H9 _]|H25]]; [exact Hx | lia | lia].
Qed.

Lemma navigator_runs_first_witness :
  In "NavigatorAgent" ["ArchivistAgent"; "CostAgent"; "NavigatorAgent"]
  /\ head (Orchestrator.determine_agent_execution_order
             ["ArchivistAgent"; "CostAgent"; "NavigatorAgent"])
     = Some "NavigatorAgent".
Proof.
  assert (Hin : In "NavigatorAgent" ["ArchivistAgent"; "CostAgent"; "NavigatorAgent"]).
  { simpl. auto. }
  split; [exact Hin|].
  exact (navigator_runs_first ["ArchivistAgent"; "CostAgent"; "NavigatorAgent"] Hin).
Defined.

(** X19. When ArchivistAgent is required it runs last. *)
Theorem archivist_runs_last (required_agents : list string) :
  In "ArchivistAgent" required_agents ->
  last (Orchestrator.determine_agent_execution_order required_agents)
  = Some "ArchivistAgent".
Proof.
  intros Hin.
  apply (Permutation_in _ (Permutation_sym (execution_order_perm required_agents))) in Hin.
  pose proof (execution_order_ordered required_agents) as Hord.
  destruct (last (Orchestrator.determine_agent_execution_order required_agents))
    as [z|] eqn:Hlast.
  - f_equal.
    pose proof (ordered_before_last _ by_priority_trans _ "ArchivistAgent" z Hord
                  (fun y => Nat.leb_refl _) Hlast Hin) as Hle.
    apply Nat.leb_le in Hle. change (Orchestrator.priority_get "ArchivistAgent") with 9 in Hle.
    destruct (priority_get_range z) as [[H1 _]|[[_ Hz]|H25]]; [lia | exact Hz | lia].
  - apply last_None in Hlast. rewrite Hlast in Hin. destruct Hin.
Qed.

Lemma archivist_runs_last_witness :
  In "ArchivistAgent" ["ArchivistAgent"; "CostAgent"; "NavigatorAgent"]
  /\ last (Orchestrator.determine_agent_execution_order
             ["ArchivistAgent"; "CostAgent"; "NavigatorAgent"])
     = Some "ArchivistAgent".
Proof.
  assert (Hin : In "ArchivistAgent" ["ArchivistAgent"; "CostAgent"; "NavigatorAgent"]).
  { simpl. auto. }
  split; [exact Hin|].
  exact (archivist_runs_last ["ArchivistAgent"; "CostAgent"; "NavigatorAgent"] Hin).
Defined.

(** ** Coordination, continued *)

Section CoordinationMore.
Import Orchestrator.
Context {World : Type}.
Variable navigator : context -> World -> World * outcome response.
Variable archivist : context -> World -> World * outcome response.

Lemma run_agents_prefix (agent_order : list string) (ctx : context) (w : World)
    (results : list Entry) :
  exists recorded rest,
    snd (run_agents navigator archivist agent_order ctx w results) = results ++ recorded
    /\ agent_order = map agent recorded ++ rest.
Proof.
  revert ctx w results.
  induction agent_order as [|a agent_order IH]; intros ctx w results.
  - exists [], []. simpl. now rewrite app_nil_r.
  - cbn [run_agents].
    destruct (execute_agent navigator archivist a ctx w) as [w' [result|err]].
    + destruct (negb (AgentResponse.success result) && critical a).
      * eexists [_], agent_order. simpl. split; reflexivity.
      * match goal with
        | |- context [run_agents _ _ agent_order ?c w' ?r] =>
            destruct (IH c w' r) as [recorded [rest [H1 H2]]]
        end.
        eexists (_ :: recorded), rest. rewrite H1, <- app_assoc. simpl.
        split; [reflexivity | now rewrite H2].
    + match goal with
      | |- context [run_agents _ _ agent_order ctx w' ?r] =>
          destruct (IH ctx w' r) as [recorded [rest [H1 H2]]]
      end.
      eexists (_ :: recorded), rest. rewrite H1, <- app_assoc. simpl.
      split; [reflexivity | now rewrite H2].
Qed.

(** Agents outside the critical set are all recorded as not implemented;
    the world and the context are left as they were. *)
Lemma run_agents_unimplemented (agent_order : list string) (ctx : context) (w : World)
    (results : list Entry) :
  Forall (fun a => critical a = false) agent_order ->
  run_agents navigator archivist agent_order ctx w results
  = (w, ctx, results ++ map Statements2.not_implemented agent_order).
Proof.
  revert results. induction agent_order as [|a agent_order IH]; intros results Hall.
  - simpl. now rewrite app_nil_r.
  - inversion Hall as [|? ? Ha Hrest]; subst.
    cbn [run_agents]. unfold execute_agent.
    change (PyStr.mem a ["NavigatorAgent"; "ArchivistAgent"]) with (critical a).
    rewrite Ha. cbn [negb]. unfold create_response.
    cbn [AgentResponse.success AgentResponse.data AgentResponse.message_of negb andb].
    rewrite IH by exact Hrest. rewrite <- app_assoc. reflexivity.
Qed.
End CoordinationMore.

(** X20. The recorded entries follow the execution order without gaps: their
    agents are a prefix of the order, so an agent is recorded only after
    all the agents ordered before it. *)
Theorem coordination_results_prefix {World : Type}
    (navigator archivist :
       Orchestrator.context -> World -> World * outcome Orchestrator.response)
    (agent_order : list string) (ctx : Orchestrator.context) (w : World) :
  exists rest,
    agent_order
    = map Orchestrator.agent
        (snd (Orchestrator.run_agents navigator archivist agent_order ctx w []))
      ++ rest.
Proof.
  destruct (run_agents_prefix navigator archivist agent_order ctx w [])
    as [recorded [rest [H1 H2]]].
  exists rest. now rewrite H1.
Qed.

(** X21. A run over agents none of which is NavigatorAgent or ArchivistAgent
    records a not-implemented failure for each of them, in execution
    order, and leaves the world and the context as they were; with no
    success recorded, it is reported as successful exactly when a single
    agent was required. *)
Theorem unimplemented_run {World : Type}
    (navigator archivist :
       Orchestrator.context -> World -> World * outcome Orchestrator.response)
    (required_agents : list string) (ctx : Orchestrator.context) (w : World) :
  required_agents <> [] ->
  Forall (fun a => Orchestrator.critical a = false) required_agents ->
  let result := Orchestrator.coordinate_agents navigator archivist required_agents ctx w in
  fst result = (w, ctx)
  /\ (exists d,
        AgentResponse.data (snd result) = Some d
        /\ Orchestrator.coordination_results d
           = map Statements2.not_implemented
               (Orchestrator.determine_agent_execution_order required_agents)
        /\ Orchestrator.successful_agents d = 0)
  /\ (AgentResponse.success (snd result) = true <-> length required_agents = 1).
Proof.
  intros Hne Hall result. subst result.
  assert (Hord : Forall (fun a => Orchestrator.critical a = false)
                   (Orchestrator.determine_agent_execution_order required_agents)).
  { apply List.Forall_forall. intros a Ha.
    apply (Permutation_in _ (execution_order_perm required_agents)) in Ha.
    revert a Ha. now apply List.Forall_forall. }
  assert (Hnone : forall l : list string,
            List.filter Orchestrator.entry_success (map Statements2.not_implemented l) = []).
  { induction l as [|x l IH]; simpl; [reflexivity | exact IH]. }
  unfold Orchestrator.coordinate_agents.
  destruct required_agents as [|a rest]; [contradiction|].
  rewrite (run_agents_unimplemented navigator archivist _ ctx w [] Hord).
  cbn [app]. rewrite Hnone. unfold create_response.
  cbn [fst snd AgentResponse.data AgentResponse.success Orchestrator.coordination_results
       Orchestrator.successful_agents length].
  split; [reflexivity|]. split; [eauto|].
  rewrite Nat.leb_le. split.
  - intros H. destruct rest as [|b rest]; [reflexivity|].
    exfalso. cbn [length] in H.
    pose proof (Nat.div_le_lower_bound (S (S (length rest))) 2 1 ltac:(lia) ltac:(lia)).
    lia.
  - intros H. injection H as H. apply length_zero_iff_nil in H. subst rest.
    simpl. lia.
Qed.

Lemma unimplemented_run_witness :
  ["CostAgent"] <> []
  /\ Forall (fun a => Orchestrator.critical a = false) ["CostAgent"]
  /\ let result :=
       Orchestrator.coordinate_agents
         (Statements.succeeding "NavigatorAgent") (Statements.succeeding "ArchivistAgent")
         ["CostAgent"] ∅ tt in
     fst result = (tt, ∅)
     /\ (exists d,
           AgentResponse.data (snd result) = Some d
           /\ Orchestrator.coordination_results d
              = map Statements2.not_implemented
                  (Orchestrator.determine_agent_execution_order ["CostAgent"])
           /\ Orchestrator.successful_agents d = 0)
     /\ (AgentResponse.success (snd result) = true <-> length ["CostAgent"] = 1).
Proof.
  assert (Hne : ["CostAgent"] <> []) by discriminate.
  assert (Hall : Forall (fun a => Orchestrator.critical a = false) ["CostAgent"]).
  { repeat constructor. }
  split; [exact Hne|]. split; [exact Hall|].
  exact (unimplemented_run (Statements.succeeding "NavigatorAgent")
           (Statements.succeeding "ArchivistAgent") ["CostAgent"] ∅ tt Hne Hall).
Defined.

(** ** Full workflow *)



Lemma create_project_found
    (st : Storage.t) (project_id uid : string) (use_case : UseCase.t)
    (resource_matches : list RecommendedResource.t) :
  PyStr.nonempty uid = true ->
  Storage.get_use_case st uid = Some use_case ->
  Workflow.create_project st project_id (Some uid) resource_matches
  = (Statements2.inserted_project st uid (Statements2.new_project project_id uid use_case),
     create_response Workflow.name true
       (Fmt "Successfully created TechHub project: {}" [AStr (UseCase.title use_case)])
       (Some (Workflow.ProjectCreated project_id (Statements2.new_project project_id uid use_case)))
       (Some "project_created")).
Proof.
  intros Hid Hget. unfold Workflow.create_project. rewrite Hid, Hget.
  unfold StorageOps.create_project, Storage.or_id.
  cbn [TechHubProject.use_case_id TechHubProject.project_id]. rewrite Hid. rewrite Hid.
  reflexivity.
Qed.



(** X23. Without a stored use case of the given id the full workflow stops at
    the analysis: it returns the analysis failure, which awaits 'error',
    and writes nothing. *)
Theorem full_workflow_without_use_case
    (catalog : list Resource.t) (st : Storage.t) (match_id project_id uid : string) :
  Storage.get_use_case st uid = None ->
  let result := Workflow.orchestrate_full_workflow catalog st match_id project_id uid in
  fst result = st
  /\ AgentResponse.success (snd result) = false
  /\ AgentResponse.data (snd result) = None
  /\ AgentResponse.next_action (snd result) = Some "error".
Proof.
  intros Hget result. subst result.
  unfold Workflow.orchestrate_full_workflow, Workflow.analyze_intent.
  rewrite Hget. destruct (PyStr.nonempty uid); simpl; auto.
Qed.

Lemma full_workflow_without_use_case_witness :
  Storage.get_use_case Storage.empty "uc-9" = None
  /\ let result :=
       Workflow.orchestrate_full_workflow MockResourceCatalog.resources Storage.empty
         "match-1" "project-1" "uc-9" in
     fst result = Storage.empty
     /\ AgentResponse.success (snd result) = false
     /\ AgentResponse.data (snd result) = None
     /\ AgentResponse.next_action (snd result) = Some "error".
Proof.
  split; [reflexivity|].
  exact (full_workflow_without_use_case MockResourceCatalog.resources Storage.empty
           "match-1" "project-1" "uc-9" eq_refl).
Defined.

(** X24. [_create_project] reports the new project id, but the project is filed
    under the use case id: it is read back under the use case id, and
    under its own project id there is no project, hence no project
    matches. *)
Theorem project_filed_under_use_case_id
    (st : Storage.t) (project_id uid : string) (use_case : UseCase.t)
    (resource_matches : list RecommendedResource.t) :
  PyStr.nonempty uid = true ->
  Storage.get_use_case st uid = Some use_case ->
  project_id <> uid ->
  StorageOps.get_project st project_id = None ->
  let result := Workflow.create_project st project_id (Some uid) resource_matches in
  exists project,
    AgentResponse.data (snd result) = Some (Workflow.ProjectCreated project_id project)
    /\ AgentResponse.success (snd result) = true
    /\ StorageOps.get_project (fst result) uid = Some project
    /\ StorageOps.get_project (fst result) project_id = None
    /\ StorageOps.get_project_matches (fst result) project_id = [].
Proof.
  intros Hid Hget Hne Hnone result. subst result.
  rewrite (create_project_found st project_id uid use_case resource_matches Hid Hget).
  exists (Statements2.new_project project_id uid use_case).
  unfold create_response. cbn [fst snd AgentResponse.data AgentResponse.success].
  assert (Hmiss : StorageOps.get_project
                    (Statements2.inserted_project st uid (Statements2.new_project project_id uid use_case))
                    project_id = None).
  { unfold StorageOps.get_project, Statements2.inserted_project in *. cbn [Storage.projects].
    rewrite lookup_insert_ne by congruence. exact Hnone. }
  split; [reflexivity|]. split; [reflexivity|].
  split; [apply lookup_insert_eq|]. split; [exact Hmiss|].
  unfold StorageOps.get_project_matches. now rewrite Hmiss.
Qed.

Lemma project_filed_under_use_case_id_witness :
  PyStr.nonempty "uc-1" = true
  /\ Storage.get_use_case (Statements.store_with Statements.uc_asap) "uc-1"
     = Some Statements.uc_asap
  /\ "project-1" <> "uc-1"
  /\ StorageOps.get_project (Statements.store_with Statements.uc_asap) "project-1" = None
  /\ let result :=
       Workflow.create_project (Statements.store_with Statements.uc_asap) "project-1"
         (Some "uc-1") [] in
     exists project,
       AgentResponse.data (snd result) = Some (Workflow.ProjectCreated "project-1" project)
       /\ AgentResponse.success (snd result) = true
       /\ StorageOps.get_project (fst result) "uc-1" = Some project
       /\ StorageOps.get_project (fst result) "project-1" = None
       /\ StorageOps.get_project_matches (fst result) "project-1" = [].
Proof.
  assert (Hne : "project-1" <> "uc-1") by discriminate.
  split; [reflexivity|]. split; [reflexivity|]. split; [exact Hne|].
  split; [reflexivity|].
  exact (project_filed_under_use_case_id (Statements.store_with Statements.uc_asap)
           "project-1" "uc-1" Statements.uc_asap [] eq_refl eq_refl Hne eq_refl).
Defined.

(** ** Concierge, continued *)

(** X25. A description of at least 20 characters after stripping is filed as a
    new use case under the fresh id, with the raw input as description, the
    user (or 'anonymous') as creator and status 'new'; the response
    awaits the confirmation of the extraction. *)
Theorem long_input_creates_use_case
    (st : Storage.t) (fresh : string) (context : Concierge.Context) :
  20 <= String.length (PyStr.strip (default "" (Concierge.user_input context))) ->
  PyStr.nonempty fresh = true ->
  let result := Concierge.process_comprehensive_input st fresh context in
  exists use_case,
    Storage.get_use_case (fst result) fresh = Some use_case
    /\ UseCase.use_case_id use_case = fresh
    /\ UseCase.description use_case = default "" (Concierge.user_input context)
    /\ UseCase.created_by use_case = default "anonymous" (Concierge.user_id context)
    /\ UseCase.status use_case = "new"
    /\ AgentResponse.success (snd result) = true
    /\ AgentResponse.next_action (snd result) = Some "confirm_extraction".
Proof.
  intros Hlong Hfresh result. subst result.
  unfold Concierge.process_comprehensive_input.
  assert (Hge : Nat.ltb (String.length (PyStr.strip (default "" (Concierge.user_input context)))) 20
                = false) by (apply Nat.ltb_ge; exact Hlong).
  rewrite Hge.
  unfold Storage.create_use_case.
  change (UseCase.use_case_id (Concierge.use_case_of fresh ?e)) with fresh.
  cbn [UseCase.use_case_id Concierge.use_case_of]. rewrite Hfresh.
  eexists. unfold create_response, Storage.get_use_case.
  cbn [fst snd Storage.use_cases AgentResponse.success AgentResponse.next_action].
  split; [apply lookup_insert_eq|]. repeat split.
Qed.

Lemma long_input_creates_use_case_witness :
  20 <= String.length
          (PyStr.strip
             (default "" (Concierge.user_input
                            (Statements.context_with (Some "intake_form")
                               (Some "Urgent azure chat demo for a finance client.")))))
  /\ PyStr.nonempty "uc-2" = true
  /\ let result :=
       Concierge.process_comprehensive_input Storage.empty "uc-2"
         (Statements.context_with (Some "intake_form")
            (Some "Urgent azure chat demo for a finance client.")) in
     exists use_case,
       Storage.get_use_case (fst result) "uc-2" = Some use_case
       /\ UseCase.use_case_id use_case = "uc-2"
       /\ UseCase.description use_case
          = default "" (Concierge.user_input
                          (Statements.context_with (Some "intake_form")
                             (Some "Urgent azure chat demo for a finance client.")))
       /\ UseCase.created_by use_case
          = default "anonymous"
              (Concierge.user_id
                 (Statements.context_with (Some "intake_form")
                    (Some "Urgent azure chat demo for a finance client.")))
       /\ UseCase.status use_case = "new"
       /\ AgentResponse.success (snd result) = true
       /\ AgentResponse.next_action (snd result) = Some "confirm_extraction".
Proof.
  assert (Hlong :
    20 <= String.length
            (PyStr.strip
               (default "" (Concierge.user_input
                              (Statements.context_with (Some "intake_form")
                                 (Some "Urgent azure chat demo for a finance client.")))))).
  { vm_compute. lia. }
  split; [exact Hlong|]. split; [reflexivity|].
  exact (long_input_creates_use_case Storage.empty "uc-2"
           (Statements.context_with (Some "intake_form")
              (Some "Urgent azure chat demo for a finance client.")) Hlong eq_refl).
Defined.

(** X26. The extraction never fails and only yields values of its closed
    vocabularies: a title shorter than 100 characters, an industry that is
    the capitalised name of one of the six known industries, a cloud among
    Azure, AWS and GCP, resource types among Demo, Solution and Component
    in that order; the description is the input itself. *)
Theorem extraction_in_vocabulary (description user_id : string) :
  let e := Concierge.extract_use_case_data description user_id in
  String.length (Concierge.ex_title e) < 100
  /\ Concierge.ex_description e = description
  /\ In (Concierge.ex_industry_vertical e)
        (None :: map (fun i => Some (PyStr.title i)) Statements2.industries)
  /\ In (Concierge.ex_cloud_preference e) [None; Some "Azure"; Some "AWS"; Some "GCP"]
  /\ Concierge.ex_resource_type_preference e
     = List.filter (fun t => PyStr.contains (PyStr.lower t) (PyStr.lower description))
         ["Demo"; "Solution"; "Component"].
Proof.
  cbv zeta. unfold Concierge.extract_use_case_data.
  cbn [Concierge.ex_title Concierge.ex_description Concierge.ex_industry_vertical
       Concierge.ex_cloud_preference Concierge.ex_resource_type_preference].
  split; [|split; [reflexivity|split; [|split]]].
  - destruct (Nat.ltb _ 100) eqn:Hlt; [now apply Nat.ltb_lt in Hlt | simpl; lia].
  - unfold Concierge.first_match.
    destruct (List.find _ _) as [i|] eqn:Hfind; [|now left].
    apply find_some in Hfind. destruct Hfind as [Hin _].
    right. cbn [option_map].
    apply (in_map (fun i => Some (PyStr.title i))) in Hin. exact Hin.
  - destruct (PyStr.contains "azure" _); [simpl; auto|].
    destruct (PyStr.contains "aws" _); [simpl; auto|].
    destruct (_ || _); simpl; auto.
  - change (PyStr.lower "Demo") with "demo".
    cbn [List.filter].
    change (PyStr.lower "Demo") with "demo".
    change (PyStr.lower "Solution") with "solution".
    change (PyStr.lower "Component") with "component".
    destruct (PyStr.contains "demo" _), (PyStr.contains "solution" _),
      (PyStr.contains "component" _); reflexivity.
Qed.

(** X27. An answer to the project question other than NEW or EXISTING (in any
    case, with any surrounding blanks) is answered with a failure that
    awaits 'project_choice' again; nothing is written. *)
Theorem invalid_project_choice_reprompts
    (st : Storage.t) (fresh : string) (context : Concierge.Context) :
  Concierge.action context = Some "project_choice" ->
  PyStr.strip (PyStr.upper (default "" (Concierge.user_input context))) <> "NEW" ->
  PyStr.strip (PyStr.upper (default "" (Concierge.user_input context))) <> "EXISTING" ->
  exists r,
    Concierge.process st fresh context = (st, Returned r)
    /\ AgentResponse.success r = false
    /\ AgentResponse.next_action r = Concierge.action context
    /\ AgentResponse.data r = Some (Concierge.ValidOptions ["NEW"; "EXISTING"]).
Proof.
  intros Haction Hnew Hexisting.
  unfold Concierge.process. rewrite Haction. cbn [from_option id].
  change (String.eqb "project_choice" "greet") with false.
  change (String.eqb "project_choice" "project_choice") with true. cbv iota.
  unfold Concierge.handle_project_choice.
  apply String.eqb_neq in Hnew, Hexisting. rewrite Hnew, Hexisting.
  eexists. split; [reflexivity|]. repeat split.
Qed.

Lemma invalid_project_choice_reprompts_witness :
  Concierge.action (Statements.context_with (Some "project_choice") (Some "maybe"))
  = Some "project_choice"
  /\ PyStr.strip (PyStr.upper
       (default "" (Concierge.user_input
                      (Statements.context_with (Some "project_choice") (Some "maybe")))))
     <> "NEW"
  /\ PyStr.strip (PyStr.upper
       (default "" (Concierge.user_input
                      (Statements.context_with (Some "project_choice") (Some "maybe")))))
     <> "EXISTING"
  /\ exists r,
       Concierge.process Storage.empty "session-2"
         (Statements.context_with (Some "project_choice") (Some "maybe"))
       = (Storage.empty, Returned r)
       /\ AgentResponse.success r = false
       /\ AgentResponse.next_action r
          = Concierge.action (Statements.context_with (Some "project_choice") (Some "maybe"))
       /\ AgentResponse.data r = Some (Concierge.ValidOptions ["NEW"; "EXISTING"]).
Proof.
  assert (H1 : PyStr.strip (PyStr.upper
       (default "" (Concierge.user_input
                      (Statements.context_with (Some "project_choice") (Some "maybe")))))
     <> "NEW") by (vm_compute; discriminate).
  assert (H2 : PyStr.strip (PyStr.upper
       (default "" (Concierge.user_input
                      (Statements.context_with (Some "project_choice") (Some "maybe")))))
     <> "EXISTING") by (vm_compute; discriminate).
  split; [reflexivity|]. split; [exact H1|]. split; [exact H2|].
  exact (invalid_project_choice_reprompts Storage.empty "session-2"
           (Statements.context_with (Some "project_choice") (Some "maybe")) eq_refl H1 H2).
Defined.

(** X28. A greeting without a session id opens a session: it is stored under
    the fresh id for the user (or 'anonymous'), the response carries that
    id and awaits 'project_choice'. *)
Theorem greeting_opens_session
    (st : Storage.t) (fresh : string) (context : Concierge.Context) :
  PyStr.truthy (Concierge.session_id context) = false ->
  PyStr.nonempty fresh = true ->
  exists r,
    snd (Concierge.handle_greeting st fresh context) = Returned r
    /\ AgentResponse.data r
       = Some (Concierge.SessionStarted fresh "project_choice" ["NEW"; "EXISTING"])
    /\ AgentResponse.next_action r = Some "project_choice"
    /\ Storage.chat_sessions (fst (Concierge.handle_greeting st fresh context)) !! fresh
       = Some {| ChatSession.session_id := fresh;
                 ChatSession.user_id := default "anonymous" (Concierge.user_id context);
                 ChatSession.current_use_case_id := None;
                 ChatSession.current_project_id := None;
                 ChatSession.status := "active" |}.
Proof.
  intros Hsession Hfresh.
  unfold Concierge.handle_greeting. rewrite Hsession.
  unfold Storage.create_chat_session. cbn [ChatSession.session_id]. rewrite Hfresh.
  eexists. cbn [fst snd Storage.chat_sessions]. split; [reflexivity|].
  unfold create_response. cbn [AgentResponse.data AgentResponse.next_action].
  split; [reflexivity|]. split; [reflexivity|]. apply lookup_insert_eq.
Qed.

Lemma greeting_opens_session_witness :
  PyStr.truthy
    (Concierge.session_id
       {| Concierge.action := None; Concierge.user_input := None;
          Concierge.user_id := None; Concierge.session_id := None;
          Concierge.use_case_id := None; Concierge.user_name := Some "Ada" |}) = false
  /\ PyStr.nonempty "session-1" = true
  /\ exists r,
       snd (Concierge.handle_greeting Storage.empty "session-1"
              {| Concierge.action := None; Concierge.user_input := None;
                 Concierge.user_id := None; Concierge.session_id := None;
                 Concierge.use_case_id := None; Concierge.user_name := Some "Ada" |})
       = Returned r
       /\ AgentResponse.data r
          = Some (Concierge.SessionStarted "session-1" "project_choice" ["NEW"; "EXISTING"])
       /\ AgentResponse.next_action r = Some "project_choice"
       /\ Storage.chat_sessions
            (fst (Concierge.handle_greeting Storage.empty "session-1"
                    {| Concierge.action := None; Concierge.user_input := None;
                       Concierge.user_id := None; Concierge.session_id := None;
                       Concierge.use_case_id := None; Concierge.user_name := Some "Ada" |}))
          !! "session-1"
          = Some {| ChatSession.session_id := "session-1";
                    ChatSession.user_id :=
                      default "anonymous"
                        (Concierge.user_id
                           {| Concierge.action := None; Concierge.user_input := None;
                              Concierge.user_id := None; Concierge.session_id := None;
                              Concierge.use_case_id := None;
                              Concierge.user_name := Some "Ada" |});
                    ChatSession.current_use_case_id := None;
                    ChatSession.current_project_id := None;
                    ChatSession.status := "active" |}.
Proof.
  split; [reflexivity|]. split; [reflexivity|].
  exact (greeting_opens_session Storage.empty "session-1"
           {| Concierge.action := None; Concierge.user_input := None;
              Concierge.user_id := None; Concierge.session_id := None;
              Concierge.use_case_id := None; Concierge.user_name := Some "Ada" |}
           eq_refl eq_refl).
Defined.

(** X29. [process] writes to the storage only when it greets a user without a
    session or handles the intake form: for every other action label, and
    for a greeting within a session, the storage is returned as it was. *)
Theorem concierge_storage_frame
    (st : Storage.t) (fresh : string) (context : Concierge.Context) :
  default "greet" (Concierge.action context) <> "intake_form" ->
  (default "greet" (Concierge.action context) = "greet" ->
   PyStr.truthy (Concierge.session_id context) = true) ->
  fst (Concierge.process st fresh context) = st.
Proof.
  intros Hform Hgreet. unfold Concierge.process.
  set (label := default "greet" (Concierge.action context)) in *.
  cbv zeta.
  destruct (String.eqb_spec label "greet") as [Hl|_].
  - unfold Concierge.handle_greeting. rewrite (Hgreet Hl). reflexivity.
  - destruct (String.eqb label "project_choice"); [reflexivity|].
    destruct (String.eqb_spec label "intake_form") as [Hl|_]; [contradiction|].
    destruct (String.eqb label "submit_intake"); [reflexivity|].
    destruct (String.eqb label "existing_project"); reflexivity.
Qed.

Lemma concierge_storage_frame_witness :
  default "greet" (Concierge.action (Statements.context_with None (Some "hello")))
  <> "intake_form"
  /\ (default "greet" (Concierge.action (Statements.context_with None (Some "hello")))
      = "greet" ->
      PyStr.truthy (Concierge.session_id (Statements.context_with None (Some "hello")))
      = true)
  /\ fst (Concierge.process (Statements.store_with Statements.uc_asap) "session-2"
            (Statements.context_with None (Some "hello")))
     = Statements.store_with Statements.uc_asap.
Proof.
  assert (H1 : default "greet" (Concierge.action (Statements.context_with None (Some "hello")))
               <> "intake_form") by discriminate.
  assert (H2 : default "greet" (Concierge.action (Statements.context_with None (Some "hello")))
               = "greet" ->
               PyStr.truthy (Concierge.session_id (Statements.context_with None (Some "hello")))
               = true) by reflexivity.
  split; [exact H1|]. split; [exact H2|].
  exact (concierge_storage_frame (Statements.store_with Statements.uc_asap) "session-2"
           (Statements.context_with None (Some "hello")) H1 H2).
Defined.

(** X30. The third option of the intake form ('3', 'upload', 'paste' or
    'existing', in any case, with any surrounding blanks) raises: its
    handler is missing from the class.  Nothing is written. *)
Theorem upload_option_raises
    (st : Storage.t) (fresh : string) (context : Concierge.Context) :
  Concierge.action context = Some "intake_form" ->
  In (PyStr.lower (PyStr.strip (default "" (Concierge.user_input context))))
     ["3"; "upload"; "paste"; "existing"] ->
  Concierge.process st fresh context
  = (st, Raised "'ConciergeAgent' object has no attribute '_start_upload_intake'").
Proof.
  intros Haction Hin.
  unfold Concierge.process. rewrite Haction. cbn [from_option id].
  change (String.eqb "intake_form" "greet") with false.
  change (String.eqb "intake_form" "project_choice") with false.
  change (String.eqb "intake_form" "intake_form") with true. cbv iota.
  unfold Concierge.handle_intake_form.
  simpl in Hin. destruct Hin as [<-|[<-|[<-|[<-|[]]]]]; reflexivity.
Qed.

Lemma upload_option_raises_witness :
  Concierge.action (Statements.context_with (Some "intake_form") (Some " Upload "))
  = Some "intake_form"
  /\ In (PyStr.lower (PyStr.strip
           (default "" (Concierge.user_input
                          (Statements.context_with (Some "intake_form") (Some " Upload "))))))
        ["3"; "upload"; "paste"; "existing"]
  /\ Concierge.process Storage.empty "uc-2"
       (Statements.context_with (Some "intake_form") (Some " Upload "))
     = (Storage.empty,
        Raised "'ConciergeAgent' object has no attribute '_start_upload_intake'").
Proof.
  assert (Hin : In (PyStr.lower (PyStr.strip
           (default "" (Concierge.user_input
                          (Statements.context_with (Some "intake_form") (Some " Upload "))))))
        ["3"; "upload"; "paste"; "existing"]).
  { vm_compute. auto. }
  split; [reflexivity|]. split; [exact Hin|].
  exact (upload_option_raises Storage.empty "uc-2"
           (Statements.context_with (Some "intake_form") (Some " Upload ")) eq_refl Hin).
Defined.
